(** * Cheetah: run materializer and campaign status scan

    A shallow embedding of [codar/cheetah/status.py] and
    [codar/cheetah/launchers.py], and the properties of the campaign
    status report and of group materialization proved on it.

    Conventions of the embedding.
    - A Python [str] is a [string]; every character is read as the code
      point of its number (0..255).
    - A Python [int] is a [Z].
    - A Python [dict] whose iteration order is observable (a parsed JSON
      object, the environment of an invocation, a job descriptor) is an
      association list in insertion order; a dict used as a table of
      counters is a [gmap].
    - A raised exception is a value of [exn]; a computation that prints
      carries the texts of its [print] calls, and keeps the ones made
      before an exception. *)

From Stdlib Require Import ZArith Lia Ascii.
From Stdlib Require String.
From stdpp Require Import base option list gmap strings pretty sorting.

Local Open Scope Z_scope.

(** ** Exceptions and results *)

Inductive exn : Type :=
  | ValueError
  | KeyError
  | IndexError
  | JSONDecodeError
  | ZeroDivisionError
  | OverflowError
  | FileExistsError
  | FileNotFoundError
  | NotADirectoryError
  | IsADirectoryError
  | SameFileError
  | ParameterError.

Inductive result (A : Type) : Type :=
  | Ok (a : A)
  | Raise (e : exn).
Arguments Ok {A} a.
Arguments Raise {A} e.

#[global] Instance exn_eq_dec : EqDecision exn.
Proof. solve_decision. Defined.

Definition is_ok {A} (r : result A) : bool :=
  match r with Ok _ => true | Raise _ => false end.

Definition from_result {A} (d : A) (r : result A) : A :=
  match r with Ok a => a | Raise _ => d end.

(** ** Python string helpers *)

Module PyStr.

(** [str.isspace] on one character, for the code points 0..255. *)
Definition isspace (c : ascii) : bool :=
  let n := N_of_ascii c in
  ((9 <=? n) && (n <=? 13) || (28 <=? n) && (n <=? 32)
   || (n =? 133) || (n =? 160))%N.

Fixpoint lstrip (s : string) : string :=
  match s with
  | String c s' => if isspace c then lstrip s' else s
  | EmptyString => EmptyString
  end.

(** [rstrip]: a character is dropped when it is white space and all
    that follows it has been dropped. *)
Fixpoint rstrip (s : string) : string :=
  match s with
  | String c s' =>
      match rstrip s' with
      | EmptyString => if isspace c then EmptyString else String c EmptyString
      | r => String c r
      end
  | EmptyString => EmptyString
  end.

(** [s.strip()] *)
Definition strip (s : string) : string := rstrip (lstrip s).

(** [s.split(sep)] for a one-character separator: the fields between
    the separators, at least one. *)
Fixpoint split (sep : ascii) (s : string) : list string :=
  match s with
  | EmptyString => [EmptyString]
  | String c s' =>
      if Ascii.eqb c sep then EmptyString :: split sep s'
      else match split sep s' with
           | f :: fs => String c f :: fs
           | [] => [String c EmptyString]
           end
  end.

(** [sep.join(l)] *)
Fixpoint join (sep : string) (l : list string) : string :=
  match l with
  | [] => ""
  | [x] => x
  | x :: l' => x +:+ sep +:+ join sep l'
  end.

(** [c * n] for a string [c] *)
Fixpoint repeat (c : string) (n : nat) : string :=
  match n with
  | O => ""
  | S n' => c +:+ repeat c n'
  end.

(** The conversion [%Ns]: right-justified in a field of [width]. *)
Definition rjust (width : nat) (s : string) : string :=
  repeat " " (width - String.length s) +:+ s.

(** [truthy s]: a string is true when it is not empty. *)
Definition truthy (s : string) : bool :=
  match s with EmptyString => false | _ => true end.

(** Insertion sort by [leb]; on lists without repetition this is what
    [sorted] returns. *)
Fixpoint insert_sorted {A} (leb : A -> A -> bool) (x : A) (l : list A) : list A :=
  match l with
  | [] => [x]
  | y :: l' => if leb x y then x :: l else y :: insert_sorted leb x l'
  end.

Definition sorted {A} (leb : A -> A -> bool) (l : list A) : list A :=
  foldr (insert_sorted leb) [] l.

(** [print(a, b, ...)]: the arguments separated by one space. *)
Definition print_args (args : list string) : string := join " " args.

End PyStr.

(** ** Printing computations

    [out A] is a computation that prints and then either returns an [A] or
    raises: the texts of the [print] calls made, one per call and without
    the final newline, and the outcome.  What was printed before an
    exception stays printed. *)

Definition out (A : Type) : Type := (list string * result A)%type.

Definition out_ret {A} (a : A) : out A := ([], Ok a).
Definition out_raise {A} (e : exn) : out A := ([], Raise e).
Definition print (args : list string) : out unit := ([PyStr.print_args args], Ok tt).

Definition out_bind {A B} (m : out A) (f : A -> out B) : out B :=
  match m with
  | (o, Ok a) => let '(o', r) := f a in (o ++ o', r)
  | (o, Raise e) => (o, Raise e)
  end.

Notation "'let!' x := m 'in' k" := (out_bind m (fun x => k))
  (at level 10, x pattern, m at level 100, k at level 200).
Notation "m ;;; k" := (out_bind m (fun _ => k))
  (at level 100, k at level 200, right associativity).

(** [for x in l: body(x)] *)
Fixpoint out_for {A} (l : list A) (body : A -> out unit) : out unit :=
  match l with
  | [] => out_ret tt
  | x :: l' => out_bind (body x) (fun _ => out_for l' body)
  end.

(** [when b m]: [if b: m] *)
Definition out_when (b : bool) (m : out unit) : out unit :=
  if b then m else out_ret tt.

(** ** status.py *)

Module Status.

(** One Status Record [st] of the status document: [st['state']],
    [st.get('reason')] and [st.get('return_codes')]; [None] is an absent
    (or null) field. *)
Record status_record : Type := {
  state : string;
  reason : option string;
  return_codes : option (list (string * Z));
}.

(** The object [json.load] returns: run name to Status Record, in the
    order of the document. *)
Definition status_data : Type := list (string * status_record).

(** The text of a status file, by what [json.load] makes of it. *)
Inductive status_file : Type :=
  | Unparseable
  | Document (d : status_data).

(** The well-known files of a group directory: the content of each,
    [None] when the file does not exist. *)
Record group_dir : Type := {
  jobid_file : option string;          (* codar.cheetah.jobid.txt *)
  status_json : option status_file;    (* codar.workflow.status.json *)
  walltime_file : option string;       (* codar.cheetah.walltime.txt *)
}.

(** A campaign directory: the users that [get_immediate_subdirs] lists,
    each with the groups it lists for the user's directory. *)
Definition campaign : Type := list (string * list (string * group_dir)).

(** The counters of [get_workflow_status]. *)
Record counters : Type := {
  total_rc : Z;
  rc_counts : gmap Z Z;
  state_counts : gmap string Z;
  total_reasons : Z;
  reason_counts : gmap string Z;
}.

(** [d[k]] of a [defaultdict(int)] *)
Definition dd_get `{Countable K} (d : gmap K Z) (k : K) : Z := default 0 (d !! k).

(** [d[k] += 1] of a [defaultdict(int)] *)
Definition dd_incr `{Countable K} (d : gmap K Z) (k : K) : gmap K Z :=
  <[k := dd_get d k + 1]> d.

(** [dict(not_started=0, running=0, done=0, killed=0)] *)
Definition state_counts_init : gmap string Z :=
  <["killed" := 0]> (<["done" := 0]> (<["running" := 0]> (<["not_started" := 0]> ∅))).

Definition counters_init : counters :=
  {| total_rc := 0; rc_counts := ∅; state_counts := state_counts_init;
     total_reasons := 0; reason_counts := ∅ |}.

(** [state_counts[st['state']] += 1] on a plain dict: a key that is not
    in the table raises [KeyError]. *)
Definition count_state (c : counters) (s : string) : result counters :=
  match state_counts c !! s with
  | None => Raise KeyError
  | Some n =>
      Ok {| total_rc := total_rc c; rc_counts := rc_counts c;
            state_counts := <[s := n + 1]> (state_counts c);
            total_reasons := total_reasons c; reason_counts := reason_counts c |}
  end.

(** [reason = st.get('reason'); if reason: ...] *)
Definition count_reason (c : counters) (r : option string) : counters :=
  match r with
  | Some r =>
      if PyStr.truthy r then
        {| total_rc := total_rc c; rc_counts := rc_counts c;
           state_counts := state_counts c;
           total_reasons := total_reasons c + 1;
           reason_counts := dd_incr (reason_counts c) r |}
      else c
  | None => c
  end.

(** [total_rc += 1; rc_counts[rc] += 1] *)
Definition count_rc (c : counters) (rc : Z) : counters :=
  {| total_rc := total_rc c + 1; rc_counts := dd_incr (rc_counts c) rc;
     state_counts := state_counts c;
     total_reasons := total_reasons c; reason_counts := reason_counts c |}.

(** [return_codes = st.get('return_codes'); if return_codes: for rc in
    return_codes.values(): ...] *)
Definition count_return_codes (c : counters) (rcs : option (list (string * Z))) : counters :=
  match rcs with
  | Some l => foldl count_rc c (map snd l)
  | None => c
  end.

(** The body of [for st in status_data.values()]. *)
Definition count_record (c : counters) (st : status_record) : result counters :=
  match count_state c (state st) with
  | Raise e => Raise e
  | Ok c1 => Ok (count_return_codes (count_reason c1 (reason st)) (return_codes st))
  end.

Fixpoint count_records (c : counters) (l : list status_record) : result counters :=
  match l with
  | [] => Ok c
  | st :: l' =>
      match count_record c st with
      | Raise e => Raise e
      | Ok c' => count_records c' l'
      end
  end.

(** [filter_run and run_name not in filter_run] *)
Definition filtered_out (filter : option (list string)) (name : string) : bool :=
  match filter with
  | None | Some [] => false
  | Some l => negb (bool_decide (name ∈ l))
  end.

(** [sorted(d.keys())] of a table of counters *)
Definition sorted_keys {V} (d : gmap string V) : list string :=
  PyStr.sorted String.leb (map fst (map_to_list d)).

Definition sorted_Z_keys {V} (d : gmap Z V) : list Z :=
  PyStr.sorted Z.leb (map fst (map_to_list d)).

(** [d[k]] of a dict given as its items *)
Fixpoint assoc {V} (k : string) (l : list (string * V)) : option V :=
  match l with
  | [] => None
  | (k', v) :: l' => if String.eqb k k' then Some v else assoc k l'
  end.

(** The [if print_counts:] block. *)
Definition print_counts_block (prefix : string) (total_count : Z) (c : counters) : out unit :=
  (print [prefix +:+ "== total runs:"; pretty total_count] ;;;
   out_for (sorted_keys (state_counts c)) (fun k =>
     print [prefix +:+ "state  " +:+ PyStr.rjust 11 k +:+ ": "
                   +:+ pretty (dd_get (state_counts c) k)]) ;;;
   print [String "010" (prefix +:+ "== total w/ reason:"); pretty (total_reasons c)] ;;;
   out_for (sorted_keys (reason_counts c)) (fun k =>
     print [prefix +:+ "reason " +:+ PyStr.rjust 11 k +:+ ": "
                   +:+ pretty (dd_get (reason_counts c) k)]) ;;;
   print [String "010" (prefix +:+ "== total return codes:"); pretty (total_rc c)] ;;;
   out_for (sorted_Z_keys (rc_counts c)) (fun k =>
     print [prefix +:+ "return code " +:+ pretty k +:+ ": "
                   +:+ pretty (dd_get (rc_counts c) k)]) ;;;
   print []).

(** The [if print_return_codes:] block. *)
Definition print_return_codes_block (prefix : string) (d : status_data)
    (filter_run : option (list string)) : out unit :=
  (out_for (PyStr.sorted String.leb (map fst d)) (fun run_name =>
     if filtered_out filter_run run_name then out_ret tt
     else
       match assoc run_name d with
       | None => out_raise KeyError
       | Some run_data =>
           match return_codes run_data with
           | None | Some [] => out_ret tt
           | Some rc =>
               print [prefix +:+ run_name] ;;;
               out_for (PyStr.sorted String.leb (map fst rc)) (fun code_name =>
                 match assoc code_name rc with
                 | None => out_raise KeyError
                 | Some v =>
                     print [prefix +:+ prefix +:+ code_name +:+ ": " +:+ pretty v]
                 end)
           end
       end) ;;;
   print []).

(** [get_workflow_status(status_file_path, print_counts, indent,
    print_return_codes, filter_run)]; the file at [status_file_path] is
    given by its content, [None] when there is no such file. *)
Definition get_workflow_status (f : option status_file)
    (print_counts : bool) (indent : nat) (print_return_codes : bool)
    (filter_run : option (list string))
    : out (status_data * gmap string Z * gmap string Z * gmap Z Z) :=
  match f with
  | None => out_raise FileNotFoundError
  | Some Unparseable => out_raise JSONDecodeError
  | Some (Document status_data) =>
      let total_count := Z.of_nat (length status_data) in
      match count_records counters_init (map snd status_data) with
      | Raise e => out_raise e
      | Ok c =>
          let prefix := PyStr.repeat " " indent in
          (out_when print_counts (print_counts_block prefix total_count c) ;;;
           out_when print_return_codes
             (print_return_codes_block prefix status_data filter_run) ;;;
           out_ret (status_data, state_counts c, reason_counts c, rc_counts c))
      end
  end.

(** The options of [print_campaign_status] that the scan of a group
    consults.  The log replay and the output replay ([print_logs],
    [print_output]) are left at their default, off. *)
Record scan_options : Type := {
  filter_user : option (list string);
  filter_group : option (list string);
  filter_run : option (list string);
  group_details : bool;
  opt_return_codes : bool;
}.

Definition default_options : scan_options :=
  {| filter_user := None; filter_group := None; filter_run := None;
     group_details := false; opt_return_codes := false |}.

(** The body of [for group in group_dirs], after the group filter. *)
Definition scan_group (o : scan_options) (user group : string) (g : group_dir) : out unit :=
  let user_group := user +:+ "/" +:+ group in
  match jobid_file g with
  | None => print [user_group; ":"; "NOT SUBMITTED"]
  | Some text =>
      match PyStr.split ":" (PyStr.strip text) !! 1%nat with
      | None => out_raise IndexError
      | Some jobid =>
          match status_json g with
          | Some _ =>
              (let! (status_data, state_counts, reason_counts, rc_counts) :=
                  get_workflow_status (status_json g) false 0 false None in
               let total := Z.of_nat (length status_data) in
               (match walltime_file g with
                | Some _ =>
                    let ok := dd_get reason_counts "succeeded" in
                    if ok <? total then
                      print [user_group; ":"; "DONE,"; pretty (total - ok); "/";
                             pretty total; "failed"]
                    else print [user_group; ":"; "DONE"]
                | None =>
                    let in_progress :=
                      dd_get state_counts "running" + dd_get state_counts "not_started" in
                    print [user_group; ":"; "IN PROGRESS,"; "job"; jobid; ",";
                           pretty (total - in_progress); "/"; pretty total]
                end) ;;;
               (if group_details o then
                  get_workflow_status (status_json g) true 2 false None ;;; out_ret tt
                else out_ret tt) ;;;
               (if opt_return_codes o then
                  get_workflow_status (status_json g) false 2 true (filter_run o) ;;;
                  out_ret tt
                else out_ret tt))
          | None => print [user_group; ":"; "NOT STARTED"]
          end
      end
  end.

(** The body of [for user in user_dirs], after the user filter: the loop
    over the groups of the user. *)
Definition scan_user (o : scan_options) (user : string)
    (group_dirs : list (string * group_dir)) : out unit :=
  out_for group_dirs (fun '(group, g) =>
    if filtered_out (filter_group o) group then out_ret tt
    else scan_group o user group g).

(** [print_campaign_status(campaign_directory, ...)] *)
Definition print_campaign_status (c : campaign) (o : scan_options) : out unit :=
  out_for c (fun '(user, group_dirs) =>
    if filtered_out (filter_user o) user then out_ret tt
    else scan_user o user group_dirs).

End Status.

(** ** The file system

    A path is the list of its components below the root, so that
    [os.path.join(p, name)] is [p ++ [name]]; two paths are the same file
    when they are the same list (no links, no [..]).  The file system maps
    a path to a directory or to the text of a file; the root directory is
    the entry of the empty path.  An operation takes the file system and
    returns the new one with its outcome: what was done before an exception
    stays done. *)

Module FS.

Abbreviation path := (list string).

Inductive node : Type :=
  | Dir
  | File (content : string).

#[global] Instance node_eq_dec : EqDecision node.
Proof. solve_decision. Defined.

Definition io (A : Type) : Type := gmap path node -> gmap path node * result A.

Definition ret {A} (a : A) : io A := fun fs => (fs, Ok a).
Definition raise {A} (e : exn) : io A := fun fs => (fs, Raise e).
Definition bind {A B} (m : io A) (f : A -> io B) : io B :=
  fun fs => match m fs with
            | (fs', Ok a) => f a fs'
            | (fs', Raise e) => (fs', Raise e)
            end.

(** [for x in l: body(x)] *)
Fixpoint for_each {A} (l : list A) (body : A -> io unit) : io unit :=
  match l with
  | [] => ret tt
  | x :: l' => bind (body x) (fun _ => for_each l' body)
  end.

(** [os.path.join(p, name)] *)
Definition join (p : path) (name : string) : path := p ++ [name].

(** [os.path.dirname(p)] and [os.path.basename(p)] *)
Definition dirname (p : path) : path := removelast p.
Definition basename (p : path) : string := List.last p "".

(** The text of a path: [/a/b/c]. *)
Definition to_string (p : path) : string :=
  match p with
  | [] => "/"
  | _ => String.concat "" (map (fun c => "/" +:+ c) p)
  end.

Definition isdir (fs : gmap path node) (p : path) : bool :=
  match fs !! p with Some Dir => true | _ => false end.

Definition exists_ (fs : gmap path node) (p : path) : bool :=
  match fs !! p with Some _ => true | None => false end.

(** [os.mkdir(p)] *)
Definition mkdir (p : path) : io unit := fun fs =>
  match fs !! p with
  | Some _ => (fs, Raise FileExistsError)
  | None =>
      match fs !! dirname p with
      | Some Dir => (<[p := Dir]> fs, Ok tt)
      | Some (File _) => (fs, Raise NotADirectoryError)
      | None => (fs, Raise FileNotFoundError)
      end
  end.

(** [os.makedirs(p, exist_ok=exist_ok)], on the reversed path [rp]: the
    missing parent is made first, by the same function; then [mkdir],
    whose failure is passed over when [exist_ok] is set and the path is a
    directory. *)
Fixpoint makedirs_rev (exist_ok : bool) (rp : list string) : io unit := fun fs =>
  let p := rev rp in
  let '(fs1, r) :=
    match rp with
    | _ :: (_ :: _) as rhead =>
        if exists_ fs (rev rhead) then (fs, Ok tt)
        else match makedirs_rev exist_ok rhead fs with
             | (fs', Raise FileExistsError) => (fs', Ok tt)
             | other => other
             end
    | _ => (fs, Ok tt)
    end in
  match r with
  | Raise e => (fs1, Raise e)
  | Ok _ =>
      match mkdir p fs1 with
      | (fs2, Raise e) =>
          if exist_ok && isdir fs2 p then (fs2, Ok tt) else (fs2, Raise e)
      | done => done
      end
  end.

Definition makedirs (exist_ok : bool) (p : path) : io unit :=
  makedirs_rev exist_ok (rev p).

(** [with open(p, 'w') as f: f.write(text)] *)
Definition write_file (p : path) (text : string) : io unit := fun fs =>
  match fs !! p with
  | Some Dir => (fs, Raise IsADirectoryError)
  | Some (File _) => (<[p := File text]> fs, Ok tt)
  | None =>
      match fs !! dirname p with
      | Some Dir => (<[p := File text]> fs, Ok tt)
      | Some (File _) => (fs, Raise NotADirectoryError)
      | None => (fs, Raise FileNotFoundError)
      end
  end.

(** [shutil.copyfile(src, dst)] *)
Definition copyfile (src dst : path) : io unit := fun fs =>
  if decide (src = dst) then
    (fs, Raise (if exists_ fs src then SameFileError else FileNotFoundError))
  else
    match fs !! src with
    | None => (fs, Raise FileNotFoundError)
    | Some Dir => (fs, Raise IsADirectoryError)
    | Some (File text) => write_file dst text fs
    end.

(** [shutil.copy(src, dst)], and [shutil.copy2(src, dst)], which differs
    in the metadata only: a destination that is a directory receives the
    file under the name it has. *)
Definition copy (src dst : path) : io unit := fun fs =>
  if isdir fs dst then copyfile src (join dst (basename src)) fs
  else copyfile src dst fs.

(** The part of [p] below [pre], when [p] is [pre] or lies below it. *)
Fixpoint strip_prefix (pre p : path) : option path :=
  match pre, p with
  | [], _ => Some p
  | c :: pre', d :: p' => if decide (c = d) then strip_prefix pre' p' else None
  | _ :: _, [] => None
  end.

(** The entries below [src], renamed to lie below [dst]. *)
Definition rerooted (src dst : path) (fs : gmap path node) : gmap path node :=
  list_to_map
    (omap (fun pn : path * node =>
             match strip_prefix src pn.1 with
             | Some (c :: rest) => Some (dst ++ c :: rest, pn.2)
             | _ => None
             end)
          (map_to_list fs)).

(** [shutil.copytree(src, dst)]: [src] is listed, [dst] is made with
    [os.makedirs(dst)], which refuses a path that exists, and the tree
    below [src] is copied below it.  The names below [dst] are free when
    [dst] was. *)
Definition copytree (src dst : path) : io unit := fun fs =>
  match fs !! src with
  | None => (fs, Raise FileNotFoundError)
  | Some (File _) => (fs, Raise NotADirectoryError)
  | Some Dir =>
      match makedirs false dst fs with
      | (fs1, Raise e) => (fs1, Raise e)
      | (fs1, Ok _) => (fs1 ∪ rerooted src dst fs, Ok tt)
      end
  end.

End FS.

Notation "'do!' x := m 'in' k" := (FS.bind m (fun x => k))
  (at level 10, x pattern, m at level 100, k at level 200).
Notation "m >>> k" := (FS.bind m (fun _ => k))
  (at level 100, k at level 200, right associativity).

(** ** JSON values and [json.dumps]

    The values that the materializer serializes: no floating-point number
    occurs in them.  An object keeps the order in which its keys were
    set. *)

Module Json.

#[local] Set Warnings "-register-all".

Inductive value : Type :=
  | Null
  | Bool (b : bool)
  | Int (z : Z)
  | Str (s : string)
  | Arr (l : list value)
  | Obj (l : list (string * value)).

(** [d.get(k)] of a dict given by its items *)
Fixpoint dict_get {V} (k : string) (d : list (string * V)) : option V :=
  match d with
  | [] => None
  | (k', v) :: d' => if decide (k = k') then Some v else dict_get k d'
  end.

(** [d[k] = v]: the value of an existing key is replaced where it
    stands, a new key goes last. *)
Fixpoint dict_set {V} (k : string) (v : V) (d : list (string * V)) : list (string * V) :=
  match d with
  | [] => [(k, v)]
  | (k', v') :: d' => if decide (k = k') then (k, v) :: d' else (k', v') :: dict_set k v d'
  end.

Definition quote : ascii := "034"%char.
Definition backslash : ascii := "\"%char.
Definition newline : ascii := "010"%char.

Definition hex_digit (n : N) : ascii :=
  match n with
  | 0 => "0" | 1 => "1" | 2 => "2" | 3 => "3" | 4 => "4" | 5 => "5"
  | 6 => "6" | 7 => "7" | 8 => "8" | 9 => "9" | 10 => "a" | 11 => "b"
  | 12 => "c" | 13 => "d" | 14 => "e" | _ => "f"
  end%char%N.

(** The replacement of one character by [ESCAPE_ASCII]: backslash and
    quote are escaped, the control characters that have a short form get
    it, the printable ASCII characters stand for themselves and every
    other one becomes [\u00xx]. *)
Definition escape_char (c : ascii) : string :=
  let n := N_of_ascii c in
  if (n =? 92)%N then "\\"
  else if (n =? 34)%N then String backslash (String quote "")
  else if (n =? 8)%N then "\b"
  else if (n =? 12)%N then "\f"
  else if (n =? 10)%N then "\n"
  else if (n =? 13)%N then "\r"
  else if (n =? 9)%N then "\t"
  else if ((32 <=? n) && (n <=? 126))%N then String c ""
  else "\u00" +:+ String (hex_digit (n / 16)) (String (hex_digit (n mod 16)) "").

Fixpoint escape (s : string) : string :=
  match s with
  | EmptyString => ""
  | String c s' => escape_char c +:+ escape s'
  end.

(** [py_encode_basestring_ascii(s)] *)
Definition encode_string (s : string) : string :=
  String quote (escape s +:+ String quote "").

(** The line break and the indentation that open the items of a
    container at nesting [level], when [indent] is set. *)
Definition newline_indent (indent : option nat) (level : nat) : string :=
  match indent with
  | None => ""
  | Some n => String newline (PyStr.repeat " " (n * level))
  end.

Definition item_separator (indent : option nat) (level : nat) : string :=
  match indent with
  | None => ", "
  | Some _ => "," +:+ newline_indent indent level
  end.

(** [json.dumps(v, indent=indent)], at nesting [level]. *)
Fixpoint encode (indent : option nat) (level : nat) (v : value) : string :=
  match v with
  | Null => "null"
  | Bool true => "true"
  | Bool false => "false"
  | Int z => pretty z
  | Str s => encode_string s
  | Arr [] => "[]"
  | Arr l =>
      "[" +:+ newline_indent indent (S level)
      +:+ PyStr.join (item_separator indent (S level))
            (map (encode indent (S level)) l)
      +:+ newline_indent indent level +:+ "]"
  | Obj [] => "{}"
  | Obj l =>
      "{" +:+ newline_indent indent (S level)
      +:+ PyStr.join (item_separator indent (S level))
            (map (fun kv => encode_string kv.1 +:+ ": " +:+ encode indent (S level) kv.2) l)
      +:+ newline_indent indent level +:+ "}"
  end.

(** [json.dumps(v)] *)
Definition dumps (v : value) : string := encode None 0 v.

(** [json.dumps(v, indent=n)] *)
Definition dumps_indent (n : nat) (v : value) : string := encode (Some n) 0 v.

(** The number of line ends in a text. *)
Fixpoint count_newlines (s : string) : nat :=
  match s with
  | EmptyString => 0
  | String c s' => (if Ascii.eqb c newline then 1 else 0) + count_newlines s'
  end%nat.

End Json.

(** ** shlex.quote and the search for a word *)

Module Shlex.

(** The characters that [_find_unsafe] lets pass: [[\w@%+=:,./-]], with
    the ASCII reading of [\w]. *)
Definition safe_char (c : ascii) : bool :=
  let n := N_of_ascii c in
  ((48 <=? n) && (n <=? 57) || (65 <=? n) && (n <=? 90)
   || (97 <=? n) && (n <=? 122) || (n =? 95)
   || (n =? 64) || (n =? 37) || (n =? 43) || (n =? 61) || (n =? 58)
   || (n =? 44) || (n =? 46) || (n =? 47) || (n =? 45))%N.

Fixpoint all_safe (s : string) : bool :=
  match s with
  | EmptyString => true
  | String c s' => safe_char c && all_safe s'
  end.

Definition apostrophe : ascii := "039"%char.

(** [s.replace("'", "'\"'\"'")] *)
Fixpoint replace_apostrophes (s : string) : string :=
  match s with
  | EmptyString => ""
  | String c s' =>
      if Ascii.eqb c apostrophe then
        String apostrophe (String Json.quote (String apostrophe
          (String Json.quote (String apostrophe (replace_apostrophes s')))))
      else String c (replace_apostrophes s')
  end.

(** [shlex.quote(s)] *)
Definition quote (s : string) : string :=
  match s with
  | EmptyString => "''"
  | _ =>
      if all_safe s then s
      else String apostrophe (replace_apostrophes s +:+ String apostrophe "")
  end.

End Shlex.

Module Re.

(** An ASCII letter in lower case; [re.IGNORECASE] makes no other
    character below 256 equal to a letter of [titan]. *)
Definition lower (c : ascii) : ascii :=
  let n := N_of_ascii c in
  if ((65 <=? n) && (n <=? 90))%N then ascii_of_N (n + 32) else c.

Fixpoint prefix_ci (pat s : string) : bool :=
  match pat, s with
  | EmptyString, _ => true
  | String a pat', String b s' => Ascii.eqb (lower a) (lower b) && prefix_ci pat' s'
  | String _ _, EmptyString => false
  end.

(** [re.search(word, s, re.IGNORECASE)] is not [None], for a pattern
    [word] of letters *)
Fixpoint search_ci (word s : string) : bool :=
  prefix_ci word s ||
  match s with
  | EmptyString => false
  | String _ s' => search_ci word s'
  end.

End Re.

(** ** launchers.py *)

Module Launchers.

Import Json.

Abbreviation dict := (list (string * value)).

(** The values that fill the slots of [templates.GROUP_ENV_TEMPLATE]. *)
Record group_env : Type := {
  env_walltime : Z;
  env_max_procs : Z;
  env_processes_per_node : Z;
  env_nodes : Z;
  env_node_exclusive : bool;
  env_account : string;
  env_queue : string;
  env_campaign_name : string;
  env_group_name : string;
  env_constraint : string;
  env_license : string;
}.

(** What [launchers.py] imports from modules of the repository that are
    not among its sources: [helpers.parse_timedelta_seconds] on the type
    of the values it accepts, [config.CHEETAH_PATH_SCRIPTS],
    [templates.GROUP_ENV_TEMPLATE] by its [format], and the edit that
    [adios_transform.adios_xml_transform] makes to the text of an XML
    file, for a group, a variable and a transform. *)
Class Externals : Type := {
  timespec : Type;
  parse_timedelta_seconds : timespec -> result Z;
  CHEETAH_PATH_SCRIPTS : FS.path;
  GROUP_ENV_TEMPLATE_format : group_env -> string;
  xml_set_transform : string -> string -> string -> string -> result string;
}.

(** One element of [run.get_codes_argv_with_exe_and_nprocs()]. *)
Record code : Type := {
  cname : string;
  argv : list string;
  nprocs : Z;
  sleep_after : option Z;
}.

(** One element of
    [run.instance.get_parameter_values_by_type(ParamAdiosXML)]. *)
Record adios_pv : Type := {
  xml_filename : string;
  pv_group_name : string;
  var_name : string;
  pv_value : string;
}.

(** A [Run], by what [create_group_directory] asks of it. *)
Record run : Type := {
  run_id : string;
  run_path : FS.path;
  inputs : list FS.path;
  get_codes_argv_with_exe_and_nprocs : list code;
  adios_transform_params : list adios_pv;
  as_dict : value;
}.

Record machine_t : Type := {
  processes_per_node : Z;
}.

(** [self] *)
Record launcher : Type := {
  machine_name : string;
  scheduler_name : string;
  runner_name : string;
  output_directory : FS.path;
  num_codes : Z;
}.

(** The arguments of [create_group_directory] other than [runs]. *)
Record group_args `{Externals} : Type := {
  campaign_name : string;
  group_name : string;
  max_nprocs : Z;
  group_processes_per_node : Z;
  nodes : Z;
  walltime : timespec;
  node_exclusive : bool;
  timeout : option timespec;
  machine : machine_t;
  tau_config : option FS.path;
  kill_on_partial_failure : bool;
  run_post_process_script : option string;
  run_post_process_stop_on_failure : bool;
  scheduler_options : option (gmap string string);
  sos : bool;
}.

Definition run_command_name : string := "codar.cheetah.run-params.txt".
Definition run_json_name : string := "codar.cheetah.run-params.json".
Definition run_fob_name : string := "codar.cheetah.fob.json".
Definition fobs_name : string := "fobs.json".

(** [TAU_PROFILE_PATTERN.format(code=cname)] *)
Definition TAU_PROFILE_PATTERN_format (cname : string) : string :=
  "codar.cheetah.tau-" +:+ cname.

Definition nl : string := String newline "".

(** The least integer that is not below the quotient of [n] by [d],
    for [0 < d]. *)
Definition ceil_div (n d : Z) : Z := - ((- n) / d).

(** [floor(log2(n / d))] for [0 < n] and [0 < d]: the difference of the
    two logarithms, or one less. *)
Definition floor_log2_quotient (n d : Z) : Z :=
  let s := Z.log2 n - Z.log2 d in
  if (if 0 <=? s then d * 2 ^ s <=? n else d <=? n * 2 ^ (- s)) then s else s - 1.

(** The integer nearest to [a / b], for [0 < b]; the even one of the
    two when [a / b] lies half way between them. *)
Definition round_half_even (a b : Z) : Z :=
  let k := a / b in
  let r := a mod b in
  if 2 * r <? b then k
  else if b <? 2 * r then k + 1
  else if Z.even k then k else k + 1.

(** The binary64 number nearest to [n / d], for [0 < n] and [0 < d], as
    the pair [(m, e)] that stands for [m * 2 ^ e]: the quotient is
    rounded to 53 bits, and to the multiples of [2 ^ -1074] where it is
    below [2 ^ -1022]. *)
Definition nearest_binary64 (n d : Z) : Z * Z :=
  let e := Z.max (floor_log2_quotient n d - 52) (-1074) in
  let m :=
    if 0 <=? e then round_half_even n (d * 2 ^ e)
    else round_half_even (n * 2 ^ (- e)) d in
  (m, e).

(** [n / d] for two [int]: the binary64 number nearest to the quotient,
    as [(m, e)] for [m * 2 ^ e]; a divisor 0 and a quotient that rounds
    to [2 ^ 1024] or more are errors, a quotient that is too small
    becomes 0. *)
Definition truediv (n d : Z) : result (Z * Z) :=
  if d =? 0 then Raise ZeroDivisionError
  else if n =? 0 then Ok (0, 0)
  else
    let '(m, e) := nearest_binary64 (Z.abs n) (Z.abs d) in
    if 2 ^ 1024 <=? m * 2 ^ e then Raise OverflowError
    else Ok (Z.sgn n * Z.sgn d * m, e).

(** [math.ceil(x)] of the float [m * 2 ^ e] *)
Definition math_ceil (x : Z * Z) : Z :=
  let '(m, e) := x in
  if 0 <=? e then m * 2 ^ e else ceil_div m (2 ^ (- e)).

(** [math.ceil(n / d)] for two [int] *)
Definition math_ceil_truediv (n d : Z) : result Z :=
  match truediv n d with
  | Ok x => Ok (math_ceil x)
  | Raise e => Raise e
  end.

(** [add_sos_env(self, env, run_path, ppn, node_index)]: the
    environment after the call. *)
Definition add_sos_env (self : launcher) (env : dict) (run_path : FS.path)
    (ppn node_index : Z) : dict :=
  let env := dict_set "SOS_CMD_PORT" (Int 22500) env in
  let env := dict_set "SOS_EVPATH_MEETUP" (Str (FS.to_string run_path)) env in
  let env := dict_set "TAU_SOS" (Int 1) env in
  let env :=
    if Re.search_ci "titan" (machine_name self) then
      dict_set "LD_LIBRARY_PATH"
        (Str "${LD_LIBRARY_PATH}:/sw/xk6/flexpath/1.12/cle5.2_gnu4.9.3/lib") env
    else env in
  let env := dict_set "SOS_APP_RANKS_PER_NODE" (Int ppn) env in
  dict_set "SOS_LISTENER_RANK_OFFSET" (Int node_index) env.

Definition opt_value {A} (f : A -> value) (o : option A) : value :=
  match o with Some a => f a | None => Null end.

Section WithExternals.

Context `{Externals}.

(** Modelled from the spec: [adios_transform.adios_xml_transform] is
    not among the sources.  It edits one attribute of the file it is
    given: the file is read, the variable of the group gets the
    transform, and the file is written back; a file or a variable that
    is not found is an error. *)
Definition adios_xml_transform (xml_filepath : FS.path)
    (group_name var_name value : string) : FS.io unit := fun fs =>
  match fs !! xml_filepath with
  | None => (fs, Raise FileNotFoundError)
  | Some FS.Dir => (fs, Raise IsADirectoryError)
  | Some (FS.File text) =>
      match xml_set_transform text group_name var_name value with
      | Raise e => (fs, Raise e)
      | Ok text' => (<[xml_filepath := FS.File text']> fs, Ok tt)
      end
  end.

(** The body of [for j, (cname, argv, nprocs, sleep_after) in
    enumerate(codes_argv_nprocs)], on [fob_runs] and
    [sos_node_index]. *)
Definition fob_code (self : launcher) (a : group_args) (r : run)
    (acc : list dict * Z) (c : code) : FS.io (list dict * Z) :=
  let '(fob_runs, sos_node_index) := acc in
  let tau_profile_dir :=
    FS.join (run_path r) (TAU_PROFILE_PATTERN_format (cname c)) in
  FS.makedirs false tau_profile_dir >>>
  let env := dict_set "PROFILEDIR" (Str (FS.to_string tau_profile_dir)) [] in
  do! (env, sos_node_index) :=
    (if sos a then
       let env := add_sos_env self env (run_path r)
                    (processes_per_node (machine a)) sos_node_index in
       match math_ceil_truediv (nprocs c) (processes_per_node (machine a)) with
       | Ok n => FS.ret (env, sos_node_index + n)
       | Raise e => FS.raise e
       end
     else FS.ret (env, sos_node_index)) in
  match argv c with
  | [] => FS.raise IndexError
  | exe :: args =>
      let data : dict :=
        [("name", Str (cname c)); ("exe", Str exe); ("args", Arr (map Str args));
         ("nprocs", Int (nprocs c)); ("sleep_after", opt_value Int (sleep_after c));
         ("env", Obj env)] in
      do! data :=
        (match timeout a with
         | None => FS.ret data
         | Some t =>
             match parse_timedelta_seconds t with
             | Ok s => FS.ret (dict_set "timeout" (Int s) data)
             | Raise e => FS.raise e
             end
         end) in
      FS.ret (fob_runs ++ [data], sos_node_index)
  end.

Fixpoint fob_codes (self : launcher) (a : group_args) (r : run)
    (acc : list dict * Z) (l : list code) : FS.io (list dict * Z) :=
  match l with
  | [] => FS.ret acc
  | c :: l' => do! acc' := fob_code self a r acc c in fob_codes self a r acc' l'
  end.

(** The text of [codar.cheetah.run-params.txt]. *)
Definition run_command_text (codes : list code) : string :=
  String.concat ""
    (map (fun c => PyStr.join " " (map Shlex.quote (argv c)) +:+ nl) codes).

Definition run_fob_path (r : run) : FS.path := FS.join (run_path r) run_fob_name.

(** The statements of the body of [for i, run in enumerate(runs)]
    before the loop over the codes: the run directory, the copies of
    the TAU configuration and of the inputs into it ([run_path + "/."]
    is the run directory), the ADIOS transforms and the two parameter
    files. *)
Definition run_files (self : launcher) (a : group_args) (r : run) : FS.io unit :=
  FS.makedirs true (run_path r) >>>
  (match tau_config a with
   | Some cfg => FS.copy cfg (run_path r)
   | None => FS.ret tt
   end) >>>
  FS.for_each (inputs r) (fun input_rpath => FS.copy input_rpath (run_path r)) >>>
  let codes_argv_nprocs := get_codes_argv_with_exe_and_nprocs r in
  FS.for_each (adios_transform_params r) (fun pv =>
    adios_xml_transform (FS.join (run_path r) (xml_filename pv))
      (pv_group_name pv) (var_name pv) (pv_value pv)) >>>
  FS.write_file (FS.join (run_path r) run_command_name)
    (run_command_text codes_argv_nprocs) >>>
  FS.write_file (FS.join (run_path r) run_json_name)
    (dumps_indent 2 (as_dict r)).

(** [fob = dict(id=run.run_id, runs=fob_runs, ...)] *)
Definition fob_dict (a : group_args) (r : run) (fob_runs : list dict) : dict :=
  [("id", Str (run_id r)); ("runs", Arr (map Obj fob_runs));
   ("working_dir", Str (FS.to_string (run_path r)));
   ("kill_on_partial_failure", Bool (kill_on_partial_failure a));
   ("post_process_script", opt_value Str (run_post_process_script a));
   ("post_process_stop_on_failure", Bool (run_post_process_stop_on_failure a));
   ("post_process_args", Arr [Str (FS.to_string (run_fob_path r))])].

(** The body of [for i, run in enumerate(runs)] up to the writes to
    [f]: the run directory with its files, and the text [fob_s] of the
    job descriptor. *)
Definition create_run_directory (self : launcher) (a : group_args) (r : run)
    : FS.io string :=
  run_files self a r >>>
  do! (fob_runs, _) :=
    fob_codes self a r ([], 0) (get_codes_argv_with_exe_and_nprocs r) in
  let fob_s := dumps (Obj (fob_dict a r fob_runs)) in
  FS.write_file (run_fob_path r) (fob_s +:+ nl) >>>
  FS.ret fob_s.

(** The loop over [runs], with the file object [f] as the list of the
    descriptors written to it: [f.write(fob_s); f.write("\n")] adds
    one. *)
Fixpoint create_run_directories (self : launcher) (a : group_args)
    (runs : list run) (f : list string)
    : gmap FS.path FS.node -> gmap FS.path FS.node * (list string * result unit) :=
  fun fs =>
    match runs with
    | [] => (fs, (f, Ok tt))
    | r :: runs' =>
        match create_run_directory self a r fs with
        | (fs', Raise e) => (fs', (f, Raise e))
        | (fs', Ok fob_s) => create_run_directories self a runs' (f ++ [fob_s]) fs'
        end
    end.

(** The text of a file that was written one descriptor a line. *)
Definition lines_text (lines : list string) : string :=
  String.concat "" (map (fun l => l +:+ nl) lines).

Definition script_dir (self : launcher) : FS.path :=
  FS.join (FS.join CHEETAH_PATH_SCRIPTS (scheduler_name self)) "group".

Definition fobs_path (self : launcher) : FS.path :=
  FS.join (output_directory self) fobs_name.

Definition scheduler_option (a : group_args) (k : string) : string :=
  match scheduler_options a with
  | Some o => default "" (o !! k)
  | None => ""
  end.

(** The statements of [create_group_directory] before [fobs.json] is
    opened: the check of the scheduler, the copy of its scripts and
    [group-env.sh]. *)
Definition group_scripts (self : launcher) (a : group_args) : FS.io unit := fun fs =>
  if negb (FS.isdir fs (script_dir self)) then (fs, Raise ValueError)
  else
    (FS.copytree (script_dir self) (output_directory self) >>>
     let env_path := FS.join (output_directory self) "group-env.sh" in
     match parse_timedelta_seconds (walltime a) with
     | Raise e => FS.raise e
     | Ok secs =>
         let group_env :=
           GROUP_ENV_TEMPLATE_format
             {| env_walltime := secs;
                env_max_procs := max_nprocs a;
                env_processes_per_node := group_processes_per_node a;
                env_nodes := nodes a;
                env_node_exclusive := node_exclusive a;
                env_account := scheduler_option a "project";
                env_queue := scheduler_option a "queue";
                env_campaign_name := "codar.cheetah." +:+ campaign_name a;
                env_group_name := group_name a;
                env_constraint := scheduler_option a "constraint";
                env_license := scheduler_option a "license" |} in
         FS.write_file env_path group_env
     end) fs.

(** [create_group_directory(self, ..., runs, ...)], with the
    descriptors that went through [f]: [None] when [fobs.json] was not
    opened.  The file is created empty when it is opened and has the
    text written to [f] once the [with] block is left, also by an
    exception. *)
Definition create_group_directory_fobs (self : launcher) (a : group_args)
    (runs : list run)
    : gmap FS.path FS.node
      -> gmap FS.path FS.node * (option (list string) * result unit) :=
  fun fs =>
    match group_scripts self a fs with
    | (fs1, Raise e) => (fs1, (None, Raise e))
    | (fs1, Ok _) =>
        match FS.write_file (fobs_path self) "" fs1 with
        | (fs2, Raise e) => (fs2, (None, Raise e))
        | (fs2, Ok _) =>
            let '(fs3, (f, res)) := create_run_directories self a runs [] fs2 in
            (<[fobs_path self := FS.File (lines_text f)]> fs3, (Some f, res))
        end
    end.

(** [create_group_directory(self, ..., runs, ...)] *)
Definition create_group_directory (self : launcher) (a : group_args)
    (runs : list run) : FS.io unit :=
  fun fs =>
    let '(fs', (_, res)) := create_group_directory_fobs self a runs fs in (fs', res).

End WithExternals.

End Launchers.

(** ** status.py: the replay of the executor log *)

Module StatusLog.

(** [s.upper()] on the letters of ASCII.  Of the other characters below
    256 only the sharp s becomes ASCII letters ([SS]), and no name of a
    level has them. *)
Definition upper_char (c : ascii) : ascii :=
  let n := N_of_ascii c in
  if ((97 <=? n) && (n <=? 122))%N then ascii_of_N (n - 32) else c.

Fixpoint upper (s : string) : string :=
  match s with
  | EmptyString => EmptyString
  | String c s' => String (upper_char c) (upper s')
  end.

(** [getattr(logging, name, None)] where it is an [int]: the levels of
    the module [logging]. *)
Definition logging_levels : list (string * Z) :=
  [("CRITICAL", 50); ("FATAL", 50); ("ERROR", 40); ("WARNING", 30); ("WARN", 30);
   ("INFO", 20); ("DEBUG", 10); ("NOTSET", 0)].

Definition logging_level (name : string) : option Z :=
  Status.assoc name logging_levels.

(** [_numeric_log_level(log_level_string)] *)
Definition _numeric_log_level (log_level_string : string) : result Z :=
  match logging_level (upper log_level_string) with
  | Some log_level_int => Ok log_level_int
  | None => Raise ValueError
  end.

(** [s[:n]] and [s[n:]] *)
Fixpoint str_take (n : nat) (s : string) : string :=
  match n, s with
  | S n', String c s' => String c (str_take n' s')
  | _, _ => EmptyString
  end.

Fixpoint str_drop (n : nat) (s : string) : string :=
  match n, s with
  | S n', String _ s' => str_drop n' s'
  | _, _ => s
  end.

(** [s.split(sep, 1)]: the text before the first separator and the
    text after it, or the text alone when it has no separator. *)
Fixpoint split1 (sep : ascii) (s : string) : list string :=
  match s with
  | EmptyString => [EmptyString]
  | String c s' =>
      if Ascii.eqb c sep then [EmptyString; s']
      else match split1 sep s' with
           | f :: fs => String c f :: fs
           | [] => [String c EmptyString]
           end
  end.

(** [_parse_fobrun_log_line(line)]; unpacking a list that has not two
    elements raises [ValueError]. *)
Definition _parse_fobrun_log_line (line : string) : result (string * Z * string) :=
  let dt_string := str_take 24 line in
  match split1 ":" (str_drop 24 line) with
  | [level; message] =>
      match _numeric_log_level level with
      | Ok level => Ok (dt_string, level, message)
      | Raise e => Raise e
      end
  | _ => Raise ValueError
  end.

(** [sub in s] for two texts *)
Fixpoint is_prefix (sub s : string) : bool :=
  match sub, s with
  | EmptyString, _ => true
  | String a sub', String b s' => Ascii.eqb a b && is_prefix sub' s'
  | String _ _, EmptyString => false
  end.

Fixpoint str_in (sub s : string) : bool :=
  is_prefix sub s ||
  match s with
  | EmptyString => false
  | String _ s' => str_in sub s'
  end.

(** The text of a file as [open(path)] gives it: a carriage return,
    with or without a line feed after it, is read as a line feed. *)
Fixpoint universal_newlines (s : string) : string :=
  match s with
  | EmptyString => EmptyString
  | String c s' =>
      if Ascii.eqb c "013" then
        match s' with
        | String c' s'' =>
            if Ascii.eqb c' "010" then String "010" (universal_newlines s'')
            else String "010" (universal_newlines s')
        | EmptyString => String "010" EmptyString
        end
      else String c (universal_newlines s')
  end.

(** The lines of [for line in f], each with its line feed; the last
    one has none when the text does not end in one. *)
Fixpoint lines_of (s : string) : list string :=
  match s with
  | EmptyString => []
  | String c s' =>
      if Ascii.eqb c "010" then String c EmptyString :: lines_of s'
      else match lines_of s' with
           | l :: ls => String c l :: ls
           | [] => [String c EmptyString]
           end
  end.

Definition readlines (text : string) : list string :=
  lines_of (universal_newlines text).

(** [filter_run] is set, and no name of it occurs in the line. *)
Definition no_run_in (filter_run : option (list string)) (line : string) : bool :=
  match filter_run with
  | None | Some [] => false
  | Some l => negb (existsb (fun fr => str_in fr line) l)
  end.

(** The body of [for line in f]. *)
Definition print_log_line (log_level_int : Z) (filter_run : option (list string))
    (line : string) : out unit :=
  let line := PyStr.strip line in
  match _parse_fobrun_log_line line with
  | Raise e => out_raise e
  | Ok (_, line_level, _) =>
      if line_level <? log_level_int then out_ret tt
      else if no_run_in filter_run line then out_ret tt
      else print [" "; line]
  end.

(** [_print_fobrun_log(log_file_path, log_level, filter_run)]; the file
    at [log_file_path] is given by its text, [None] when there is no
    such file. *)
Definition _print_fobrun_log (log_file : option string) (log_level : string)
    (filter_run : option (list string)) : out unit :=
  match logging_level (upper log_level) with
  | None => out_raise ValueError
  | Some log_level_int =>
      match log_file with
      | None => out_raise FileNotFoundError
      | Some text =>
          out_for (readlines text) (print_log_line log_level_int filter_run)
      end
  end.

End StatusLog.

(** * Definitions for the statements *)

Module StatusSpec.

Import Status.

(** The four states of the table of state counts. *)
Definition known_states : list string := ["not_started"; "running"; "done"; "killed"].

Definition known_state (s : string) : bool := bool_decide (s ∈ known_states).

Definition has_state (s : string) (st : status_record) : Prop := state st = s.
Definition has_reason (r : string) (st : status_record) : Prop := reason st = Some r.

#[global] Instance has_state_dec s st : Decision (has_state s st).
Proof. unfold has_state. apply _. Defined.
#[global] Instance has_reason_dec r st : Decision (has_reason r st).
Proof. unfold has_reason. apply _. Defined.

(** The number of records that satisfy [P]. *)
Definition count (P : status_record -> Prop) `{forall st, Decision (P st)}
    (l : list status_record) : Z :=
  Z.of_nat (length (filter P l)).

(** The return codes of a list of records, component by component. *)
Definition all_return_codes (l : list status_record) : list Z :=
  concat (map (fun st => map snd (default [] (return_codes st))) l).

(** The records whose reason the loop counts: the reason is there and
    is not empty. *)
Definition counted_reason (st : status_record) : Prop :=
  from_option PyStr.truthy false (reason st) = true.

#[global] Instance counted_reason_dec st : Decision (counted_reason st).
Proof. unfold counted_reason. apply _. Defined.

(** The number of occurrences of [v]. *)
Definition occurrences (v : Z) (l : list Z) : Z :=
  Z.of_nat (length (filter (eq v) l)).

(** What the loop over the records [l] adds to the counters [c] to
    give [c']. *)
Definition counted (c c' : counters) (l : list status_record) : Prop :=
  (forall s, state_counts c' !! s
             = (fun n => n + count (has_state s) l) <$> state_counts c !! s)
  /\ (forall r, dd_get (reason_counts c') r
                = dd_get (reason_counts c) r
                  + (if PyStr.truthy r then count (has_reason r) l else 0))
  /\ total_reasons c' = total_reasons c + count counted_reason l
  /\ total_rc c' = total_rc c + Z.of_nat (length (all_return_codes l))
  /\ (forall v, dd_get (rc_counts c') v
                = dd_get (rc_counts c) v + occurrences v (all_return_codes l)).

(** The number of runs of a document whose reason is not the success
    sentinel. *)
Definition failures (d : status_data) : Z :=
  Z.of_nat (length d) - count (has_reason "succeeded") (map snd d).

(** The line of a group that is done. *)
Definition done_report (user_group : string) (d : status_data) : string :=
  if 0 <? failures d then
    user_group +:+ " : DONE, " +:+ pretty (failures d) +:+ " / "
               +:+ pretty (Z.of_nat (length d)) +:+ " failed"
  else user_group +:+ " : DONE".

(** The number of runs of a document that are not started or running. *)
Definition in_progress (d : status_data) : Z :=
  count (has_state "not_started") (map snd d) + count (has_state "running") (map snd d).

(** The line of a group that is in progress. *)
Definition in_progress_report (user_group jobid : string) (d : status_data) : string :=
  user_group +:+ " : IN PROGRESS, job " +:+ jobid +:+ " , "
             +:+ pretty (Z.of_nat (length d) - in_progress d) +:+ " / "
             +:+ pretty (Z.of_nat (length d)).

(** The states of all records are among the four of the table. *)
Definition known_states_only (d : status_data) : bool :=
  forallb (fun st => known_state (state st)) (map snd d).

(** The job id that the scan reads in the text of the job-id file. *)
Definition jobid_of (text : string) : option string :=
  PyStr.split ":" (PyStr.strip text) !! 1%nat.
End StatusSpec.

Module StatusExamples.

Import Status.

Definition rec_succeeded : status_record :=
  {| state := "done"; reason := Some "succeeded";
     return_codes := Some [("sim", 0); ("analysis", 0)] |}.
Definition rec_timeout : status_record :=
  {| state := "killed"; reason := Some "failed_timeout";
     return_codes := Some [("sim", 0); ("analysis", 1)] |}.
Definition rec_running : status_record :=
  {| state := "running"; reason := None; return_codes := None |}.
Definition rec_paused : status_record :=
  {| state := "paused"; reason := None; return_codes := None |}.

Definition doc_done : status_data :=
  [("run-0", rec_succeeded); ("run-1", rec_timeout); ("run-2", rec_succeeded)].
Definition doc_running : status_data :=
  [("run-0", rec_succeeded); ("run-1", rec_running); ("run-2", rec_succeeded);
   ("run-3", rec_running); ("run-4", rec_succeeded)].

Definition jobid_text : string := String.append "local:4242" (String "010" "").

Definition group_done : group_dir :=
  {| jobid_file := Some jobid_text; status_json := Some (Document doc_done);
     walltime_file := Some "61" |}.
Definition group_running : group_dir :=
  {| jobid_file := Some jobid_text; status_json := Some (Document doc_running);
     walltime_file := None |}.
Definition group_submitted : group_dir :=
  {| jobid_file := Some jobid_text; status_json := None; walltime_file := None |}.
(** A status document and a walltime record without a job-id file. *)
Definition group_done_no_jobid : group_dir :=
  {| jobid_file := None; status_json := Some (Document doc_done);
     walltime_file := Some "61" |}.
(** A status document without a job-id file and a walltime record. *)
Definition group_running_no_jobid : group_dir :=
  {| jobid_file := None; status_json := Some (Document doc_running);
     walltime_file := None |}.
Definition group_unparseable : group_dir :=
  {| jobid_file := Some jobid_text; status_json := Some Unparseable;
     walltime_file := None |}.
Definition group_new : group_dir :=
  {| jobid_file := None; status_json := None; walltime_file := None |}.
(** A job-id file that holds the id alone, and no status document. *)
Definition group_bare_jobid : group_dir :=
  {| jobid_file := Some "4242"; status_json := None; walltime_file := None |}.

(** A campaign whose first group has a status file that is not JSON. *)
Definition campaign_unparseable : campaign :=
  [("alice", [("group-0", group_unparseable); ("group-1", group_new)]);
   ("bob", [("group-0", group_new)])].
(** A document whose records have no reason and no return codes. *)
Definition doc_bare : status_data :=
  [("run-0", {| state := "not_started"; reason := None; return_codes := None |});
   ("run-1", rec_running); ("run-2", rec_succeeded)].

(** A document with a state that is none of the four. *)
Definition doc_paused : status_data :=
  [("run-0", rec_succeeded); ("run-1", rec_paused); ("run-2", rec_running)].
End StatusExamples.

Module FSSpec.

Import FS.

(** [extends W fs fs']: going from [fs] to [fs'], every directory is
    kept, every file is kept as a file, and the files outside [W] keep
    their text. *)
Definition extends (W : path -> Prop) (fs fs' : gmap path node) : Prop :=
  (forall p, fs !! p = Some Dir -> fs' !! p = Some Dir)
  /\ (forall p c, fs !! p = Some (File c) -> exists c', fs' !! p = Some (File c'))
  /\ (forall p c, ~ W p -> fs !! p = Some (File c) -> fs' !! p = Some (File c)).

(** [io_extends ds W m]: where the paths [ds] are directories, [m]
    extends the file system and writes files in [W] only. *)
Definition io_extends {A} (ds : list path) (W : path -> Prop) (m : io A) : Prop :=
  forall fs, Forall (fun p => fs !! p = Some Dir) ds -> extends W fs (m fs).1.

Definition nowhere : path -> Prop := fun _ => False.

(** The paths of the entries of a directory [d]. *)
Definition inside (d : path) : path -> Prop := fun p => exists x, p = join d x.

(** The parent step of [makedirs_rev]. *)
Definition parent_step (exist_ok : bool) (rp : list string) (fs : gmap path node)
    : gmap path node * result unit :=
  match rp with
  | _ :: (_ :: _) as rhead =>
      if exists_ fs (rev rhead) then (fs, Ok tt)
      else match makedirs_rev exist_ok rhead fs with
           | (fs', Raise FileExistsError) => (fs', Ok tt)
           | other => other
           end
  | _ => (fs, Ok tt)
  end.
End FSSpec.

Module LaunchersSpec.

Import Json Launchers.

(** The nodes that an invocation takes: the ceiling of the quotient of
    its process count by the processes a node. *)
Definition nodes_of (ppn : Z) (c : code) : Z := ceil_div (nprocs c) ppn.

(** The sum of the nodes of the invocations [l]. *)
Definition prior_nodes (ppn : Z) (l : list code) : Z :=
  foldr Z.add 0 (map (nodes_of ppn) l).

(** The nodes that the program counts for an invocation: the value of
    [math.ceil(nprocs / ppn)], where the division returns. *)
Definition computed_nodes_of (ppn : Z) (c : code) : Z :=
  from_result 0 (math_ceil_truediv (nprocs c) ppn).

(** The sum of the nodes that the program counts for the invocations
    [l]. *)
Definition computed_prior_nodes (ppn : Z) (l : list code) : Z :=
  foldr Z.add 0 (map (computed_nodes_of ppn) l).

(** The process counts and the processes a node that 53 bits hold. *)
Definition held_by_53_bits (ppn : Z) (l : list code) : bool :=
  (0 <? ppn) && (ppn <? 2 ^ 53)
  && forallb (fun c => (0 <=? nprocs c) && (nprocs c <? 2 ^ 53)) l.

(** [data["env"]["SOS_LISTENER_RANK_OFFSET"]] of a record of
    [fob_runs]. *)
Definition listener_rank_offset (data : dict) : option value :=
  match dict_get "env" data with
  | Some (Obj env) => dict_get "SOS_LISTENER_RANK_OFFSET" env
  | _ => None
  end.

(** The profiling directory of an invocation of a run. *)
Definition tau_profile_dir (r : run) (c : code) : FS.path :=
  FS.join (run_path r) (TAU_PROFILE_PATTERN_format (cname c)).

(** The paths that the materialization of [runs] may write. *)
Definition inside_runs (runs : list run) : FS.path -> Prop :=
  fun p => exists r, r ∈ runs /\ FSSpec.inside (run_path r) p.
End LaunchersSpec.

Module LaunchersExamples.

Import Json Launchers.

(** An instance of the missing parts: walltimes in seconds, a template
    of one line and a transform that records itself in the text. *)
#[local] Instance example_externals : Externals := {|
  timespec := Z;
  parse_timedelta_seconds := fun s => if s <? 0 then Raise ValueError else Ok s;
  CHEETAH_PATH_SCRIPTS := ["opt"; "cheetah"; "scripts"];
  GROUP_ENV_TEMPLATE_format := fun e =>
    "export CODAR_CHEETAH_GROUP_WALLTIME=" +:+ pretty (env_walltime e);
  xml_set_transform := fun text g v x =>
    if decide (g = "") then Raise ParameterError
    else Ok (text +:+ "<!-- " +:+ g +:+ ":" +:+ v +:+ "=" +:+ x +:+ " -->");
|}.

Definition example_fs : gmap FS.path FS.node :=
  list_to_map
    [([], FS.Dir); (["opt"], FS.Dir); (["opt"; "cheetah"], FS.Dir);
     (["opt"; "cheetah"; "scripts"], FS.Dir);
     (["opt"; "cheetah"; "scripts"; "local"], FS.Dir);
     (["opt"; "cheetah"; "scripts"; "local"; "group"], FS.Dir);
     (["opt"; "cheetah"; "scripts"; "local"; "group"; "run-group.sh"],
      FS.File "#!/bin/bash");
     (["home"], FS.Dir); (["home"; "heat.xml"], FS.File "<adios-config/>");
     (["campaign"], FS.Dir); (["campaign"; "alice"], FS.Dir)].

Definition example_launcher : launcher :=
  {| machine_name := "titan"; scheduler_name := "local"; runner_name := "mpiexec";
     output_directory := ["campaign"; "alice"; "group-0"]; num_codes := 3 |}.

(** A launcher for a scheduler that has no scripts. *)
Definition example_launcher_slurm : launcher :=
  {| machine_name := "titan"; scheduler_name := "slurm"; runner_name := "srun";
     output_directory := ["campaign"; "alice"; "group-0"]; num_codes := 3 |}.

Definition example_args : group_args :=
  {| campaign_name := "heat"; group_name := "group-0"; max_nprocs := 16;
     group_processes_per_node := 4; nodes := 4; walltime := 3600;
     node_exclusive := false; timeout := Some 600;
     machine := {| processes_per_node := 4 |}; tau_config := None;
     kill_on_partial_failure := true; run_post_process_script := None;
     run_post_process_stop_on_failure := false; scheduler_options := None;
     sos := true |}.

Definition example_codes : list code :=
  [ {| cname := "sim"; argv := ["heat_sim"; "out dir"; "4"]; nprocs := 9;
       sleep_after := None |};
    {| cname := "analysis"; argv := ["stage_write"]; nprocs := 4;
       sleep_after := Some 5 |};
    {| cname := "viz"; argv := ["render"]; nprocs := 1; sleep_after := None |} ].

Definition example_run (n : string) : run :=
  {| run_id := "run-" +:+ n;
     run_path := ["campaign"; "alice"; "group-0"; "run-" +:+ n];
     inputs := [["home"; "heat.xml"]];
     get_codes_argv_with_exe_and_nprocs := example_codes;
     adios_transform_params :=
       [ {| xml_filename := "heat.xml"; pv_group_name := "heat"; var_name := "T";
            pv_value := "sz" |} ];
     as_dict := Obj [("run_id", Str ("run-" +:+ n))] |}.

(** A run whose second code has no executable: its materialization
    raises [IndexError]. *)
Definition example_broken_run : run :=
  {| run_id := "run-2"; run_path := ["campaign"; "alice"; "group-0"; "run-2"];
     inputs := [];
     get_codes_argv_with_exe_and_nprocs :=
       [ {| cname := "sim"; argv := ["heat_sim"]; nprocs := 2; sleep_after := None |};
         {| cname := "analysis"; argv := []; nprocs := 1; sleep_after := None |} ];
     adios_transform_params := []; as_dict := Null |}.

Definition example_runs : list run :=
  [example_run "0"; example_run "1"; example_broken_run; example_run "3"].

(** The materialization of the example runs: it stops in the third. *)
Definition example_crash :=
  create_group_directory_fobs example_launcher example_args example_runs example_fs.

(** The descriptors that went through the aggregate file. *)
Definition example_crash_lines : list string := default [] example_crash.2.1.

(** The materialization of the first example run on its own. *)
Definition example_materialized :=
  create_run_directory example_launcher example_args (example_run "0") example_fs.

(** The records of the codes of a run that is materialized. *)
Definition records_of (a : group_args) (r : run) : list dict :=
  (from_result ([], 0)
     (fob_codes example_launcher a r ([], 0) (get_codes_argv_with_exe_and_nprocs r)
        (run_files example_launcher a r example_fs).1).2).1.

(** A machine of one process a node, and a run whose first code has
    [2 ^ 53 + 1] processes: no binary64 number is the quotient
    [(2 ^ 53 + 1) / 1], the nearest ones are [2 ^ 53] and [2 ^ 53 + 2]. *)
Definition example_wide_args : group_args :=
  {| campaign_name := "heat"; group_name := "group-0"; max_nprocs := 16;
     group_processes_per_node := 1; nodes := 4; walltime := 3600;
     node_exclusive := false; timeout := Some 600;
     machine := {| processes_per_node := 1 |}; tau_config := None;
     kill_on_partial_failure := true; run_post_process_script := None;
     run_post_process_stop_on_failure := false; scheduler_options := None;
     sos := true |}.

Definition example_wide_codes : list code :=
  [ {| cname := "sim"; argv := ["heat_sim"]; nprocs := 2 ^ 53 + 1;
       sleep_after := None |};
    {| cname := "viz"; argv := ["render"]; nprocs := 1; sleep_after := None |} ].

Definition example_wide_run : run :=
  {| run_id := "run-0"; run_path := ["campaign"; "alice"; "group-0"; "run-0"];
     inputs := []; get_codes_argv_with_exe_and_nprocs := example_wide_codes;
     adios_transform_params := []; as_dict := Null |}.

Definition example_wide_materialized :=
  create_run_directory example_launcher example_wide_args example_wide_run example_fs.

(** A run whose second code has a process count below 0, which nothing
    in the launcher refuses. *)
Definition example_negative_codes : list code :=
  [ {| cname := "sim"; argv := ["heat_sim"]; nprocs := 4; sleep_after := None |};
    {| cname := "analysis"; argv := ["stage_write"]; nprocs := -8;
       sleep_after := None |};
    {| cname := "viz"; argv := ["render"]; nprocs := 1; sleep_after := None |} ].

Definition example_negative_run : run :=
  {| run_id := "run-0"; run_path := ["campaign"; "alice"; "group-0"; "run-0"];
     inputs := []; get_codes_argv_with_exe_and_nprocs := example_negative_codes;
     adios_transform_params := []; as_dict := Null |}.

Definition example_negative_materialized :=
  create_run_directory example_launcher example_args example_negative_run example_fs.
End LaunchersExamples.

Module ScanSpec.

Import Status StatusSpec.

(** The number of occurrences of a character in a text. *)
Fixpoint count_char (c : ascii) (s : string) : nat :=
  match s with
  | EmptyString => 0
  | String c' s' => (if Ascii.eqb c' c then 1 else 0) + count_char c s'
  end%nat.

(** The entries that a filter of names lets through: all of them when
    the filter is [None] or the empty list. *)
Definition kept {A} (names : option (list string)) (l : list (string * A))
    : list (string * A) :=
  match names with
  | None | Some [] => l
  | Some ns => filter (fun x => x.1 ∈ ns) l
  end.

(** The campaign that the filters of [o] leave. *)
Definition kept_campaign (o : scan_options) (c : campaign) : campaign :=
  map (fun ug => (ug.1, kept (filter_group o) ug.2)) (kept (filter_user o) c).

(** The options [o] without the filters of users and groups. *)
Definition unfiltered (o : scan_options) : scan_options :=
  {| filter_user := None; filter_group := None; filter_run := filter_run o;
     group_details := group_details o; opt_return_codes := opt_return_codes o |}.

(** The options [o] without the listings of a group. *)
Definition quiet (o : scan_options) : scan_options :=
  {| filter_user := filter_user o; filter_group := filter_group o;
     filter_run := filter_run o; group_details := false; opt_return_codes := false |}.

(** The names [user/group] of the groups of a campaign, in the order of
    the scan. *)
Definition user_groups (c : campaign) : list string :=
  concat (map (fun ug => map (fun g => ug.1 +:+ "/" +:+ g.1) ug.2) c).

(** The groups of a campaign with their users, in the order of the scan. *)
Definition flat_groups (c : campaign) : list (string * string * group_dir) :=
  concat (map (fun ug => map (fun g => (ug.1, g.1, g.2)) ug.2) c).

(** A text without white space, and a text of white space only. *)
Fixpoint no_space (s : string) : bool :=
  match s with
  | EmptyString => true
  | String c s' => negb (PyStr.isspace c) && no_space s'
  end.

Fixpoint all_space (s : string) : bool :=
  match s with
  | EmptyString => true
  | String c s' => PyStr.isspace c && all_space s'
  end.

(** The line of a state in the listing of the counts. *)
Definition state_line (prefix k : string) (n : Z) : string :=
  prefix +:+ "state  " +:+ PyStr.rjust 11 k +:+ ": " +:+ pretty n.

End ScanSpec.

Module LogSpec.

Import StatusLog.

(** The lines of a log as the replay reads them: without the white
    space at their ends. *)
Definition log_lines (text : string) : list string :=
  map PyStr.strip (readlines text).

(** A line that [_parse_fobrun_log_line] takes apart. *)
Definition well_formed (line : string) : bool := is_ok (_parse_fobrun_log_line line).

(** The level of a line that is well formed. *)
Definition level_of (line : string) : Z :=
  match _parse_fobrun_log_line line with
  | Ok (_, n, _) => n
  | Raise _ => 0
  end.

(** The lines that the replay prints, for a level and a filter. *)
Definition selected (log_level_int : Z) (filter_run : option (list string))
    (line : string) : bool :=
  negb (level_of line <? log_level_int) && negb (no_run_in filter_run line).

(** The lines before the first one that is not well formed. *)
Fixpoint well_formed_prefix (lines : list string) : list string :=
  match lines with
  | [] => []
  | l :: lines' => if well_formed l then l :: well_formed_prefix lines' else []
  end.

(** How the replay presents a line: [print(' ', line)]. *)
Definition shown (line : string) : string := "  " +:+ line.

(** A log line of the executor: time stamp, level and message. *)
Definition example_log_line : string := "2018-03-01 10:15:00,123 INFO:run-1: started".

Definition example_log : string :=
  "2018-03-01 10:15:00,123 INFO:run-1: started" +:+ String "010" ""
  +:+ "2018-03-01 10:15:01,456 DEBUG:run-1: polling" +:+ String "010" ""
  +:+ "2018-03-01 10:15:02,789 ERROR:run-10: failed" +:+ String "010" "".

End LogSpec.

Module MaterializeSpec.

Import Json Launchers LaunchersSpec.

(** The paths that the materialization of a group may write: the
    entries of the output directory and of the run directories. *)
Definition group_written (self : launcher) (runs : list run) : FS.path -> Prop :=
  fun p => FSSpec.inside (output_directory self) p \/ inside_runs runs p.

(** The paths that an operation may touch are those of [T]: every
    other path has afterwards the entry it had, or none as before. *)
Definition touches_only {A} (T : FS.path -> Prop) (m : FS.io A) : Prop :=
  forall fs q, ~ T q -> (m fs).1 !! q = fs !! q.

(** A run directory, the directories above it and its entries. *)
Definition around_run (r : run) : FS.path -> Prop :=
  fun q => q `prefix_of` run_path r \/ FSSpec.inside (run_path r) q.

(** The output directory, the directories above it and all that lies
    below it; and the same around the runs. *)
Definition around_group (self : launcher) (runs : list run) : FS.path -> Prop :=
  fun q => q `prefix_of` output_directory self
           \/ output_directory self `prefix_of` q
           \/ exists r, r ∈ runs /\ around_run r q.

(** The variables that [add_sos_env] sets. *)
Definition sos_variables : list string :=
  ["SOS_CMD_PORT"; "SOS_EVPATH_MEETUP"; "TAU_SOS"; "LD_LIBRARY_PATH";
   "SOS_APP_RANKS_PER_NODE"; "SOS_LISTENER_RANK_OFFSET"].

(** A text of printable ASCII characters. *)
Fixpoint printable (s : string) : bool :=
  match s with
  | EmptyString => true
  | String c s' =>
      let n := N_of_ascii c in ((32 <=? n) && (n <=? 126))%N && printable s'
  end.

(** The number of line ends in the words of the command lines. *)
Definition newlines_in_words (codes : list code) : nat :=
  sum_list (map (fun c => sum_list (map count_newlines (argv c))) codes).

Section WithExternals.

Context `{Externals}.

(** The values of [group-env.sh] for a walltime of [secs] seconds. *)
Definition group_env_of (a : group_args) (secs : Z) : group_env :=
  {| env_walltime := secs;
     env_max_procs := max_nprocs a;
     env_processes_per_node := group_processes_per_node a;
     env_nodes := nodes a;
     env_node_exclusive := node_exclusive a;
     env_account := scheduler_option a "project";
     env_queue := scheduler_option a "queue";
     env_campaign_name := "codar.cheetah." +:+ campaign_name a;
     env_group_name := group_name a;
     env_constraint := scheduler_option a "constraint";
     env_license := scheduler_option a "license" |}.

Definition env_path (self : launcher) : FS.path :=
  FS.join (output_directory self) "group-env.sh".

(** The environment of the record of an invocation [c] that starts at
    the node [node_index]. *)
Definition record_env (self : launcher) (a : group_args) (r : run) (c : code)
    (node_index : Z) : dict :=
  let env := [("PROFILEDIR", Str (FS.to_string (tau_profile_dir r c)))] in
  if sos a then
    add_sos_env self env (run_path r) (processes_per_node (machine a)) node_index
  else env.

(** The entry of the timeout, when one is given. *)
Definition timeout_entry (a : group_args) : dict :=
  match timeout a with
  | None => []
  | Some t => [("timeout", Int (from_result 0 (parse_timedelta_seconds t)))]
  end.

(** The record of the descriptor for an invocation [c] whose command
    line is [exe :: args]. *)
Definition descriptor_record (self : launcher) (a : group_args) (r : run) (c : code)
    (node_index : Z) (exe : string) (args : list string) : dict :=
  [("name", Str (cname c)); ("exe", Str exe); ("args", Arr (map Str args));
   ("nprocs", Int (nprocs c)); ("sleep_after", opt_value Int (sleep_after c));
   ("env", Obj (record_env self a r c node_index))] ++ timeout_entry a.

(** The node index that the [j]-th invocation of a run is given: the
    sum of the nodes that the program counted for the invocations
    before it. *)
Definition node_index_of (a : group_args) (r : run) (j : nat) : Z :=
  if sos a then
    computed_prior_nodes (processes_per_node (machine a))
      (take j (get_codes_argv_with_exe_and_nprocs r))
  else 0.

End WithExternals.

End MaterializeSpec.

Module MaterializeExamples.

Import Json Launchers LaunchersSpec LaunchersExamples.

#[local] Existing Instance example_externals.

(** Arguments with a walltime that is refused. *)
Definition example_args_refused : group_args :=
  {| campaign_name := "heat"; group_name := "group-0"; max_nprocs := 16;
     group_processes_per_node := 4; nodes := 4; walltime := -1;
     node_exclusive := false; timeout := Some 600;
     machine := {| processes_per_node := 4 |}; tau_config := None;
     kill_on_partial_failure := true; run_post_process_script := None;
     run_post_process_stop_on_failure := false; scheduler_options := None;
     sos := true |}.

(** Arguments for a machine of 0 processes a node. *)
Definition example_args_no_ppn : group_args :=
  {| campaign_name := "heat"; group_name := "group-0"; max_nprocs := 16;
     group_processes_per_node := 4; nodes := 4; walltime := 3600;
     node_exclusive := false; timeout := Some 600;
     machine := {| processes_per_node := 0 |}; tau_config := None;
     kill_on_partial_failure := true; run_post_process_script := None;
     run_post_process_stop_on_failure := false; scheduler_options := None;
     sos := true |}.

(** The copy of the scripts of the example launcher. *)
Definition example_copied :=
  FS.copytree (script_dir example_launcher) (output_directory example_launcher)
    example_fs.

(** The materialization of a group of two runs. *)
Definition example_group_runs : list run := [example_run "0"; example_run "1"].

Definition example_group :=
  create_group_directory example_launcher example_args example_group_runs example_fs.

(** The files of the first example run, and its first profiling
    directory, on a machine of 0 processes a node. *)
Definition example_files_no_ppn :=
  run_files example_launcher example_args_no_ppn (example_run "0") example_fs.

Definition example_sim : code :=
  {| cname := "sim"; argv := ["heat_sim"; "out dir"; "4"]; nprocs := 9;
     sleep_after := None |}.

Definition example_tau_no_ppn :=
  FS.makedirs false (tau_profile_dir (example_run "0") example_sim)
    example_files_no_ppn.1.

(** A run whose first code has no command line. *)
Definition example_no_exe : code :=
  {| cname := "sim"; argv := []; nprocs := 2; sleep_after := None |}.

Definition example_run_no_exe : run :=
  {| run_id := "run-4"; run_path := ["campaign"; "alice"; "group-0"; "run-4"];
     inputs := [];
     get_codes_argv_with_exe_and_nprocs := [example_no_exe];
     adios_transform_params := []; as_dict := Null |}.

Definition example_files_no_exe :=
  run_files example_launcher example_args example_run_no_exe example_fs.

Definition example_tau_no_exe :=
  FS.makedirs false (tau_profile_dir example_run_no_exe example_no_exe)
    example_files_no_exe.1.

(** A run with a second input, which no transform of the run
    touches. *)
Definition example_script : FS.path :=
  ["opt"; "cheetah"; "scripts"; "local"; "group"; "run-group.sh"].

Definition example_run_two_inputs : run :=
  {| run_id := "run-5"; run_path := ["campaign"; "alice"; "group-0"; "run-5"];
     inputs := [["home"; "heat.xml"]; example_script];
     get_codes_argv_with_exe_and_nprocs := example_codes;
     adios_transform_params :=
       [ {| xml_filename := "heat.xml"; pv_group_name := "heat"; var_name := "T";
            pv_value := "sz" |} ];
     as_dict := Null |}.

Definition example_two_inputs :=
  create_run_directory example_launcher example_args example_run_two_inputs example_fs.

End MaterializeExamples.

(** * Properties of the status scan *)

Module StatusFacts.

Import Status StatusSpec.

Lemma state_counts_init_lookup s :
  state_counts_init !! s = if known_state s then Some 0 else None.
Proof.
  unfold state_counts_init, known_state, known_states.
  case_bool_decide as Hs.
  - repeat (apply elem_of_cons in Hs as [->|Hs]; [by simplify_map_eq|]).
    by apply elem_of_nil in Hs.
  - rewrite !lookup_insert_ne; [done|..]; intros <-; apply Hs; set_solver.
Qed.

Lemma count_nil P `{forall st, Decision (P st)} : count P [] = 0.
Proof. done. Qed.

Lemma count_cons P `{forall st, Decision (P st)} st l :
  count P (st :: l) = (if decide (P st) then 1 else 0) + count P l.
Proof.
  unfold count. rewrite filter_cons. destruct (decide (P st)); simpl; lia.
Qed.

Lemma dd_get_incr `{Countable K} (d : gmap K Z) (k k' : K) :
  dd_get (dd_incr d k) k' = dd_get d k' + (if decide (k = k') then 1 else 0).
Proof.
  unfold dd_incr, dd_get. destruct (decide (k = k')) as [->|Hne].
  - by rewrite lookup_insert_eq.
  - rewrite lookup_insert_ne by done. lia.
Qed.

Lemma count_rc_fold l : forall c,
  let c' := foldl count_rc c l in
  state_counts c' = state_counts c
  /\ reason_counts c' = reason_counts c
  /\ total_reasons c' = total_reasons c
  /\ total_rc c' = total_rc c + Z.of_nat (length l)
  /\ forall v, dd_get (rc_counts c') v = dd_get (rc_counts c) v + occurrences v l.
Proof.
  induction l as [|x l IH]; intros c; simpl.
  - repeat split; try lia. intros v. unfold occurrences. simpl. lia.
  - destruct (IH (count_rc c x)) as (Hs & Hr & Ht & Hn & Hv). simpl in *.
    rewrite Hs, Hr, Ht, Hn. repeat split; try lia.
    intros v. rewrite Hv, dd_get_incr. unfold occurrences.
    rewrite filter_cons. destruct (decide (v = x)) as [->|Hne].
    + rewrite decide_True by done. simpl. lia.
    + rewrite decide_False by done. lia.
Qed.

Lemma occurrences_app v l1 l2 :
  occurrences v (l1 ++ l2) = occurrences v l1 + occurrences v l2.
Proof. unfold occurrences. rewrite filter_app, length_app. lia. Qed.

Lemma counted_refl c : counted c c [].
Proof.
  repeat split; intros; rewrite ?count_nil; simpl; try lia.
  - destruct (state_counts c !! s) as [n|]; simpl; [f_equal; lia|done].
  - destruct (PyStr.truthy r); lia.
  - unfold occurrences. simpl. lia.
Qed.

Lemma counted_step c c1 c2 st l :
  counted c c1 [st] -> counted c1 c2 l -> counted c c2 (st :: l).
Proof.
  intros (Hs1 & Hr1 & Ht1 & Hn1 & Hv1) (Hs2 & Hr2 & Ht2 & Hn2 & Hv2).
  repeat split.
  - intros s. rewrite Hs2, Hs1, (count_cons _ st l), (count_cons _ st []), count_nil.
    destruct (state_counts c !! s) as [n|]; simpl; [f_equal; lia|done].
  - intros r. rewrite Hr2, Hr1, (count_cons _ st l), (count_cons _ st []), count_nil.
    destruct (PyStr.truthy r); lia.
  - rewrite Ht2, Ht1, (count_cons _ st l), (count_cons _ st []), count_nil. lia.
  - rewrite Hn2, Hn1. unfold all_return_codes. simpl.
    rewrite !length_app. simpl. lia.
  - intros v. rewrite Hv2, Hv1. unfold all_return_codes. simpl.
    rewrite !occurrences_app. unfold occurrences at 2. simpl. lia.
Qed.

Lemma count_reason_spec c o :
  let c' := count_reason c o in
  state_counts c' = state_counts c
  /\ total_rc c' = total_rc c
  /\ rc_counts c' = rc_counts c
  /\ (forall r, dd_get (reason_counts c') r
                = dd_get (reason_counts c) r
                  + (if PyStr.truthy r && bool_decide (o = Some r) then 1 else 0))
  /\ total_reasons c' = total_reasons c
                        + (if from_option PyStr.truthy false o then 1 else 0).
Proof.
  unfold count_reason. destruct o as [r0|]; simpl.
  - destruct (PyStr.truthy r0) eqn:Htr; simpl; repeat split; try lia; intros r.
    + rewrite dd_get_incr. destruct (decide (r0 = r)) as [->|Hne].
      * by rewrite Htr, bool_decide_eq_true_2.
      * rewrite bool_decide_eq_false_2 by congruence. by rewrite andb_false_r.
    + destruct (PyStr.truthy r) eqn:Htr'; simpl; [|lia].
      rewrite bool_decide_eq_false_2; [lia|]. intros [= ->]. congruence.
  - repeat split; try lia. intros r.
    rewrite ?bool_decide_eq_false_2 by done. rewrite ?andb_false_r. lia.
Qed.

Lemma count_record_spec c st :
  match state_counts c !! state st with
  | None => count_record c st = Raise KeyError
  | Some _ => exists c', count_record c st = Ok c' /\ counted c c' [st]
  end.
Proof.
  unfold count_record, count_state.
  destruct (state_counts c !! state st) as [n|] eqn:Hn; [|done].
  eexists; split; [done|].
  set (c1 := Build_counters _ _ _ _ _).
  destruct (count_reason_spec c1 (reason st)) as (Hs2 & Hn2 & Hv2 & Hr2 & Ht2).
  set (c2 := count_reason c1 (reason st)) in *.
  destruct (count_rc_fold (map snd (default [] (return_codes st))) c2)
    as (Hs & Hr & Ht & Hc & Hv).
  assert (Hfold : count_return_codes c2 (return_codes st)
                  = foldl count_rc c2 (map snd (default [] (return_codes st)))).
  { unfold count_return_codes. by destruct (return_codes st). }
  unfold counted. rewrite Hfold.
  assert (Hall : all_return_codes [st] = map snd (default [] (return_codes st))).
  { unfold all_return_codes. simpl. by rewrite app_nil_r. }
  rewrite Hall. clearbody c2. simpl in *.
  repeat split.
  - intros s. rewrite Hs, Hs2. rewrite (count_cons _ st []), count_nil.
    destruct (decide (has_state s st)) as [Hst|Hst]; unfold has_state in Hst.
    + subst s. rewrite lookup_insert_eq, Hn. simpl. f_equal; lia.
    + rewrite lookup_insert_ne by done.
      destruct (state_counts c !! s); simpl; [f_equal; lia|done].
  - intros r. rewrite Hr, Hr2. rewrite (count_cons _ st []), count_nil.
    destruct (decide (has_reason r st)) as [Hst|Hst]; unfold has_reason in Hst.
    + rewrite bool_decide_eq_true_2 by done. destruct (PyStr.truthy r); simpl; lia.
    + rewrite bool_decide_eq_false_2 by done. rewrite andb_false_r.
      destruct (PyStr.truthy r); simpl; lia.
  - rewrite Ht, Ht2. rewrite (count_cons _ st []), count_nil.
    destruct (decide (counted_reason st)) as [Hst|Hst]; unfold counted_reason in Hst.
    + rewrite Hst. lia.
    + apply not_true_is_false in Hst. rewrite Hst. lia.
  - rewrite Hc, Hn2. done.
  - intros v. rewrite Hv, Hv2. done.
Qed.

Lemma count_records_spec l : forall c,
  (exists c', count_records c l = Ok c' /\ counted c c' l
              /\ forall st, st ∈ l -> is_Some (state_counts c !! state st))
  \/ (count_records c l = Raise KeyError
      /\ exists st, st ∈ l /\ state_counts c !! state st = None).
Proof.
  induction l as [|st l IH]; intros c; simpl.
  - left. eexists; split; [done|]. split; [apply counted_refl|].
    by intros st ?%elem_of_nil.
  - pose proof (count_record_spec c st) as Hst.
    destruct (state_counts c !! state st) as [n|] eqn:Hn.
    + destruct Hst as (c1 & -> & Hc1).
      assert (Hkeys : forall s, is_Some (state_counts c1 !! s)
                                <-> is_Some (state_counts c !! s)).
      { intros s. destruct Hc1 as (Hs & _). rewrite Hs. apply fmap_is_Some. }
      destruct (IH c1) as [(c2 & Hc2 & Hcount & Hall)|(Hraise & st' & Hin & Hnone)].
      * left. exists c2. split; [done|]. split; [by eapply counted_step|].
        intros st' [->|Hin]%elem_of_cons; [by rewrite Hn|].
        by apply Hkeys, Hall.
      * right. split; [done|]. exists st'. split; [by right|].
        apply eq_None_not_Some. rewrite <- Hkeys. by rewrite Hnone; intros [? [=]].
    + rewrite Hst. right. split; [done|]. exists st. split; [by left|done].
Qed.

Lemma out_bind_ok {A B} (m : out A) (f : A -> out B) o a :
  m = (o, Ok a) -> out_bind m f = (o ++ (f a).1, (f a).2).
Proof. intros ->. unfold out_bind. by destruct (f a). Qed.

Lemma out_bind_raise {A B} (m : out A) (f : A -> out B) o e :
  m = (o, Raise e) -> out_bind m f = (o, Raise e).
Proof. by intros ->. Qed.

Lemma out_for_ok {A} (l : list A) (body : A -> out unit) :
  (forall x, x ∈ l -> (body x).2 = Ok tt) -> (out_for l body).2 = Ok tt.
Proof.
  induction l as [|x l IH]; intros Hbody; simpl; [done|].
  pose proof (Hbody x (list_elem_of_here _ _)) as Hx.
  destruct (body x) as [o r]. simpl in Hx. subst r.
  erewrite out_bind_ok by done. simpl. apply IH.
  intros y Hy. apply Hbody. by right.
Qed.

Lemma insert_sorted_elem {A} (leb : A -> A -> bool) x y l :
  y ∈ PyStr.insert_sorted leb x l -> y = x \/ y ∈ l.
Proof.
  induction l as [|z l IH]; simpl.
  - intros Hy%list_elem_of_singleton. by left.
  - destruct (leb x z).
    + intros [->|Hy]%elem_of_cons; [by left|by right].
    + intros [->|Hy]%elem_of_cons; [right; by left|].
      destruct (IH Hy) as [->|Hin]; [by left|right; by right].
Qed.

Lemma sorted_elem {A} (leb : A -> A -> bool) y l :
  y ∈ PyStr.sorted leb l -> y ∈ l.
Proof.
  unfold PyStr.sorted. induction l as [|x l IH]; simpl; [done|].
  intros [->|Hy]%insert_sorted_elem; [by left|right; auto].
Qed.

Lemma assoc_is_Some {V} k (d : list (string * V)) :
  k ∈ map fst d -> is_Some (assoc k d).
Proof.
  induction d as [|[k' v] d IH]; simpl.
  - by intros ?%elem_of_nil.
  - destruct (String.eqb k k') eqn:Hk; [by eauto|].
    intros [->|Hin]%elem_of_cons; [|by auto].
    by rewrite String.eqb_refl in Hk.
Qed.

Lemma out_bind_snd {A B} (m : out A) (f : A -> out B) :
  (out_bind m f).2 = match m.2 with Ok a => (f a).2 | Raise e => Raise e end.
Proof. destruct m as [o [a|e]]; simpl; [by destruct (f a)|done]. Qed.

Lemma out_bind_fst {A B} (m : out A) (f : A -> out B) :
  (out_bind m f).1 = m.1 ++ match m.2 with Ok a => (f a).1 | Raise e => [] end.
Proof.
  destruct m as [o [a|e]]; simpl; [by destruct (f a)|by rewrite app_nil_r].
Qed.

Lemma print_snd args : (print args).2 = Ok tt.
Proof. done. Qed.

Lemma out_seq_ok {B} (m : out unit) (k : out B) (b : B) :
  m.2 = Ok tt -> k.2 = Ok b -> (out_bind m (fun _ => k)).2 = Ok b.
Proof. intros Hm Hk. by rewrite out_bind_snd, Hm. Qed.

Lemma print_counts_block_ok prefix total c :
  (print_counts_block prefix total c).2 = Ok tt.
Proof.
  unfold print_counts_block.
  repeat (apply out_seq_ok;
          [first [apply print_snd | apply out_for_ok; intros; apply print_snd]|]).
  apply print_snd.
Qed.

Lemma print_return_codes_block_ok prefix d fr :
  (print_return_codes_block prefix d fr).2 = Ok tt.
Proof.
  unfold print_return_codes_block.
  apply out_seq_ok; [|done]. apply out_for_ok.
  intros run_name Hin%sorted_elem.
  destruct (filtered_out fr run_name); [done|].
  destruct (assoc_is_Some _ _ Hin) as [run_data ->].
  destruct (return_codes run_data) as [[|kv rc]|]; [done| |done].
  apply out_seq_ok; [done|]. apply out_for_ok.
  intros code_name Hc%sorted_elem.
  by destruct (assoc_is_Some _ _ Hc) as [v ->].
Qed.

(** The outcome of [get_workflow_status] on a document follows the loop
    over its records; only the two listings print. *)
Lemma get_workflow_status_document d pc ind prc fr :
  match count_records counters_init (map snd d) with
  | Ok c =>
      exists o, get_workflow_status (Some (Document d)) pc ind prc fr
                = (o, Ok (d, state_counts c, reason_counts c, rc_counts c))
                /\ (pc = false -> prc = false -> o = [])
  | Raise e => get_workflow_status (Some (Document d)) pc ind prc fr = ([], Raise e)
  end.
Proof.
  unfold get_workflow_status.
  destruct (count_records counters_init (map snd d)) as [c|e]; [|done].
  set (m1 := out_when pc _). set (m2 := out_when prc _).
  assert (H1 : m1.2 = Ok tt).
  { unfold m1, out_when. destruct pc; [apply print_counts_block_ok|done]. }
  assert (H2 : m2.2 = Ok tt).
  { unfold m2, out_when. destruct prc; [apply print_return_codes_block_ok|done]. }
  destruct m1 as [o1 r1] eqn:Hm1, m2 as [o2 r2] eqn:Hm2. simpl in *. subst r1 r2.
  exists (o1 ++ o2 ++ []). split; [reflexivity|].
  intros -> ->. unfold m1, m2, out_when, out_ret in *. by simplify_eq.
Qed.

Lemma known_state_counted c l :
  counted counters_init c l ->
  forall s, dd_get (state_counts c) s
            = if known_state s then count (has_state s) l else 0.
Proof.
  intros (Hs & _) s. unfold dd_get. rewrite Hs, state_counts_init_lookup.
  destruct (known_state s); simpl; [lia|done].
Qed.

Lemma forallb_known_ok l :
  forallb (fun st => known_state (state st)) l = true ->
  exists c, count_records counters_init l = Ok c /\ counted counters_init c l.
Proof.
  intros Hall.
  destruct (count_records_spec l counters_init)
    as [(c & ? & ? & _)|(_ & st & Hin & Hnone)]; [by eauto|].
  rewrite forallb_forall in Hall. apply list_elem_of_In, Hall in Hin.
  simpl in Hnone. rewrite state_counts_init_lookup, Hin in Hnone. done.
Qed.

Lemma existsb_unknown_raise l :
  existsb (fun st => negb (known_state (state st))) l = true ->
  count_records counters_init l = Raise KeyError.
Proof.
  intros (st & Hin & Hst)%existsb_exists.
  destruct (count_records_spec l counters_init)
    as [(c & _ & _ & Hall)|(? & _)]; [|done].
  apply list_elem_of_In, Hall in Hin. simpl in Hin.
  rewrite state_counts_init_lookup in Hin.
  apply negb_true_iff in Hst. rewrite Hst in Hin. by destruct Hin.
Qed.

Lemma scan_group_status o user group g text jobid d c :
  jobid_file g = Some text -> jobid_of text = Some jobid ->
  status_json g = Some (Document d) ->
  count_records counters_init (map snd d) = Ok c ->
  let user_group := user +:+ "/" +:+ group in
  let total := Z.of_nat (length d) in
  let line :=
    match walltime_file g with
    | Some _ =>
        let ok := dd_get (reason_counts c) "succeeded" in
        if ok <? total then
          user_group +:+ " : DONE, " +:+ pretty (total - ok) +:+ " / "
                     +:+ pretty total +:+ " failed"
        else user_group +:+ " : DONE"
    | None =>
        let n := dd_get (state_counts c) "running"
                 + dd_get (state_counts c) "not_started" in
        user_group +:+ " : IN PROGRESS, job " +:+ jobid +:+ " , "
                   +:+ pretty (total - n) +:+ " / " +:+ pretty total
    end in
  exists rest, scan_group o user group g = (line :: rest, Ok tt)
               /\ (group_details o = false -> opt_return_codes o = false -> rest = []).
Proof.
  intros Hj Hid Hs Hc user_group total line. unfold scan_group.
  rewrite Hj. unfold jobid_of in Hid. rewrite Hid, Hs.
  pose proof (get_workflow_status_document d false 0 false None) as H0.
  pose proof (get_workflow_status_document d true 2 false None) as H1.
  pose proof (get_workflow_status_document d false 2 true (filter_run o)) as H2.
  rewrite Hc in H0, H1, H2.
  destruct H0 as (o0 & -> & Ho0). rewrite (Ho0 eq_refl eq_refl).
  destruct H1 as (o1 & -> & _). destruct H2 as (o2 & -> & _).
  cbn [out_bind app].
  set (report := match walltime_file g with Some _ => _ | None => _ end).
  assert (Hreport : report = ([line], Ok tt)).
  { unfold report, line. destruct (walltime_file g); [|reflexivity].
    fold total. by destruct (_ <? total). }
  rewrite Hreport. cbn [out_bind app].
  destruct (group_details o), (opt_return_codes o); cbn [out_bind out_ret app];
    eexists; (split; [reflexivity|]); intros; done || (by rewrite ?app_nil_r).
Qed.
Lemma count_le P `{forall st, Decision (P st)} l : 0 <= count P l <= Z.of_nat (length l).
Proof. unfold count. pose proof (length_filter P l). lia. Qed.

Lemma count_all P `{forall st, Decision (P st)} l :
  count P l = Z.of_nat (length l) <-> forall st, st ∈ l -> P st.
Proof.
  unfold count. split.
  - intros Hlen st Hin. destruct (decide (P st)) as [|Hn]; [done|].
    pose proof (length_filter_lt P l st Hin Hn). lia.
  - intros Hall. induction l as [|st l IH]; [done|].
    rewrite filter_cons, decide_True by (apply Hall; by left). simpl.
    rewrite Nat2Z.inj_succ, IH; [lia|]. intros st' ?. apply Hall. by right.
Qed.

Lemma failures_spec d :
  0 <= failures d
  /\ (failures d = 0 <-> forall st, st ∈ map snd d -> reason st = Some "succeeded").
Proof.
  unfold failures.
  pose proof (count_le (has_reason "succeeded") (map snd d)) as Hle.
  pose proof (count_all (has_reason "succeeded") (map snd d)) as Hall.
  rewrite length_map in Hle, Hall. split; [lia|].
  rewrite <- Hall. lia.
Qed.

Lemma counted_init_reason c l r :
  counted counters_init c l ->
  dd_get (reason_counts c) r = if PyStr.truthy r then count (has_reason r) l else 0.
Proof.
  intros (_ & Hr & _). rewrite Hr. cbn [reason_counts counters_init].
  unfold dd_get at 1. rewrite lookup_empty. simpl. lia.
Qed.

Lemma counted_init_rc c l v :
  counted counters_init c l ->
  dd_get (rc_counts c) v = occurrences v (all_return_codes l).
Proof.
  intros (_ & _ & _ & _ & Hv). rewrite Hv. cbn [rc_counts counters_init].
  unfold dd_get at 1. rewrite lookup_empty. simpl. lia.
Qed.

Lemma counted_init_state c l s :
  counted counters_init c l ->
  state_counts c !! s = if known_state s then Some (count (has_state s) l) else None.
Proof.
  intros (Hs & _). rewrite Hs. cbn [state_counts counters_init].
  rewrite state_counts_init_lookup. by destruct (known_state s).
Qed.

Lemma out_for_app {A} (l1 l2 : list A) (body : A -> out unit) :
  out_for (l1 ++ l2) body = out_bind (out_for l1 body) (fun _ => out_for l2 body).
Proof.
  induction l1 as [|x l1 IH]; simpl.
  - unfold out_bind, out_ret. by destruct (out_for l2 body).
  - rewrite IH. destruct (body x) as [o [[]|e]]; simpl; [|done].
    destruct (out_for l1 body) as [o1 [[]|e1]]; simpl.
    + destruct (out_for l2 body) as [o2 r2]. by rewrite app_assoc.
    + done.
Qed.

Lemma scan_group_unparseable o user group g text jobid :
  jobid_file g = Some text -> jobid_of text = Some jobid ->
  status_json g = Some Unparseable ->
  scan_group o user group g = ([], Raise JSONDecodeError).
Proof.
  intros Hj Hid Hs. unfold scan_group. unfold jobid_of in Hid.
  by rewrite Hj, Hid, Hs.
Qed.
End StatusFacts.

Module StatusTheorems.

Import Status StatusSpec StatusExamples StatusFacts.

(** C3, as amended.  For every group directory whose job-id file is
    there and holds a job id, whose status document has only the four
    states and whose walltime record is there, the scan prints the DONE
    line first, and alone when no listing is asked for: with
    [failures / total failed] when the number of runs whose reason is not
    [succeeded] is positive, plain when every reason is [succeeded]. *)
Theorem done_report_of_submitted_group o user group g text jobid d w :
  jobid_file g = Some text -> jobid_of text = Some jobid ->
  status_json g = Some (Document d) -> known_states_only d = true ->
  walltime_file g = Some w ->
  (exists rest,
      scan_group o user group g
      = (done_report (user +:+ "/" +:+ group) d :: rest, Ok tt)
      /\ (group_details o = false -> opt_return_codes o = false -> rest = []))
  /\ 0 <= failures d
  /\ (failures d = 0 <-> forall st, st ∈ map snd d -> reason st = Some "succeeded").
Proof.
  intros Hj Hid Hs Hk Hw. split; [|apply failures_spec].
  destruct (forallb_known_ok _ Hk) as (c & Hc & Hcount).
  destruct (scan_group_status o user group g text jobid d c Hj Hid Hs Hc)
    as (rest & Hscan & Hrest).
  exists rest. split; [|done]. rewrite Hscan. f_equal. f_equal.
  rewrite Hw. unfold done_report, failures.
  rewrite (counted_init_reason c (map snd d) "succeeded" Hcount). simpl PyStr.truthy.
  cbv iota.
  assert (Heq : (count (has_reason "succeeded") (map snd d) <? Z.of_nat (length d))
                = (0 <? Z.of_nat (length d) - count (has_reason "succeeded") (map snd d))).
  { apply eq_true_iff_eq. rewrite !Z.ltb_lt. lia. }
  rewrite Heq. done.
Qed.

Lemma done_report_of_submitted_group_witness :
  (exists rest,
      scan_group default_options "alice" "group-0" group_done
      = (done_report ("alice" +:+ "/" +:+ "group-0") doc_done :: rest, Ok tt)
      /\ (group_details default_options = false ->
          opt_return_codes default_options = false -> rest = []))
  /\ 0 <= failures doc_done
  /\ (failures doc_done = 0
      <-> forall st, st ∈ map snd doc_done -> reason st = Some "succeeded").
Proof.
  apply (done_report_of_submitted_group default_options "alice" "group-0" group_done
           jobid_text "4242" doc_done "61"); reflexivity.
Defined.

(** C3, counterexample.  A group directory that has its status document
    and its walltime record, and no job-id file, is reported as NOT
    SUBMITTED: the DONE line is not printed. *)
Lemma done_report_needs_jobid_file :
  status_json group_done_no_jobid = Some (Document doc_done)
  /\ walltime_file group_done_no_jobid = Some "61"
  /\ scan_group default_options "alice" "group-0" group_done_no_jobid
     = (["alice/group-0 : NOT SUBMITTED"], Ok tt)
  /\ done_report "alice/group-0" doc_done = "alice/group-0 : DONE, 1 / 3 failed"
  /\ (scan_group default_options "alice" "group-0" group_done_no_jobid).1
     <> [done_report "alice/group-0" doc_done].
Proof. repeat split; try reflexivity. vm_compute. discriminate. Qed.

(** C4, as amended.  For every group directory whose job-id file is
    there and holds a job id, whose status document has only the four
    states and whose walltime record is absent, the scan prints the IN
    PROGRESS line first, and alone when no listing is asked for: the job
    id, and [(total - in_progress) / total], where [in_progress] is the
    number of runs that are not started plus the number that are
    running. *)
Theorem in_progress_report_of_submitted_group o user group g text jobid d :
  jobid_file g = Some text -> jobid_of text = Some jobid ->
  status_json g = Some (Document d) -> known_states_only d = true ->
  walltime_file g = None ->
  exists rest,
    scan_group o user group g
    = (in_progress_report (user +:+ "/" +:+ group) jobid d :: rest, Ok tt)
    /\ (group_details o = false -> opt_return_codes o = false -> rest = []).
Proof.
  intros Hj Hid Hs Hk Hw.
  destruct (forallb_known_ok _ Hk) as (c & Hc & Hcount).
  destruct (scan_group_status o user group g text jobid d c Hj Hid Hs Hc)
    as (rest & Hscan & Hrest).
  exists rest. split; [|done]. rewrite Hscan. f_equal. f_equal.
  rewrite Hw. unfold in_progress_report, in_progress, dd_get.
  rewrite !(counted_init_state c (map snd d) _ Hcount). simpl.
  by rewrite (Z.add_comm (count (has_state "running") _)).
Qed.

Lemma in_progress_report_of_submitted_group_witness :
  exists rest,
    scan_group default_options "alice" "group-1" group_running
    = (in_progress_report ("alice" +:+ "/" +:+ "group-1") "4242" doc_running :: rest,
       Ok tt)
    /\ (group_details default_options = false ->
        opt_return_codes default_options = false -> rest = []).
Proof.
  apply (in_progress_report_of_submitted_group default_options "alice" "group-1"
           group_running jobid_text "4242" doc_running); reflexivity.
Defined.

(** C4, counterexample.  A group directory that has its status document,
    no walltime record and no job-id file is reported as NOT SUBMITTED:
    no IN PROGRESS line is printed, whatever the job id. *)
Lemma in_progress_report_needs_jobid_file :
  status_json group_running_no_jobid = Some (Document doc_running)
  /\ walltime_file group_running_no_jobid = None
  /\ scan_group default_options "alice" "group-1" group_running_no_jobid
     = (["alice/group-1 : NOT SUBMITTED"], Ok tt)
  /\ forall jobid,
       (scan_group default_options "alice" "group-1" group_running_no_jobid).1
       <> [in_progress_report "alice/group-1" jobid doc_running].
Proof. repeat split; try reflexivity. intros jobid. vm_compute. discriminate. Qed.

(** C5.  A group directory without a job-id file is reported as NOT
    SUBMITTED, whatever its other files are; one with a job-id file that
    holds a job id and without a status document is reported as NOT
    STARTED.  Both scans return normally.  A job-id file that has no
    [:] makes the scan raise [IndexError] with nothing printed, whether
    or not the status document is there. *)
Theorem missing_artifacts_are_reported o user group :
  (forall g, jobid_file g = None ->
     scan_group o user group g
     = ([(user +:+ "/" +:+ group) +:+ " : NOT SUBMITTED"], Ok tt))
  /\ (forall g g', jobid_file g = None -> jobid_file g' = None ->
        scan_group o user group g = scan_group o user group g')
  /\ (forall g text jobid,
        jobid_file g = Some text -> jobid_of text = Some jobid ->
        status_json g = None ->
        scan_group o user group g
        = ([(user +:+ "/" +:+ group) +:+ " : NOT STARTED"], Ok tt))
  /\ (forall g text,
        jobid_file g = Some text -> jobid_of text = None ->
        scan_group o user group g = ([], Raise IndexError)).
Proof.
  assert (Hns : forall g, jobid_file g = None ->
            scan_group o user group g
            = ([(user +:+ "/" +:+ group) +:+ " : NOT SUBMITTED"], Ok tt)).
  { intros g Hj. unfold scan_group. by rewrite Hj. }
  split; [done|]. split_and!.
  - intros g g' Hg Hg'. by rewrite (Hns g), (Hns g').
  - intros g text jobid Hj Hid Hs. unfold scan_group. unfold jobid_of in Hid.
    by rewrite Hj, Hid, Hs.
  - intros g text Hj Hid. unfold scan_group. unfold jobid_of in Hid.
    by rewrite Hj, Hid.
Qed.

Lemma missing_artifacts_are_reported_witness :
  scan_group default_options "alice" "group-2" group_new
  = ([("alice" +:+ "/" +:+ "group-2") +:+ " : NOT SUBMITTED"], Ok tt)
  /\ scan_group default_options "alice" "group-2" group_done_no_jobid
     = scan_group default_options "alice" "group-2" group_new
  /\ scan_group default_options "alice" "group-2" group_submitted
     = ([("alice" +:+ "/" +:+ "group-2") +:+ " : NOT STARTED"], Ok tt)
  /\ scan_group default_options "alice" "group-2" group_bare_jobid
     = ([], Raise IndexError).
Proof.
  destruct (missing_artifacts_are_reported default_options "alice" "group-2")
    as (H1 & H2 & H3 & H4).
  split; [apply H1; reflexivity|].
  split; [apply H2; reflexivity|].
  split; [apply (H3 group_submitted jobid_text "4242"); reflexivity|].
  apply (H4 group_bare_jobid "4242"); reflexivity.
Defined.

(** C5, counterexample.  A group directory whose job-id file holds
    [4242], without a [:], and that has no status document: the scan
    raises [IndexError] and prints no line, the NOT STARTED line is not
    reported. *)
Lemma not_started_report_needs_a_job_id :
  jobid_file group_bare_jobid = Some "4242"
  /\ status_json group_bare_jobid = None
  /\ scan_group default_options "alice" "group-2" group_bare_jobid
     = ([], Raise IndexError)
  /\ scan_group default_options "alice" "group-2" group_bare_jobid
     <> (["alice/group-2 : NOT STARTED"], Ok tt).
Proof. repeat split; try reflexivity. vm_compute. discriminate. Qed.

(** C6.  On an empty status document the aggregation returns the empty
    per-run map, the table of the four states at zero and empty tables of
    reasons and of return codes.  On every document whose states are
    among the four it returns, whether or not the records have a reason
    or return codes: every state has the number of its records, a reason
    the number of records that carry it, and a return code the number of
    components, over all runs, that returned it. *)
Theorem get_workflow_status_tolerates_missing_fields :
  (get_workflow_status (Some (Document [])) false 0 false None
   = ([], Ok ([], state_counts_init, ∅, ∅))
   /\ forall s, dd_get state_counts_init s = 0)
  /\ forall d pc ind prc fr,
       known_states_only d = true ->
       exists o sc rc rcc,
         get_workflow_status (Some (Document d)) pc ind prc fr
         = (o, Ok (d, sc, rc, rcc))
         /\ (forall s, sc !! s = if known_state s
                                 then Some (count (has_state s) (map snd d))
                                 else None)
         /\ (forall r, dd_get rc r = if PyStr.truthy r
                                     then count (has_reason r) (map snd d)
                                     else 0)
         /\ (forall v, dd_get rcc v = occurrences v (all_return_codes (map snd d))).
Proof.
  split.
  - split; [reflexivity|]. intros s. unfold dd_get.
    rewrite state_counts_init_lookup. by destruct (known_state s).
  - intros d pc ind prc fr Hk.
    destruct (forallb_known_ok _ Hk) as (c & Hc & Hcount).
    pose proof (get_workflow_status_document d pc ind prc fr) as Hg.
    rewrite Hc in Hg. destruct Hg as (o & Hg & _).
    exists o, (state_counts c), (reason_counts c), (rc_counts c).
    split; [done|]. split; [|split].
    + intros s. by apply counted_init_state.
    + intros r. by apply counted_init_reason.
    + intros v. by apply counted_init_rc.
Qed.

Lemma get_workflow_status_tolerates_missing_fields_witness :
  exists o sc rc rcc,
    get_workflow_status (Some (Document doc_bare)) false 0 false None
    = (o, Ok (doc_bare, sc, rc, rcc))
    /\ (forall s, sc !! s = if known_state s
                            then Some (count (has_state s) (map snd doc_bare))
                            else None)
    /\ (forall r, dd_get rc r = if PyStr.truthy r
                                then count (has_reason r) (map snd doc_bare)
                                else 0)
    /\ (forall v, dd_get rcc v = occurrences v (all_return_codes (map snd doc_bare))).
Proof.
  apply (proj2 get_workflow_status_tolerates_missing_fields doc_bare false 0%nat false None).
  reflexivity.
Defined.

(** C9.  On every status document with a record whose state is not one
    of the four, the aggregation raises [KeyError], prints nothing and
    returns no summary; it returns only when all states are among the
    four. *)
Theorem get_workflow_status_unknown_state_raises d pc ind prc fr :
  (existsb (fun st => negb (known_state (state st))) (map snd d) = true ->
   get_workflow_status (Some (Document d)) pc ind prc fr = ([], Raise KeyError))
  /\ (is_ok (get_workflow_status (Some (Document d)) pc ind prc fr).2 = true ->
      known_states_only d = true).
Proof.
  pose proof (get_workflow_status_document d pc ind prc fr) as Hg.
  split.
  - intros Hbad. by rewrite (existsb_unknown_raise _ Hbad) in Hg.
  - intros Hok. unfold known_states_only.
    destruct (forallb _ (map snd d)) eqn:Hall; [done|].
    assert (Hbad : existsb (fun st => negb (known_state (state st))) (map snd d) = true).
    { clear -Hall. induction (map snd d) as [|st l IH]; [done|]. simpl in *.
      destruct (known_state (state st)); simpl in *; auto. }
    rewrite (existsb_unknown_raise _ Hbad) in Hg. by rewrite Hg in Hok.
Qed.

Lemma get_workflow_status_unknown_state_raises_witness :
  get_workflow_status (Some (Document doc_paused)) false 0 false None
  = ([], Raise KeyError).
Proof.
  apply (proj1 (get_workflow_status_unknown_state_raises doc_paused false 0%nat false None)).
  reflexivity.
Defined.

(** C7, as amended.  A status document that is not JSON, in a group
    that passes the filters and has a job id, makes the whole scan raise
    [JSONDecodeError]: the lines printed for the users and groups before
    it stay printed, and nothing is reported for the group, nor for the
    groups and users after it. *)
Theorem unparseable_status_aborts_scan
    o users_before user groups_before group g groups_after users_after
    text jobid out1 out2 :
  filtered_out (filter_user o) user = false ->
  filtered_out (filter_group o) group = false ->
  jobid_file g = Some text -> jobid_of text = Some jobid ->
  status_json g = Some Unparseable ->
  print_campaign_status users_before o = (out1, Ok tt) ->
  scan_user o user groups_before = (out2, Ok tt) ->
  print_campaign_status
    (users_before ++ (user, groups_before ++ (group, g) :: groups_after) :: users_after) o
  = (out1 ++ out2, Raise JSONDecodeError).
Proof.
  intros Hu Hg Hj Hid Hs Hbefore Hgroups.
  unfold print_campaign_status in *. rewrite out_for_app, Hbefore. simpl.
  rewrite Hu. unfold scan_user in *. rewrite out_for_app, Hgroups. simpl.
  rewrite Hg, (scan_group_unparseable o user group g text jobid) by done.
  simpl. by rewrite app_nil_r.
Qed.

Lemma unparseable_status_aborts_scan_witness :
  print_campaign_status
    ([("alice", [("group-0", group_new)])]
     ++ ("bob", [("group-0", group_submitted)]
                ++ ("group-1", group_unparseable) :: [("group-2", group_new)])
        :: [("carol", [("group-0", group_new)])])
    default_options
  = (["alice/group-0 : NOT SUBMITTED"] ++ ["bob/group-0 : NOT STARTED"],
     Raise JSONDecodeError).
Proof.
  apply (unparseable_status_aborts_scan default_options _ "bob" _ "group-1"
           group_unparseable _ _ jobid_text "4242"); reflexivity.
Defined.

(** C7, counterexample.  In a campaign whose first group has a status
    file that is not JSON the scan raises and prints nothing, although
    the second group of the same user and the group of the next user
    have a line when scanned alone. *)
Lemma unparseable_status_stops_later_groups :
  print_campaign_status campaign_unparseable default_options
  = ([], Raise JSONDecodeError)
  /\ scan_group default_options "alice" "group-1" group_new
     = (["alice/group-1 : NOT SUBMITTED"], Ok tt)
  /\ scan_group default_options "bob" "group-0" group_new
     = (["bob/group-0 : NOT SUBMITTED"], Ok tt)
  /\ ("alice/group-1 : NOT SUBMITTED"
      ∉ (print_campaign_status campaign_unparseable default_options).1)
  /\ ("bob/group-0 : NOT SUBMITTED"
      ∉ (print_campaign_status campaign_unparseable default_options).1).
Proof. repeat split; try reflexivity; vm_compute; by intros ?%elem_of_nil. Qed.
End StatusTheorems.

(** * Properties of the file system and of the serialization *)

Module FSFacts.

Import FS FSSpec.

Lemma extends_refl W fs : extends W fs fs.
Proof. repeat split; eauto. Qed.

Lemma extends_trans W fs1 fs2 fs3 :
  extends W fs1 fs2 -> extends W fs2 fs3 -> extends W fs1 fs3.
Proof.
  intros (Hd1 & Hf1 & Hk1) (Hd2 & Hf2 & Hk2). repeat split.
  - eauto.
  - intros p c Hp. destruct (Hf1 p c Hp) as [c' Hc']. eauto.
  - eauto.
Qed.

Lemma extends_weaken (W W' : path -> Prop) fs fs' :
  (forall p, W p -> W' p) -> extends W fs fs' -> extends W' fs fs'.
Proof. intros HW (Hd & Hf & Hk). repeat split; eauto. Qed.

Lemma extends_exists W fs fs' p :
  extends W fs fs' -> exists_ fs p = true -> exists_ fs' p = true.
Proof.
  intros (Hd & Hf & _). unfold exists_.
  destruct (fs !! p) as [[|c]|] eqn:Hp; [| |done]; intros _.
  - by rewrite (Hd p Hp).
  - by destruct (Hf p c Hp) as [c' ->].
Qed.

Lemma extends_dirs W fs fs' ds :
  extends W fs fs' ->
  Forall (fun p => fs !! p = Some Dir) ds -> Forall (fun p => fs' !! p = Some Dir) ds.
Proof. intros (Hd & _) Hds. eapply Forall_impl; [done|]. simpl. eauto. Qed.

Lemma extends_insert_dir W fs p :
  fs !! p = None -> extends W fs (<[p := Dir]> fs).
Proof.
  intros Hp. repeat split; intros q.
  - intros Hq. rewrite lookup_insert_ne; [done|congruence].
  - intros c Hq. exists c. rewrite lookup_insert_ne; [done|congruence].
  - intros c _ Hq. rewrite lookup_insert_ne; [done|congruence].
Qed.

Lemma extends_insert_file (W : path -> Prop) fs p text :
  W p -> fs !! p <> Some Dir -> extends W fs (<[p := File text]> fs).
Proof.
  intros HW Hp. repeat split; intros q.
  - intros Hq. rewrite lookup_insert_ne; [done|congruence].
  - intros c Hq. destruct (decide (p = q)) as [->|Hne].
    + rewrite lookup_insert_eq. eauto.
    + rewrite lookup_insert_ne by done. eauto.
  - intros c HnW Hq. rewrite lookup_insert_ne; [done|]. by intros ->.
Qed.

(** *** The monad *)

Lemma bind_ok {A B} (m : io A) (f : A -> io B) fs fs' a :
  m fs = (fs', Ok a) -> bind m f fs = f a fs'.
Proof. unfold bind. by intros ->. Qed.

Lemma bind_raise {A B} (m : io A) (f : A -> io B) fs fs' e :
  m fs = (fs', Raise e) -> bind m f fs = (fs', Raise e).
Proof. unfold bind. by intros ->. Qed.

Lemma bind_inv_ok {A B} (m : io A) (f : A -> io B) fs fs' b :
  bind m f fs = (fs', Ok b) ->
  exists fs1 a, m fs = (fs1, Ok a) /\ f a fs1 = (fs', Ok b).
Proof. unfold bind. destruct (m fs) as [fs1 [a|e]]; [eauto|done]. Qed.

Lemma io_extends_ret {A} ds W (a : A) : io_extends ds W (ret a).
Proof. intros fs _. apply extends_refl. Qed.

Lemma io_extends_raise {A} ds W e : io_extends ds W (@raise A e).
Proof. intros fs _. apply extends_refl. Qed.

Lemma io_extends_bind {A B} ds W (m : io A) (f : A -> io B) :
  io_extends ds W m -> (forall a, io_extends ds W (f a)) -> io_extends ds W (bind m f).
Proof.
  intros Hm Hf fs Hds. unfold bind. specialize (Hm fs Hds).
  destruct (m fs) as [fs1 [a|e]]; [|done]. simpl in Hm.
  eapply extends_trans; [done|]. apply Hf. by eapply extends_dirs.
Qed.

Lemma io_extends_for_each {A} ds W (l : list A) (body : A -> io unit) :
  (forall x, io_extends ds W (body x)) -> io_extends ds W (for_each l body).
Proof.
  intros Hbody. induction l as [|x l IH]; simpl.
  - apply io_extends_ret.
  - by apply io_extends_bind.
Qed.

Lemma io_extends_weaken {A} ds (W W' : path -> Prop) (m : io A) :
  (forall p, W p -> W' p) -> io_extends ds W m -> io_extends ds W' m.
Proof. intros HW Hm fs Hds. eapply extends_weaken; eauto. Qed.

(** *** The operations *)

Lemma mkdir_extends W p fs : extends W fs (mkdir p fs).1.
Proof.
  unfold mkdir. destruct (fs !! p) eqn:Hp; [apply extends_refl|].
  destruct (fs !! dirname p) as [[|c]|]; simpl;
    [by apply extends_insert_dir|apply extends_refl..].
Qed.

Lemma makedirs_rev_extends W exist_ok rp : forall fs,
  extends W fs (makedirs_rev exist_ok rp fs).1.
Proof.
  induction rp as [|c rhead IH]; intros fs.
  - simpl. pose proof (mkdir_extends W [] fs) as Hm.
    destruct (mkdir [] fs) as [fs2 [[]|e]]; [done|].
    by destruct (exist_ok && isdir fs2 []).
  - cbn [makedirs_rev].
    set (parent := match rhead with [] => (fs, Ok tt) | _ :: _ => _ end).
    assert (Hparent : extends W fs parent.1).
    { unfold parent. destruct rhead as [|c' rh]; [apply extends_refl|].
      destruct (exists_ fs _); [apply extends_refl|].
      specialize (IH fs). destruct (makedirs_rev exist_ok (c' :: rh) fs) as [fs' [[]|e]];
        [done|]. by destruct e. }
    destruct parent as [fs1 [[]|e]]; [|done]. simpl in Hparent.
    pose proof (mkdir_extends W (rev (c :: rhead)) fs1) as Hm.
    destruct (mkdir (rev (c :: rhead)) fs1) as [fs2 [[]|e]] eqn:Hmk.
    + by eapply extends_trans.
    + simpl in Hm. destruct (exist_ok && isdir fs2 _); by eapply extends_trans.
Qed.

Lemma makedirs_extends ds W exist_ok p : io_extends ds W (makedirs exist_ok p).
Proof. intros fs _. apply makedirs_rev_extends. Qed.

Lemma write_file_extends (W : path -> Prop) p text fs :
  W p -> extends W fs (write_file p text fs).1.
Proof.
  intros HW. unfold write_file. destruct (fs !! p) as [[|c]|] eqn:Hp.
  - apply extends_refl.
  - apply extends_insert_file; [done|congruence].
  - destruct (fs !! dirname p) as [[|c]|]; simpl;
      [apply extends_insert_file; [done|congruence]|apply extends_refl..].
Qed.

Lemma copyfile_extends (W : path -> Prop) src dst fs :
  W dst -> extends W fs (copyfile src dst fs).1.
Proof.
  intros HW. unfold copyfile. destruct (decide (src = dst)); [apply extends_refl|].
  destruct (fs !! src) as [[|c]|]; [apply extends_refl| |apply extends_refl].
  by apply write_file_extends.
Qed.

Lemma copy_into_extends src d : io_extends [d] (inside d) (copy src d).
Proof.
  intros fs [Hd _]%Forall_cons. unfold copy, isdir. rewrite Hd.
  apply copyfile_extends. by eexists.
Qed.

Lemma dirname_join p x : dirname (join p x) = p.
Proof. unfold dirname, join. apply removelast_last. Qed.

Lemma join_inj p q x y : join p x = join q y -> p = q /\ x = y.
Proof. unfold join. intros H. by apply app_inj_tail in H. Qed.

Lemma join_ne_self p x : join p x <> p.
Proof.
  unfold join. intros H. apply (f_equal length) in H.
  rewrite length_app in H. simpl in H. lia.
Qed.

Lemma mkdir_ok p fs fs' :
  mkdir p fs = (fs', Ok tt) ->
  fs' = <[p := Dir]> fs /\ fs !! p = None /\ fs !! dirname p = Some Dir.
Proof.
  unfold mkdir. destruct (fs !! p) eqn:Hp; [done|].
  destruct (fs !! dirname p) as [[|c]|]; [|done..]. by intros [= <-].
Qed.

Lemma mkdir_raise p fs fs' e : mkdir p fs = (fs', Raise e) -> fs' = fs.
Proof.
  unfold mkdir. destruct (fs !! p); [by intros [= <-]|].
  destruct (fs !! dirname p) as [[|c]|]; [done|by intros [= <-]..].
Qed.

Lemma mkdir_exists p fs n :
  fs !! p = Some n -> mkdir p fs = (fs, Raise FileExistsError).
Proof. unfold mkdir. by intros ->. Qed.

Lemma makedirs_rev_unfold exist_ok rp fs :
  makedirs_rev exist_ok rp fs =
  match parent_step exist_ok rp fs with
  | (fs1, Raise e) => (fs1, Raise e)
  | (fs1, Ok _) =>
      match mkdir (rev rp) fs1 with
      | (fs2, Raise e) =>
          if exist_ok && isdir fs2 (rev rp) then (fs2, Ok tt) else (fs2, Raise e)
      | done => done
      end
  end.
Proof. destruct rp as [|c [|c' rh]]; reflexivity. Qed.

Lemma parent_step_extends W exist_ok rp fs :
  extends W fs (parent_step exist_ok rp fs).1.
Proof.
  unfold parent_step. destruct rp as [|c [|c' rh]]; [apply extends_refl..|].
  destruct (exists_ fs (rev (c' :: rh))); [apply extends_refl|].
  pose proof (makedirs_rev_extends W exist_ok (c' :: rh) fs) as Hm.
  destruct (makedirs_rev exist_ok (c' :: rh) fs) as [fs1 [[]|e]]; [done|].
  by destruct e.
Qed.

Lemma parent_step_skip exist_ok p fs :
  (exists_ fs (dirname p) = true \/ (length p <= 1)%nat) ->
  parent_step exist_ok (rev p) fs = (fs, Ok tt).
Proof.
  intros Hparent. unfold parent_step.
  destruct (rev p) as [|c [|c' rh]] eqn:Hrev; [done..|].
  assert (Hpe : p = rev (c' :: rh) ++ [c]).
  { apply (f_equal (@rev _)) in Hrev. by rewrite rev_involutive in Hrev. }
  destruct Hparent as [Hex|Hlen].
  - rewrite Hpe in Hex. unfold dirname in Hex. rewrite removelast_last in Hex.
    by rewrite Hex.
  - rewrite Hpe, length_app in Hlen. simpl in Hlen.
    rewrite length_app in Hlen. simpl in Hlen. lia.
Qed.

Lemma makedirs_rev_ok exist_ok rp fs fs' :
  makedirs_rev exist_ok rp fs = (fs', Ok tt) -> fs' !! rev rp = Some Dir.
Proof.
  rewrite makedirs_rev_unfold.
  destruct (parent_step exist_ok rp fs) as [fs1 [[]|e]]; [|done].
  destruct (mkdir (rev rp) fs1) as [fs2 [[]|e]] eqn:Hmk.
  - intros [= <-]. apply mkdir_ok in Hmk as (-> & _). by rewrite lookup_insert_eq.
  - destruct (exist_ok && isdir fs2 _) eqn:Hd; [|done]. intros [= <-].
    apply andb_true_iff in Hd as [_ Hd]. unfold isdir in Hd.
    by destruct (fs2 !! _) as [[|?]|].
Qed.

Lemma makedirs_ok exist_ok p fs fs' :
  makedirs exist_ok p fs = (fs', Ok tt) -> fs' !! p = Some Dir.
Proof.
  unfold makedirs. intros H%makedirs_rev_ok. by rewrite rev_involutive in H.
Qed.

(** A directory that exists is accepted as it is when [exist_ok] is
    set. *)
Lemma makedirs_exist_ok p fs :
  fs !! p = Some Dir ->
  (exists_ fs (dirname p) = true \/ (length p <= 1)%nat) ->
  makedirs true p fs = (fs, Ok tt).
Proof.
  intros Hp Hparent. unfold makedirs.
  rewrite makedirs_rev_unfold, parent_step_skip, rev_involutive by done.
  rewrite (mkdir_exists p fs Dir Hp). simpl. unfold isdir. by rewrite Hp.
Qed.

(** A path that exists is refused when [exist_ok] is not set. *)
Lemma makedirs_exists p fs n :
  fs !! p = Some n ->
  (exists_ fs (dirname p) = true \/ (length p <= 1)%nat) ->
  makedirs false p fs = (fs, Raise FileExistsError).
Proof.
  intros Hp Hparent. unfold makedirs.
  rewrite makedirs_rev_unfold, parent_step_skip, rev_involutive by done.
  by rewrite (mkdir_exists p fs n Hp).
Qed.

Lemma dirname_ne p : p <> [] -> dirname p <> p.
Proof.
  intros Hp. destruct (exists_last Hp) as (q & x & ->).
  unfold dirname. rewrite removelast_last. intros H. symmetry in H.
  by apply (join_ne_self q x).
Qed.

Lemma makedirs_false_ok_parent p fs fs' :
  makedirs false p fs = (fs', Ok tt) -> fs' !! dirname p = Some Dir.
Proof.
  unfold makedirs. rewrite makedirs_rev_unfold, rev_involutive.
  destruct (parent_step false (rev p) fs) as [fs1 [[]|e]]; [|done].
  destruct (mkdir p fs1) as [fs2 [[]|e]] eqn:Hmk; [|done].
  intros [= <-]. apply mkdir_ok in Hmk as (-> & Hnone & Hdir).
  rewrite lookup_insert_ne; [done|]. intros Heq.
  destruct p as [|c p]; [simpl in *; congruence|].
  by apply (dirname_ne (c :: p)).
Qed.

Lemma write_file_ok p text fs fs' :
  write_file p text fs = (fs', Ok tt) -> fs' = <[p := File text]> fs.
Proof.
  unfold write_file. destruct (fs !! p) as [[|c]|]; [done|by intros [= <-]|].
  destruct (fs !! dirname p) as [[|c]|]; [by intros [= <-]|done..].
Qed.

Lemma copytree_extends ds W src dst : io_extends ds W (copytree src dst).
Proof.
  intros fs _. unfold copytree.
  destruct (fs !! src) as [[|c]|]; [|apply extends_refl..].
  pose proof (makedirs_extends [] W false dst fs (Forall_nil_2 _)) as Hm.
  destruct (makedirs false dst fs) as [fs1 [[]|e]]; [|done]. simpl in *.
  eapply extends_trans; [done|]. repeat split.
  - intros p Hp. by apply lookup_union_Some_l.
  - intros p c Hp. exists c. by apply lookup_union_Some_l.
  - intros p c _ Hp. by apply lookup_union_Some_l.
Qed.

Lemma copytree_ok src dst fs fs' :
  copytree src dst fs = (fs', Ok tt) ->
  fs' !! dst = Some Dir /\ fs' !! dirname dst = Some Dir.
Proof.
  unfold copytree. destruct (fs !! src) as [[|c]|]; [|done..].
  destruct (makedirs false dst fs) as [fs1 [[]|e]] eqn:Hm; [|done].
  intros [= <-]. split; apply lookup_union_Some_l.
  - by eapply makedirs_ok.
  - by eapply makedirs_false_ok_parent.
Qed.

Lemma copytree_exists src dst fs n :
  fs !! src = Some Dir -> fs !! dst = Some n ->
  (exists_ fs (dirname dst) = true \/ (length dst <= 1)%nat) ->
  copytree src dst fs = (fs, Raise FileExistsError).
Proof.
  intros Hs Hd Hp. unfold copytree. by rewrite Hs, (makedirs_exists dst fs n).
Qed.
End FSFacts.

Module JsonFacts.

Import Json.

Lemma value_ind' (P : value -> Prop) :
  P Null -> (forall b, P (Bool b)) -> (forall z, P (Int z)) -> (forall s, P (Str s)) ->
  (forall l, Forall P l -> P (Arr l)) ->
  (forall l, Forall (fun kv => P kv.2) l -> P (Obj l)) ->
  forall v, P v.
Proof.
  intros HNull HBool HInt HStr HArr HObj. fix IH 1.
  intros [|b|z|s|l|l]; [done|done|done|done|apply HArr|apply HObj].
  - induction l as [|v l IHl]; constructor; [apply IH|apply IHl].
  - induction l as [|[k v] l IHl]; constructor; [apply IH|apply IHl].
Qed.

Lemma count_newlines_app s1 s2 :
  count_newlines (s1 +:+ s2) = (count_newlines s1 + count_newlines s2)%nat.
Proof. induction s1 as [|c s1 IH]; simpl; [done|]. rewrite IH. lia. Qed.

Lemma escape_char_no_newline c : count_newlines (escape_char c) = 0%nat.
Proof. by destruct c as [[] [] [] [] [] [] [] []]. Qed.

Lemma escape_no_newline s : count_newlines (escape s) = 0%nat.
Proof.
  induction s as [|c s IH]; simpl; [done|].
  by rewrite count_newlines_app, escape_char_no_newline, IH.
Qed.

Lemma encode_string_no_newline s : count_newlines (encode_string s) = 0%nat.
Proof.
  unfold encode_string. simpl.
  by rewrite count_newlines_app, escape_no_newline.
Qed.

Lemma pretty_N_char_no_newline x : Ascii.eqb (pretty_N_char x) newline = false.
Proof. unfold pretty_N_char. by repeat case_match. Qed.

Lemma pretty_N_go_no_newline x : forall s,
  count_newlines (pretty_N_go x s) = count_newlines s.
Proof.
  induction (N.lt_wf_0 x) as [x _ IH]; intros s.
  destruct (decide (x = 0)%N) as [->|Hx]; [done|].
  rewrite pretty_N_go_step by lia. rewrite IH by (apply N.div_lt; lia).
  simpl. by rewrite pretty_N_char_no_newline.
Qed.

Lemma pretty_Z_no_newline (z : Z) : count_newlines (pretty z) = 0%nat.
Proof.
  assert (HN : forall n : N, count_newlines (pretty n) = 0%nat).
  { intros n. unfold pretty, pretty_N. case_decide; [done|].
    apply pretty_N_go_no_newline. }
  destruct z as [|p|p]; [done|apply (HN (Npos p))|].
  unfold pretty, pretty_Z. simpl. apply (HN (Npos p)).
Qed.

Lemma join_no_newline sep l :
  count_newlines sep = 0%nat -> Forall (fun s => count_newlines s = 0%nat) l ->
  count_newlines (PyStr.join sep l) = 0%nat.
Proof.
  intros Hsep. induction 1 as [|s l Hs Hl IH]; [done|].
  destruct l as [|s' l]; [done|].
  change (PyStr.join sep (s :: s' :: l)) with (s +:+ sep +:+ PyStr.join sep (s' :: l)).
  by rewrite !count_newlines_app, Hs, Hsep, IH.
Qed.

Lemma encode_no_newline v :
  forall level, count_newlines (encode None level v) = 0%nat.
Proof.
  revert v.
  apply (value_ind' (fun v => forall level, count_newlines (encode None level v) = 0%nat)).
  - done.
  - by intros [].
  - intros z level. apply pretty_Z_no_newline.
  - intros s level. apply encode_string_no_newline.
  - intros l Hl level. destruct l as [|v l]; [done|].
    cbn [encode newline_indent item_separator].
    rewrite !count_newlines_app, join_no_newline; [done..|].
    apply Forall_fmap. eapply Forall_impl; [done|]. intros v' Hv. unfold compose. apply Hv.
  - intros l Hl level. destruct l as [|kv l]; [done|].
    cbn [encode newline_indent item_separator].
    rewrite !count_newlines_app, join_no_newline; [done..|].
    apply Forall_fmap. eapply Forall_impl; [done|]. intros [k v'] Hv. unfold compose. cbn [fst snd] in *.
    rewrite !count_newlines_app, encode_string_no_newline, Hv. done.
Qed.

(** The text that [json.dumps] gives without [indent] has no line
    end. *)
Lemma dumps_no_newline v : count_newlines (dumps v) = 0%nat.
Proof. apply encode_no_newline. Qed.
End JsonFacts.

(** * Properties of group materialization *)

Module LaunchersFacts.

Import Json FS FSSpec FSFacts JsonFacts Launchers LaunchersSpec.

(** An outcome that is a success is the pair of its final state and its
    value. *)
Lemma ok_outcome {S A} (x : S * result A) (d : A) :
  is_ok x.2 = true -> x = (x.1, Ok (from_result d x.2)).
Proof. by destruct x as [s [v|e]]. Qed.

Lemma ok_outcome_unit {S} (x : S * result unit) :
  is_ok x.2 = true -> x = (x.1, Ok tt).
Proof. by destruct x as [s [[]|e]]. Qed.


(** [ceil_div] is the ceiling of the quotient. *)
Lemma ceil_div_spec n d :
  0 < d -> d * (ceil_div n d - 1) < n <= d * ceil_div n d.
Proof.
  intros Hd. unfold ceil_div.
  pose proof (Z.div_mod (- n) d) as Hdm. pose proof (Z.mod_pos_bound (- n) d Hd).
  nia.
Qed.

Lemma ceil_div_nonneg n d : 0 < d -> 0 <= n -> 0 <= ceil_div n d.
Proof. intros Hd Hn. pose proof (ceil_div_spec n d Hd). nia. Qed.

Lemma ceil_div_unique n d c : 0 < d -> d * (c - 1) < n <= d * c -> ceil_div n d = c.
Proof. intros Hd Hc. pose proof (ceil_div_spec n d Hd). nia. Qed.

(** Rounding gives the quotient or the next integer, and the nearer of
    the two. *)
Lemma round_half_even_cases a b :
  0 < b ->
  let k := a / b in
  let r := a mod b in
  a = b * k + r /\ 0 <= r < b
  /\ ((round_half_even a b = k /\ 2 * r <= b)
      \/ (round_half_even a b = k + 1 /\ b <= 2 * r)).
Proof.
  intros Hb k r. pose proof (Z.div_mod a b ltac:(lia)) as Hdm.
  pose proof (Z.mod_pos_bound a b Hb) as Hr. fold k r in Hdm, Hr.
  split; [done|]. split; [done|]. unfold round_half_even. fold k r.
  destruct (2 * r <? b) eqn:H1; [left; split; [done|lia]|].
  destruct (b <? 2 * r) eqn:H2; [right; split; [done|lia]|].
  destruct (Z.even k); [left|right]; split; try done; lia.
Qed.

Lemma round_half_even_nonneg a b : 0 <= a -> 0 < b -> 0 <= round_half_even a b.
Proof.
  intros Ha Hb. destruct (round_half_even_cases a b Hb) as (Hdm & Hr & Hcases).
  assert (0 <= a / b) by (apply Z.div_pos; lia). lia.
Qed.

Lemma floor_log2_quotient_le n d :
  floor_log2_quotient n d <= Z.log2 n - Z.log2 d.
Proof. unfold floor_log2_quotient. cbv zeta. case_match; lia. Qed.

(** The ceiling of the rounded quotient is the ceiling of the quotient
    where 53 bits hold the two numbers: the quotient lies more than
    half a step of the binary64 numbers above the integer below it. *)
Lemma math_ceil_truediv_exact n d :
  0 <= n < 2 ^ 53 -> 0 < d < 2 ^ 53 -> math_ceil_truediv n d = Ok (ceil_div n d).
Proof.
  intros Hn Hd. unfold math_ceil_truediv, truediv.
  destruct (d =? 0) eqn:Hd0; [lia|]. destruct (n =? 0) eqn:Hn0.
  { apply Z.eqb_eq in Hn0 as ->. unfold math_ceil, ceil_div. simpl.
    by rewrite Zdiv_0_l. }
  apply Z.eqb_neq in Hn0. rewrite (Z.abs_eq n), (Z.abs_eq d) by lia.
  unfold nearest_binary64. cbv zeta.
  set (e := Z.max (floor_log2_quotient n d - 52) (-1074)).
  pose proof (floor_log2_quotient_le n d) as HL.
  assert (Hlogn : Z.log2 n < 53) by (apply Z.log2_lt_pow2; lia).
  assert (Hlogd53 : Z.log2 d < 53) by (apply Z.log2_lt_pow2; lia).
  pose proof (Z.log2_nonneg d) as Hlogd0.
  pose proof (Z.log2_spec d ltac:(lia)) as [_ Hlogd].
  assert (He : e <= 0) by lia.
  set (P := 2 ^ (- e)).
  assert (HP : 0 < P) by (apply Z.pow_pos_nonneg; lia).
  assert (H2P : d < 2 * P).
  { unfold P. replace (2 * 2 ^ (- e)) with (2 ^ (Z.succ (- e)))
      by (rewrite Z.pow_succ_r; lia).
    eapply Z.lt_le_trans; [exact Hlogd|]. apply Z.pow_le_mono_r; lia. }
  assert (Hm : (if 0 <=? e then round_half_even n (d * 2 ^ e)
                else round_half_even (n * P) d)
               = round_half_even (n * P) d).
  { destruct (0 <=? e) eqn:He0; [|done]. apply Z.leb_le in He0.
    assert (e = 0) as Hz by lia. unfold P. rewrite Hz. simpl. f_equal; lia. }
  rewrite Hm. set (m := round_half_even (n * P) d).
  destruct (round_half_even_cases (n * P) d ltac:(lia)) as (Hdm & Hr & Hcases).
  fold m in Hcases.
  set (k := n * P / d) in *. set (r := (n * P) mod d) in *.
  pose proof (ceil_div_spec n d ltac:(lia)) as Hc. set (c := ceil_div n d) in *.
  assert (Hbounds : P * (c - 1) < m <= P * c) by nia.
  assert (Hmle : m <= 2 ^ 53 * P) by nia.
  assert (Hover : (2 ^ 1024 <=? m * 2 ^ e) = false).
  { apply Z.leb_gt. destruct (decide (e = 0)) as [Hz|Hz].
    - rewrite Hz. unfold P in Hmle. rewrite Hz in Hmle. simpl in Hmle.
      change (2 ^ 0) with 1. rewrite Z.mul_1_r.
      eapply Z.le_lt_trans; [|by apply (Z.pow_lt_mono_r 2 54 1024)]. lia.
    - rewrite (Z.pow_neg_r 2 e) by lia. rewrite Z.mul_0_r.
      by apply Z.pow_pos_nonneg. }
  rewrite Hover. rewrite (Z.sgn_pos n), (Z.sgn_pos d) by lia.
  rewrite !Z.mul_1_l. f_equal. unfold math_ceil.
  destruct (0 <=? e) eqn:He0.
  - apply Z.leb_le in He0. assert (e = 0) as Hz by lia.
    unfold P in Hbounds. rewrite Hz in *. simpl in Hbounds. simpl. lia.
  - fold P. by apply ceil_div_unique.
Qed.

(** The value of [math.ceil(n / d)] is not negative for [n] not
    negative and [d] positive. *)
Lemma math_ceil_truediv_nonneg n d v :
  0 <= n -> 0 < d -> math_ceil_truediv n d = Ok v -> 0 <= v.
Proof.
  intros Hn Hd. unfold math_ceil_truediv, truediv.
  destruct (d =? 0) eqn:Hd0; [done|]. destruct (n =? 0) eqn:Hn0.
  { simpl. intros [= <-]. done. }
  apply Z.eqb_neq in Hn0. rewrite (Z.abs_eq n), (Z.abs_eq d) by lia.
  unfold nearest_binary64. cbv zeta.
  set (e := Z.max (floor_log2_quotient n d - 52) (-1074)).
  set (m := if 0 <=? e then _ else _).
  assert (Hm : 0 <= m).
  { unfold m. destruct (0 <=? e) eqn:He.
    - apply Z.leb_le in He. apply round_half_even_nonneg; [lia|].
      apply Z.mul_pos_pos; [lia|]. by apply Z.pow_pos_nonneg.
    - apply round_half_even_nonneg; [|lia].
      apply Z.mul_nonneg_nonneg; [lia|]. apply Z.pow_nonneg. lia. }
  destruct (2 ^ 1024 <=? m * 2 ^ e); [done|].
  rewrite (Z.sgn_pos n), (Z.sgn_pos d) by lia. rewrite !Z.mul_1_l.
  intros [= <-]. unfold math_ceil. destruct (0 <=? e) eqn:He.
  - apply Z.mul_nonneg_nonneg; [done|]. apply Z.pow_nonneg. lia.
  - apply Z.leb_gt in He. apply ceil_div_nonneg; [|done].
    apply Z.pow_pos_nonneg; lia.
Qed.

Lemma math_ceil_truediv_ok_divisor n d :
  is_ok (math_ceil_truediv n d) = true -> d <> 0.
Proof. by intros Hok ->. Qed.

Lemma computed_nodes_of_nonneg ppn c :
  0 < ppn -> 0 <= nprocs c -> 0 <= computed_nodes_of ppn c.
Proof.
  intros Hppn Hc. unfold computed_nodes_of.
  destruct (math_ceil_truediv (nprocs c) ppn) as [v|e] eqn:Hv; [|done].
  by eapply math_ceil_truediv_nonneg.
Qed.

Lemma computed_prior_nodes_nonneg ppn l :
  0 < ppn -> forallb (fun c => 0 <=? nprocs c) l = true ->
  0 <= computed_prior_nodes ppn l.
Proof.
  intros Hppn. unfold computed_prior_nodes. induction l as [|c l IH]; simpl; [done|].
  intros [Hc Hl]%andb_true_iff. apply Z.leb_le in Hc.
  pose proof (computed_nodes_of_nonneg ppn c Hppn Hc). specialize (IH Hl). lia.
Qed.

Lemma computed_prior_nodes_app ppn l1 l2 :
  computed_prior_nodes ppn (l1 ++ l2)
  = computed_prior_nodes ppn l1 + computed_prior_nodes ppn l2.
Proof.
  unfold computed_prior_nodes. induction l1 as [|c l1 IH]; simpl; [done|].
  rewrite IH. lia.
Qed.

Lemma forallb_take {A} (f : A -> bool) l i :
  forallb f l = true -> forallb f (take i l) = true.
Proof.
  revert i. induction l as [|x l IH]; intros [|i]; simpl; try done.
  intros [-> Hl]%andb_true_iff. by apply IH.
Qed.

Lemma forallb_drop {A} (f : A -> bool) l i :
  forallb f l = true -> forallb f (drop i l) = true.
Proof.
  revert i. induction l as [|x l IH]; intros [|i]; simpl; try done.
  intros [_ Hl]%andb_true_iff. by apply IH.
Qed.

Lemma computed_prior_nodes_take_mono ppn l :
  0 < ppn -> forallb (fun c => 0 <=? nprocs c) l = true ->
  forall i j, (i <= j)%nat ->
    computed_prior_nodes ppn (take i l) <= computed_prior_nodes ppn (take j l).
Proof.
  intros Hppn Hl i j Hij.
  replace (take j l) with (take i l ++ take (j - i) (drop i l)).
  - rewrite computed_prior_nodes_app.
    pose proof (computed_prior_nodes_nonneg ppn (take (j - i) (drop i l)) Hppn) as Hnn.
    specialize (Hnn ltac:(by apply forallb_take, forallb_drop)). lia.
  - rewrite take_take_drop. f_equal. lia.
Qed.

(** Where 53 bits hold the numbers, the program counts the nodes of
    the quotients. *)
Lemma computed_prior_nodes_exact ppn l :
  held_by_53_bits ppn l = true -> computed_prior_nodes ppn l = prior_nodes ppn l.
Proof.
  unfold held_by_53_bits. intros [[Hp1 Hp2]%andb_true_iff Hl]%andb_true_iff.
  apply Z.ltb_lt in Hp1, Hp2. unfold computed_prior_nodes, prior_nodes.
  induction l as [|c l IH]; simpl; [done|].
  simpl in Hl. apply andb_true_iff in Hl as [[Hc1 Hc2]%andb_true_iff Hl].
  apply Z.leb_le in Hc1. apply Z.ltb_lt in Hc2. rewrite (IH Hl).
  unfold computed_nodes_of, nodes_of. by rewrite math_ceil_truediv_exact by lia.
Qed.

Lemma held_by_53_bits_take ppn l i :
  held_by_53_bits ppn l = true -> held_by_53_bits ppn (take i l) = true.
Proof.
  unfold held_by_53_bits. intros [-> Hl]%andb_true_iff. by apply forallb_take.
Qed.

Lemma prior_nodes_nonneg ppn l :
  0 < ppn -> forallb (fun c => 0 <=? nprocs c) l = true -> 0 <= prior_nodes ppn l.
Proof.
  intros Hppn. unfold prior_nodes. induction l as [|c l IH]; simpl; [done|].
  intros [Hc Hl]%andb_true_iff. apply Z.leb_le in Hc.
  pose proof (ceil_div_nonneg (nprocs c) ppn Hppn Hc).
  specialize (IH Hl). unfold nodes_of at 1. lia.
Qed.

Lemma prior_nodes_take_mono ppn l :
  0 < ppn -> forallb (fun c => 0 <=? nprocs c) l = true ->
  forall i j, (i <= j)%nat -> prior_nodes ppn (take i l) <= prior_nodes ppn (take j l).
Proof.
  intros Hppn. induction l as [|c l IH]; intros Hl i j Hij.
  - by rewrite !take_nil.
  - simpl in Hl. apply andb_true_iff in Hl as [Hc Hl].
    destruct i as [|i], j as [|j]; [done| |lia|].
    + change (prior_nodes ppn (take 0 (c :: l))) with 0.
      apply prior_nodes_nonneg; [done|].
      change (take (S j) (c :: l)) with (c :: take j l). simpl. rewrite Hc. simpl.
      clear -Hl. revert j. induction l as [|c' l IH]; intros [|j]; simpl; try done.
      simpl in Hl. apply andb_true_iff in Hl as [-> Hl]. simpl. by apply IH.
    + simpl. unfold prior_nodes in *. simpl.
      specialize (IH Hl i j ltac:(lia)). lia.
Qed.



Section WithExternals.

Context `{Externals}.

Lemma dict_get_set_eq {V} k (v : V) d : dict_get k (dict_set k v d) = Some v.
Proof.
  induction d as [|[k' v'] d IH]; simpl.
  - by rewrite decide_True.
  - destruct (decide (k = k')); simpl; [by rewrite decide_True|].
    by rewrite decide_False.
Qed.

Lemma prior_nodes_app ppn l1 l2 :
  prior_nodes ppn (l1 ++ l2) = prior_nodes ppn l1 + prior_nodes ppn l2.
Proof.
  unfold prior_nodes. induction l1 as [|c l1 IH]; simpl; [done|]. rewrite IH. lia.
Qed.

Lemma listener_rank_offset_add_sos self env rp ppn idx :
  dict_get "SOS_LISTENER_RANK_OFFSET" (add_sos_env self env rp ppn idx)
  = Some (Int idx).
Proof. unfold add_sos_env. apply dict_get_set_eq. Qed.

(** One turn of the loop over the codes. *)
Lemma fob_code_ok self a r fob_runs idx c fs fs' fob_runs' idx' :
  fob_code self a r (fob_runs, idx) c fs = (fs', Ok (fob_runs', idx')) ->
  exists data,
    fob_runs' = fob_runs ++ [data]
    /\ makedirs false (tau_profile_dir r c) fs = (fs', Ok tt)
    /\ (if sos a then
          is_ok (math_ceil_truediv (nprocs c) (processes_per_node (machine a))) = true
          /\ idx' = idx + computed_nodes_of (processes_per_node (machine a)) c
          /\ listener_rank_offset data = Some (Int idx)
        else idx' = idx).
Proof.
  unfold fob_code, tau_profile_dir.
  intros (fs1 & [] & Hmk & Hrest)%bind_inv_ok.
  apply bind_inv_ok in Hrest as (fs2 & [env idx2] & Henv & Hrest).
  destruct (argv c) as [|exe args]; [done|].
  apply bind_inv_ok in Hrest as (fs3 & data & Hdata & Hret).
  unfold ret in Hret. injection Hret as Hfs3 Hruns Hidx. subst fs3 fob_runs' idx2.
  assert (Hd : fs2 = fs' /\ dict_get "env" data = Some (Obj env)).
  { destruct (timeout a) as [t|].
    - destruct (parse_timedelta_seconds t) as [s|]; [|done].
      unfold ret in Hdata. by injection Hdata as <- <-.
    - unfold ret in Hdata. by injection Hdata as <- <-. }
  destruct Hd as [-> Hd].
  assert (He : fs1 = fs' /\ (if sos a then
            is_ok (math_ceil_truediv (nprocs c) (processes_per_node (machine a))) = true
            /\ idx' = idx + computed_nodes_of (processes_per_node (machine a)) c
            /\ dict_get "SOS_LISTENER_RANK_OFFSET" env = Some (Int idx)
          else idx' = idx)).
  { destruct (sos a).
    - unfold computed_nodes_of.
      destruct (math_ceil_truediv _ _) as [n|]; [|done].
      unfold ret in Henv. injection Henv as <- <- <-. split; [done|].
      split; [done|]. split; [done|]. apply listener_rank_offset_add_sos.
    - unfold ret in Henv. by injection Henv as <- <- <-. }
  destruct He as [-> He].
  exists data. split; [done|]. split; [done|].
  destruct (sos a); [|done]. destruct He as (Hok & -> & Hoff). split; [done|].
  split; [done|]. unfold listener_rank_offset. by rewrite Hd.
Qed.

Lemma fob_codes_ok self a r l : forall fob_runs idx fs fs' fob_runs' idx',
  fob_codes self a r (fob_runs, idx) l fs = (fs', Ok (fob_runs', idx')) ->
  exists new,
    fob_runs' = fob_runs ++ new /\ length new = length l
    /\ (sos a = true ->
        idx' = idx + computed_prior_nodes (processes_per_node (machine a)) l
        /\ (forall c, c ∈ l ->
              is_ok (math_ceil_truediv (nprocs c) (processes_per_node (machine a)))
              = true)
        /\ forall j data, new !! j = Some data ->
             listener_rank_offset data
             = Some (Int (idx + computed_prior_nodes (processes_per_node (machine a))
                                  (take j l)))).
Proof.
  induction l as [|c l IH]; intros fob_runs idx fs fs' fob_runs' idx'; simpl.
  - unfold ret. intros [= <- <- <-]. exists []. rewrite app_nil_r.
    split; [done|]. split; [done|]. intros _.
    split; [unfold computed_prior_nodes; simpl; lia|].
    split; [by intros c ?%elem_of_nil|]. by intros j data ?.
  - intros (fs1 & [runs1 idx1] & Hc & Hl)%bind_inv_ok.
    apply fob_code_ok in Hc as (data & -> & _ & Hsos).
    apply IH in Hl as (new & -> & Hlen & Hnew).
    exists (data :: new). rewrite <- app_assoc. split; [done|].
    split; [simpl; lia|]. intros Hs. rewrite Hs in Hsos.
    destruct Hsos as (Hok & -> & Hoff). destruct (Hnew Hs) as (-> & Hoks & Hj).
    split; [unfold computed_prior_nodes; simpl; lia|].
    split; [by intros c' [->|Hc']%elem_of_cons; auto|].
    intros [|j] data'; simpl.
    + intros [= <-]. rewrite Hoff. do 2 f_equal. unfold computed_prior_nodes. simpl. lia.
    + intros Hd. rewrite (Hj j data' Hd). do 2 f_equal.
      unfold computed_prior_nodes. simpl. lia.
Qed.

Lemma fob_code_extends ds W self a r acc c : io_extends ds W (fob_code self a r acc c).
Proof.
  unfold fob_code. destruct acc as [fob_runs idx].
  apply io_extends_bind; [apply makedirs_extends|]. intros _.
  apply io_extends_bind.
  { destruct (sos a); [|apply io_extends_ret].
    destruct (math_ceil_truediv _ _); [apply io_extends_ret|apply io_extends_raise]. }
  intros [env idx']. destruct (argv c); [apply io_extends_raise|].
  apply io_extends_bind; [|intros; apply io_extends_ret].
  destruct (timeout a) as [t|]; [|apply io_extends_ret].
  destruct (parse_timedelta_seconds t); [apply io_extends_ret|apply io_extends_raise].
Qed.

Lemma fob_codes_extends ds W self a r l :
  forall acc, io_extends ds W (fob_codes self a r acc l).
Proof.
  induction l as [|c l IH]; intros acc; simpl; [apply io_extends_ret|].
  apply io_extends_bind; [apply fob_code_extends|done].
Qed.

(** [os.makedirs] without [exist_ok] never accepts a path that
    exists. *)
Lemma makedirs_false_exists_raise p fs :
  exists_ fs p = true -> exists fs' e, makedirs false p fs = (fs', Raise e).
Proof.
  intros Hex. unfold makedirs. rewrite makedirs_rev_unfold, rev_involutive.
  pose proof (parent_step_extends nowhere false (rev p) fs) as Hparent.
  destruct (parent_step false (rev p) fs) as [fs1 [[]|e]]; [|by eauto].
  simpl in Hparent. apply (extends_exists _ _ _ p Hparent) in Hex.
  unfold exists_ in Hex. destruct (fs1 !! p) as [n|] eqn:Hp; [|done].
  rewrite (mkdir_exists p fs1 n Hp). simpl. eauto.
Qed.

Lemma fob_codes_exists_raise self a r l : forall acc fs c,
  c ∈ l -> exists_ fs (tau_profile_dir r c) = true ->
  exists fs' e, fob_codes self a r acc l fs = (fs', Raise e).
Proof.
  induction l as [|c0 l IH]; intros acc fs c Hin Hex; [by apply elem_of_nil in Hin|].
  simpl. unfold bind.
  destruct (fob_code self a r acc c0 fs) as [fs1 [acc1|e]] eqn:Hc0; [|by eauto].
  apply elem_of_cons in Hin as [->|Hin].
  - exfalso. destruct acc as [fob_runs idx], acc1 as [fob_runs1 idx1].
    apply fob_code_ok in Hc0 as (data & _ & Hmk & _).
    destruct (makedirs_false_exists_raise _ _ Hex) as (fs2 & e & Hraise). congruence.
  - apply (IH acc1 fs1 c Hin).
    pose proof (fob_code_extends [] nowhere self a r acc c0 fs (Forall_nil_2 _)) as Hext.
    rewrite Hc0 in Hext. by eapply extends_exists.
Qed.

(** The first invocation whose profiling directory exists, in a run
    directory that exists, stops the loop with [FileExistsError]. *)
Lemma fob_codes_first_exists self a r c l acc fs :
  exists_ fs (run_path r) = true ->
  exists_ fs (tau_profile_dir r c) = true ->
  fob_codes self a r acc (c :: l) fs = (fs, Raise FileExistsError).
Proof.
  intros Hrun Hex. simpl. unfold exists_ in Hex.
  destruct (fs !! tau_profile_dir r c) as [n|] eqn:Hp; [|done].
  apply bind_raise. unfold fob_code. destruct acc as [fob_runs idx].
  apply bind_raise. apply (makedirs_exists _ _ n Hp). left.
  unfold tau_profile_dir. by rewrite dirname_join.
Qed.

Lemma write_file_io_extends ds (W : path -> Prop) p text :
  W p -> io_extends ds W (write_file p text).
Proof. intros HW fs _. by apply write_file_extends. Qed.

Lemma adios_xml_transform_extends ds (W : path -> Prop) p g v x :
  W p -> io_extends ds W (adios_xml_transform p g v x).
Proof.
  intros HW fs _. unfold adios_xml_transform.
  destruct (fs !! p) as [[|text]|] eqn:Hp; [apply extends_refl| |apply extends_refl].
  destruct (xml_set_transform text g v x); [|apply extends_refl].
  apply extends_insert_file; [done|congruence].
Qed.

Lemma inside_join d x : inside d (join d x).
Proof. by exists x. Qed.

Lemma io_extends_after_makedirs {A} W p (m : io A) :
  io_extends [p] W m -> io_extends [] W (makedirs true p >>> m).
Proof.
  intros Hm fs _. unfold bind.
  pose proof (makedirs_extends [] W true p fs (Forall_nil_2 _)) as Hmk.
  destruct (makedirs true p fs) as [fs1 [[]|e]] eqn:Hp; [|done].
  eapply extends_trans; [done|]. apply Hm. constructor; [|done].
  by eapply makedirs_ok.
Qed.

Lemma after_makedirs_ok {A} W p (m : io A) fs fs' (a : A) :
  io_extends [p] W m -> (makedirs true p >>> m) fs = (fs', Ok a) ->
  fs' !! p = Some Dir.
Proof.
  intros Hm (fs1 & [] & Hmk & Hrest)%bind_inv_ok. apply makedirs_ok in Hmk.
  specialize (Hm fs1). rewrite Hrest in Hm. apply Hm; [by constructor|done].
Qed.

Ltac run_files_rest :=
  repeat (apply io_extends_bind; [|intros _]);
  [ destruct (tau_config _); [apply copy_into_extends|apply io_extends_ret]
  | apply io_extends_for_each; intros ?; apply copy_into_extends
  | apply io_extends_for_each; intros ?;
    apply adios_xml_transform_extends, inside_join
  | apply write_file_io_extends, inside_join
  | apply write_file_io_extends, inside_join ].

Lemma run_files_extends self a r fs :
  extends (inside (run_path r)) fs (run_files self a r fs).1.
Proof.
  revert fs. cut (io_extends [] (inside (run_path r)) (run_files self a r)).
  { intros Hio fs. by apply Hio. }
  unfold run_files. apply io_extends_after_makedirs. run_files_rest.
Qed.

Lemma run_files_ok self a r fs fs' :
  run_files self a r fs = (fs', Ok tt) -> fs' !! run_path r = Some Dir.
Proof.
  unfold run_files. apply (after_makedirs_ok (inside (run_path r))).
  run_files_rest.
Qed.

Lemma create_run_directory_extends self a r fs :
  extends (inside (run_path r)) fs (create_run_directory self a r fs).1.
Proof.
  unfold create_run_directory. unfold bind at 1.
  pose proof (run_files_extends self a r fs) as Hfiles.
  destruct (run_files self a r fs) as [fs1 [[]|e]]; [|done]. simpl in Hfiles.
  eapply extends_trans; [done|].
  cut (io_extends [] (inside (run_path r))
         (do! (fob_runs, _) :=
            fob_codes self a r ([], 0) (get_codes_argv_with_exe_and_nprocs r) in
          let fob_s := dumps (Obj (fob_dict a r fob_runs)) in
          write_file (run_fob_path r) (fob_s +:+ nl) >>> ret fob_s)).
  { intros Hrest. by apply Hrest. }
  apply io_extends_bind; [apply fob_codes_extends|]. intros [fob_runs idx].
  apply io_extends_bind; [|intros; apply io_extends_ret].
  apply write_file_io_extends, inside_join.
Qed.

(** A run that is materialized: its descriptor is the one of its
    codes, in order, and is in its own file. *)
Lemma create_run_directory_ok self a r fs fs' fob_s :
  create_run_directory self a r fs = (fs', Ok fob_s) ->
  exists fob_runs,
    fob_s = dumps (Obj (fob_dict a r fob_runs))
    /\ length fob_runs = length (get_codes_argv_with_exe_and_nprocs r)
    /\ fs' !! run_fob_path r = Some (File (fob_s +:+ nl))
    /\ (sos a = true ->
        (forall c, c ∈ get_codes_argv_with_exe_and_nprocs r ->
           is_ok (math_ceil_truediv (nprocs c) (processes_per_node (machine a)))
           = true)
        /\ forall j data, fob_runs !! j = Some data ->
             listener_rank_offset data
             = Some (Int (computed_prior_nodes (processes_per_node (machine a))
                            (take j (get_codes_argv_with_exe_and_nprocs r))))).
Proof.
  unfold create_run_directory.
  intros (fs1 & [] & _ & Hrest)%bind_inv_ok.
  apply bind_inv_ok in Hrest as (fs2 & [fob_runs idx] & Hcodes & Hrest).
  apply bind_inv_ok in Hrest as (fs3 & [] & Hw & Hret).
  unfold ret in Hret. injection Hret as <- <-.
  apply fob_codes_ok in Hcodes as (new & -> & Hlen & Hsos).
  exists new. simpl in *. split_and!; try done.
  - apply write_file_ok in Hw as ->. by rewrite lookup_insert_eq.
  - intros Hs. destruct (Hsos Hs) as (_ & Hoks & Hoff). split; [done|].
    intros j data Hj. by rewrite (Hoff j data Hj).
Qed.

Lemma run_fob_path_inside r r' :
  inside (run_path r') (run_fob_path r) -> run_path r' = run_path r.
Proof. intros [x Hx]. unfold run_fob_path in Hx. by apply join_inj in Hx as [-> _]. Qed.

Lemma create_run_directories_spec self a runs : forall f fs fs' f' res,
  create_run_directories self a runs f fs = (fs', (f', res)) ->
  extends (inside_runs runs) fs fs'
  /\ exists new,
      f' = f ++ new
      /\ (length new <= length runs)%nat
      /\ (res = Ok tt -> length new = length runs)
      /\ (forall i fob_s, new !! i = Some fob_s ->
            exists r fob_runs,
              runs !! i = Some r
              /\ fob_s = dumps (Obj (fob_dict a r fob_runs))
              /\ length fob_runs = length (get_codes_argv_with_exe_and_nprocs r))
      /\ (NoDup (map run_path runs) ->
          forall i r fob_s, runs !! i = Some r -> new !! i = Some fob_s ->
            fs' !! run_fob_path r = Some (File (fob_s +:+ nl))).
Proof.
  induction runs as [|r runs IH]; intros f fs fs' f' res; simpl.
  - intros [= <- <- <-]. split; [apply extends_refl|]. exists [].
    rewrite app_nil_r. split_and!; try done.
  - pose proof (create_run_directory_extends self a r fs) as Hext.
    destruct (create_run_directory self a r fs) as [fs1 [fob_s|e]] eqn:Hrun.
    + intros Hloop. apply IH in Hloop as (Hext' & new & -> & Hlen & Hok & Hnew & Hfiles).
      simpl in Hext. split.
      { eapply extends_trans; (eapply extends_weaken; [|done]).
        - intros p Hp. exists r. split; [by left|done].
        - intros p (r' & Hr' & Hp). exists r'. split; [by right|done]. }
      exists (fob_s :: new). rewrite <- app_assoc. split; [done|].
      split; [simpl; lia|]. split; [intros Hres; simpl; by rewrite Hok|]. split.
      * intros [|i] s; simpl; [|by apply Hnew].
        intros [= <-]. apply create_run_directory_ok in Hrun
          as (fob_runs & Hs & Hl & _). by exists r, fob_runs.
      * intros Hnd. apply NoDup_cons in Hnd as [Hr Hnd].
        intros [|i] r' s; simpl; [|by apply Hfiles].
        intros [= <-] [= <-]. apply create_run_directory_ok in Hrun
          as (fob_runs & _ & _ & Hfile & _).
        destruct Hext' as (_ & _ & Hkeep). apply Hkeep; [|done].
        intros (r' & Hr' & Hin%run_fob_path_inside). apply Hr.
        rewrite <- Hin. apply list_elem_of_fmap. by exists r'.
    + intros [= <- <- <-]. simpl in Hext. split.
      { eapply extends_weaken; [|done]. intros p Hp. exists r. split; [by left|done]. }
      exists []. rewrite app_nil_r. split_and!; try done; simpl; lia.
Qed.

Lemma create_run_directories_exists_raise self a runs : forall f fs r c,
  r ∈ runs -> c ∈ get_codes_argv_with_exe_and_nprocs r ->
  exists_ fs (tau_profile_dir r c) = true ->
  exists fs' f' e, create_run_directories self a runs f fs = (fs', (f', Raise e)).
Proof.
  induction runs as [|r0 runs IH]; intros f fs r c Hr Hc Hex;
    [by apply elem_of_nil in Hr|].
  simpl.
  pose proof (create_run_directory_extends self a r0 fs) as Hext.
  destruct (create_run_directory self a r0 fs) as [fs1 [fob_s|e]] eqn:Hrun;
    [|by eauto].
  simpl in Hext. apply elem_of_cons in Hr as [->|Hr].
  - exfalso. unfold create_run_directory in Hrun.
    apply bind_inv_ok in Hrun as (fs2 & [] & Hfiles & Hrest).
    apply bind_inv_ok in Hrest as (fs3 & acc & Hcodes & _).
    pose proof (run_files_extends self a r0 fs) as Hext2.
    rewrite Hfiles in Hext2. simpl in Hext2.
    apply (extends_exists _ _ _ _ Hext2) in Hex.
    destruct (fob_codes_exists_raise self a r0 _ ([], 0) fs2 c Hc Hex)
      as (fs4 & e & Hraise). congruence.
  - apply (IH _ fs1 r c Hr Hc). by eapply extends_exists.
Qed.

(** *** The scripts of the group *)

Lemma io_extends_apply {A} W (m : io A) fs :
  io_extends [] W m -> extends W fs (m fs).1.
Proof. intros Hm. by apply Hm. Qed.

Lemma group_scripts_unsupported self a fs :
  isdir fs (script_dir self) = false -> group_scripts self a fs = (fs, Raise ValueError).
Proof. intros Hd. unfold group_scripts. by rewrite Hd. Qed.

Lemma group_scripts_extends self a fs :
  extends (inside (output_directory self)) fs (group_scripts self a fs).1.
Proof.
  unfold group_scripts. destruct (isdir fs (script_dir self)); [|apply extends_refl].
  simpl. apply io_extends_apply.
  apply io_extends_bind; [apply copytree_extends|]. intros _.
  destruct (parse_timedelta_seconds (walltime a)); [|apply io_extends_raise].
  apply write_file_io_extends, inside_join.
Qed.

Lemma group_scripts_ok self a fs fs' :
  group_scripts self a fs = (fs', Ok tt) ->
  fs' !! output_directory self = Some Dir
  /\ fs' !! dirname (output_directory self) = Some Dir
  /\ fs' !! script_dir self = Some Dir.
Proof.
  intros Hg. pose proof (group_scripts_extends self a fs) as (Hdirs & _).
  rewrite Hg in Hdirs. simpl in Hdirs.
  unfold group_scripts in Hg. unfold isdir in Hg.
  destruct (fs !! script_dir self) as [[|c]|] eqn:Hs; [|done..]. simpl in Hg.
  apply bind_inv_ok in Hg as (fs1 & [] & Hcopy & Hrest).
  apply copytree_ok in Hcopy as [Hout Hparent].
  destruct (parse_timedelta_seconds (walltime a)); [|done].
  match type of Hrest with
  | write_file ?p ?t fs1 = _ =>
      pose proof (write_file_extends (fun _ => True) p t fs1 I) as (Hd & _)
  end.
  rewrite Hrest in Hd. simpl in Hd. split_and!; auto.
Qed.

(** Where the output directory exists, the scripts of the group are
    not copied again. *)
Lemma group_scripts_exists self a fs n :
  fs !! script_dir self = Some Dir ->
  fs !! output_directory self = Some n ->
  fs !! dirname (output_directory self) = Some Dir ->
  group_scripts self a fs = (fs, Raise FileExistsError).
Proof.
  intros Hs Hout Hparent. unfold group_scripts, isdir. rewrite Hs. simpl.
  apply bind_raise. apply (copytree_exists _ _ _ n); [done..|].
  left. unfold exists_. by rewrite Hparent.
Qed.
End WithExternals.
End LaunchersFacts.

Module LaunchersTheorems.

Import Json FS FSSpec FSFacts JsonFacts Launchers LaunchersSpec LaunchersExamples
       LaunchersFacts.

Section WithExternals.

Context `{Externals}.

(** C1.  For every run that is materialized with the SOS integration,
    every [math.ceil(nprocs / machine.processes_per_node)] has
    returned, the descriptor written has one record for each
    invocation, in order, and the [SOS_LISTENER_RANK_OFFSET] of the
    environment of the [j]-th is the sum, over the invocations before
    it, of these values, each the ceiling of the binary64 number
    nearest to the quotient: 0 for the first.  It is the sum of the
    ceilings of the quotients themselves where the process counts are
    from 0 to below [2 ^ 53] and [processes_per_node] from 1 to below
    [2 ^ 53], and it never decreases along the invocations when the
    process counts are not negative and there is at least one process
    a node. *)
Theorem sos_listener_rank_offset_counts_prior_nodes self a r fs fs' fob_s :
  sos a = true ->
  create_run_directory self a r fs = (fs', Ok fob_s) ->
  exists fob_runs,
    fob_s = dumps (Obj (fob_dict a r fob_runs))
    /\ length fob_runs = length (get_codes_argv_with_exe_and_nprocs r)
    /\ (forall c, c ∈ get_codes_argv_with_exe_and_nprocs r ->
          is_ok (math_ceil_truediv (nprocs c) (processes_per_node (machine a)))
          = true)
    /\ (forall j data, fob_runs !! j = Some data ->
          listener_rank_offset data
          = Some (Int (computed_prior_nodes (processes_per_node (machine a))
                         (take j (get_codes_argv_with_exe_and_nprocs r)))))
    /\ (forall data, fob_runs !! 0%nat = Some data ->
          listener_rank_offset data = Some (Int 0))
    /\ (held_by_53_bits (processes_per_node (machine a))
          (get_codes_argv_with_exe_and_nprocs r) = true ->
        forall j data, fob_runs !! j = Some data ->
          listener_rank_offset data
          = Some (Int (prior_nodes (processes_per_node (machine a))
                         (take j (get_codes_argv_with_exe_and_nprocs r)))))
    /\ (0 < processes_per_node (machine a) ->
        forallb (fun c => 0 <=? nprocs c) (get_codes_argv_with_exe_and_nprocs r)
        = true ->
        forall i j, (i <= j)%nat ->
          computed_prior_nodes (processes_per_node (machine a))
            (take i (get_codes_argv_with_exe_and_nprocs r))
          <= computed_prior_nodes (processes_per_node (machine a))
               (take j (get_codes_argv_with_exe_and_nprocs r))).
Proof.
  intros Hsos Hrun.
  apply create_run_directory_ok in Hrun as (fob_runs & Hs & Hlen & _ & Hoff).
  destruct (Hoff Hsos) as [Hoks Hoffs].
  exists fob_runs. split_and!; try done.
  - intros data Hd. by rewrite (Hoffs 0%nat data Hd).
  - intros H53 j data Hd. rewrite (Hoffs j data Hd).
    by rewrite computed_prior_nodes_exact by by apply held_by_53_bits_take.
  - intros Hppn Hn. by apply computed_prior_nodes_take_mono.
Qed.

(** C8.  Where the directory of the scripts of the scheduler of the
    launcher is not there, the materialization of a group raises
    [ValueError] and leaves the file system as it was. *)
Theorem unsupported_scheduler_changes_nothing self a runs fs :
  isdir fs (script_dir self) = false ->
  create_group_directory self a runs fs = (fs, Raise ValueError).
Proof.
  intros Hd. unfold create_group_directory, create_group_directory_fobs.
  by rewrite group_scripts_unsupported.
Qed.


(** C10.  The directory of a run is made with [exist_ok]: a run
    directory that exists is taken as it is.  The profiling directory
    of an invocation is made without it: the materialization of a run
    one of whose profiling directories exists raises, with
    [FileExistsError] when it is the directory of the first invocation
    and the files of the run were written; and so does the
    materialization of any group with such a run. *)
Theorem rematerializing_a_run_raises self a :
  (forall r fs,
      fs !! run_path r = Some Dir ->
      exists_ fs (dirname (run_path r)) = true ->
      makedirs true (run_path r) fs = (fs, Ok tt))
  /\ (forall r j c fs,
        get_codes_argv_with_exe_and_nprocs r !! j = Some c ->
        isdir fs (tau_profile_dir r c) = true ->
        exists fs' e, create_run_directory self a r fs = (fs', Raise e))
  /\ (forall r c fs fs1,
        get_codes_argv_with_exe_and_nprocs r !! 0%nat = Some c ->
        isdir fs (tau_profile_dir r c) = true ->
        run_files self a r fs = (fs1, Ok tt) ->
        create_run_directory self a r fs = (fs1, Raise FileExistsError))
  /\ (forall runs i r j c fs,
        runs !! i = Some r ->
        get_codes_argv_with_exe_and_nprocs r !! j = Some c ->
        isdir fs (tau_profile_dir r c) = true ->
        exists fs' e, create_group_directory self a runs fs = (fs', Raise e)).
Proof.
  assert (Hisdir : forall fs p, isdir fs p = true -> exists_ fs p = true).
  { intros fs p. unfold isdir, exists_. by destruct (fs !! p) as [[|?]|]. }
  split_and!.
  - intros r fs Hr Hp. apply makedirs_exist_ok; auto.
  - intros r j c fs Hc%list_elem_of_lookup_2 Hex%Hisdir.
    unfold create_run_directory. unfold bind at 1.
    pose proof (run_files_extends self a r fs) as Hext.
    destruct (run_files self a r fs) as [fs1 [[]|e]]; [|by eauto].
    apply (extends_exists _ _ _ _ Hext) in Hex.
    destruct (fob_codes_exists_raise self a r _ ([], 0) fs1 c Hc Hex)
      as (fs2 & e & Hraise).
    exists fs2, e. by apply bind_raise.
  - intros r c fs fs1 Hc Hex%Hisdir Hfiles.
    unfold create_run_directory. rewrite (bind_ok _ _ _ _ _ Hfiles).
    pose proof (run_files_extends self a r fs) as Hext. rewrite Hfiles in Hext.
    apply (extends_exists _ _ _ _ Hext) in Hex.
    apply run_files_ok in Hfiles.
    destruct (get_codes_argv_with_exe_and_nprocs r) as [|c' l]; [done|].
    injection Hc as ->. apply bind_raise.
    apply fob_codes_first_exists; [|done]. unfold exists_. by rewrite Hfiles.
  - intros runs i r j c fs Hr%list_elem_of_lookup_2 Hc%list_elem_of_lookup_2 Hex%Hisdir.
    unfold create_group_directory, create_group_directory_fobs.
    pose proof (group_scripts_extends self a fs) as Hext1.
    destruct (group_scripts self a fs) as [fs1 [[]|e]]; [|by eauto].
    pose proof (write_file_extends (fun _ => True) (fobs_path self) "" fs1 I) as Hext2.
    destruct (write_file (fobs_path self) "" fs1) as [fs2 [[]|e]]; [|by eauto].
    apply (extends_exists _ _ _ _ Hext1), (extends_exists _ _ _ _ Hext2) in Hex.
    destruct (create_run_directories_exists_raise self a runs [] fs2 r c Hr Hc Hex)
      as (fs3 & f & e & ->). eauto.
Qed.
End WithExternals.

#[local] Existing Instance example_externals.

Lemma sos_listener_rank_offset_counts_prior_nodes_witness :
  exists fob_runs,
    from_result "" example_materialized.2
    = dumps (Obj (fob_dict example_args (example_run "0") fob_runs))
    /\ length fob_runs = length example_codes
    /\ (forall c, c ∈ example_codes -> is_ok (math_ceil_truediv (nprocs c) 4) = true)
    /\ (forall j data, fob_runs !! j = Some data ->
          listener_rank_offset data
          = Some (Int (computed_prior_nodes 4 (take j example_codes))))
    /\ (forall data, fob_runs !! 0%nat = Some data ->
          listener_rank_offset data = Some (Int 0))
    /\ (forall j data, fob_runs !! j = Some data ->
          listener_rank_offset data = Some (Int (prior_nodes 4 (take j example_codes))))
    /\ (forall i j, (i <= j)%nat ->
          computed_prior_nodes 4 (take i example_codes)
          <= computed_prior_nodes 4 (take j example_codes)).
Proof.
  destruct (sos_listener_rank_offset_counts_prior_nodes example_launcher example_args
              (example_run "0") example_fs example_materialized.1
              (from_result "" example_materialized.2) eq_refl)
    as (fob_runs & Hs & Hlen & Hoks & Hoff & Hfirst & Hexact & Hmono).
  - apply (ok_outcome example_materialized). vm_compute. reflexivity.
  - exists fob_runs.
    split; [exact Hs|]. split; [exact Hlen|]. split; [exact Hoks|].
    split; [exact Hoff|]. split; [exact Hfirst|]. split.
    + apply Hexact. vm_compute. reflexivity.
    + apply Hmono; reflexivity.
Defined.

(** C1, the runs that the claim leaves out.  With [2 ^ 53 + 1]
    processes on a machine of one process a node, the second offset is
    [2 ^ 53], and the sum of the ceilings of the quotients is
    [2 ^ 53 + 1]; with a process count below 0 the offsets are 0, 1
    and -1, and decrease. *)
Lemma listener_rank_offset_is_of_the_binary64_quotient :
  (sos example_wide_args = true
   /\ example_wide_materialized.2
      = Ok (dumps (Obj (fob_dict example_wide_args example_wide_run
                          (records_of example_wide_args example_wide_run))))
   /\ map listener_rank_offset (records_of example_wide_args example_wide_run)
      = [Some (Int 0); Some (Int (2 ^ 53))]
   /\ prior_nodes 1 (take 1 example_wide_codes) = 2 ^ 53 + 1)
  /\ (sos example_args = true
      /\ example_negative_materialized.2
         = Ok (dumps (Obj (fob_dict example_args example_negative_run
                             (records_of example_args example_negative_run))))
      /\ map listener_rank_offset (records_of example_args example_negative_run)
         = [Some (Int 0); Some (Int 1); Some (Int (-1))]).
Proof. by vm_compute. Qed.

Lemma unsupported_scheduler_changes_nothing_witness :
  create_group_directory example_launcher_slurm example_args example_runs example_fs
  = (example_fs, Raise ValueError).
Proof.
  apply unsupported_scheduler_changes_nothing. vm_compute. reflexivity.
Defined.

Example example_crash_outcome :
  example_crash.2.2 = Raise IndexError /\ length example_crash_lines = 2%nat.
Proof. by vm_compute. Qed.


Lemma rematerializing_a_run_raises_witness :
  makedirs true (run_path (example_run "0")) example_materialized.1
  = (example_materialized.1, Ok tt)
  /\ (exists fs' e,
        create_run_directory example_launcher example_args (example_run "0")
          example_materialized.1 = (fs', Raise e))
  /\ create_run_directory example_launcher example_args (example_run "0")
       example_materialized.1
     = ((run_files example_launcher example_args (example_run "0")
           example_materialized.1).1, Raise FileExistsError)
  /\ (exists fs' e,
        create_group_directory example_launcher example_args example_runs
          example_materialized.1 = (fs', Raise e)).
Proof.
  destruct (rematerializing_a_run_raises example_launcher example_args)
    as (H1 & H2 & H3 & H4).
  split_and!.
  - apply H1; vm_compute; reflexivity.
  - eapply (H2 (example_run "0") 1%nat); [reflexivity|vm_compute; reflexivity].
  - eapply (H3 (example_run "0")); [reflexivity|vm_compute; reflexivity|].
    apply ok_outcome_unit. vm_compute. reflexivity.
  - eapply (H4 example_runs 0%nat (example_run "0") 2%nat);
      [reflexivity|reflexivity|vm_compute; reflexivity].
Defined.
End LaunchersTheorems.

(** * Further properties of the status scan *)

Module ScanFacts.

Import Status StatusSpec StatusExamples StatusFacts ScanSpec.

Lemma known_state_cases s :
  known_state s = true ->
  s = "not_started" \/ s = "running" \/ s = "done" \/ s = "killed".
Proof.
  unfold known_state, known_states. intros Hs%bool_decide_eq_true.
  repeat (apply elem_of_cons in Hs as [->|Hs]; [tauto|]).
  by apply elem_of_nil in Hs.
Qed.

Lemma count_known_states l :
  Forall (fun st => known_state (state st) = true) l ->
  count (has_state "not_started") l + count (has_state "running") l
  + count (has_state "done") l + count (has_state "killed") l
  = Z.of_nat (length l).
Proof.
  induction 1 as [|st l Hst _ IH]; [done|].
  rewrite !count_cons. cbn [length]. rewrite Nat2Z.inj_succ.
  pose proof (known_state_cases _ Hst) as Hcases.
  repeat case_decide; unfold has_state in *;
    destruct Hcases as [Hc | [Hc | [Hc | Hc]]]; try congruence; lia.
Qed.

Lemma get_workflow_status_ok d pc ind prc fr o sd sc rc rcc :
  get_workflow_status (Some (Document d)) pc ind prc fr = (o, Ok (sd, sc, rc, rcc)) ->
  exists c, count_records counters_init (map snd d) = Ok c
            /\ counted counters_init c (map snd d)
            /\ Forall (fun st => known_state (state st) = true) (map snd d)
            /\ sd = d /\ sc = state_counts c /\ rc = reason_counts c
            /\ rcc = rc_counts c.
Proof.
  intros Hget.
  pose proof (get_workflow_status_document d pc ind prc fr) as Hdoc.
  destruct (count_records_spec (map snd d) counters_init)
    as [(c & Hc & Hcounted & Hall)|(Hraise & _)].
  - rewrite Hc in Hdoc. destruct Hdoc as (o' & Hdoc & _).
    rewrite Hdoc in Hget. simplify_eq. exists c. split_and!; try done.
    apply Forall_forall. intros st Hst. specialize (Hall st Hst). simpl in Hall.
    rewrite state_counts_init_lookup in Hall.
    destruct (known_state (state st)); [done|]. by destruct Hall.
  - rewrite Hraise in Hdoc. rewrite Hdoc in Hget. done.
Qed.

Lemma get_workflow_status_returns d pc ind prc fr :
  known_states_only d = true ->
  exists o c,
    get_workflow_status (Some (Document d)) pc ind prc fr
    = (o, Ok (d, state_counts c, reason_counts c, rc_counts c)).
Proof.
  intros (c & Hc & _)%forallb_known_ok.
  pose proof (get_workflow_status_document d pc ind prc fr) as Hdoc.
  rewrite Hc in Hdoc. destruct Hdoc as (o & Hdoc & _). eauto.
Qed.

End ScanFacts.

Module ScanTheorems.

Import Status StatusSpec StatusExamples StatusFacts ScanSpec ScanFacts.

(** X1.  When the aggregation of a status document returns, the four
    state counts add up to the number of runs of the document, and each
    lies between 0 and that number. *)
Theorem state_counts_add_up_to_total d pc ind prc fr o sd sc rc rcc :
  get_workflow_status (Some (Document d)) pc ind prc fr = (o, Ok (sd, sc, rc, rcc)) ->
  sd = d
  /\ dd_get sc "not_started" + dd_get sc "running" + dd_get sc "done"
     + dd_get sc "killed" = Z.of_nat (length d)
  /\ forall s, 0 <= dd_get sc s <= Z.of_nat (length d).
Proof.
  intros (c & _ & Hcounted & Hknown & -> & -> & _ & _)%get_workflow_status_ok.
  split; [done|].
  pose proof (known_state_counted c _ Hcounted) as Hget.
  split.
  - rewrite !Hget. change (known_state "not_started") with true.
    change (known_state "running") with true. change (known_state "done") with true.
    change (known_state "killed") with true. cbn match.
    rewrite count_known_states by done. by rewrite length_map.
  - intros s. rewrite Hget. pose proof (count_le (has_state s) (map snd d)) as Hle.
    rewrite length_map in Hle. destruct (known_state s); lia.
Qed.

Lemma state_counts_add_up_to_total_witness :
  exists o sc rc rcc,
    get_workflow_status (Some (Document doc_running)) false 0 false None
    = (o, Ok (doc_running, sc, rc, rcc))
    /\ dd_get sc "not_started" + dd_get sc "running" + dd_get sc "done"
       + dd_get sc "killed" = Z.of_nat (length doc_running).
Proof.
  destruct (get_workflow_status_returns doc_running false 0%nat false None eq_refl)
    as (o & c & Hget).
  exists o, (state_counts c), (reason_counts c), (rc_counts c). split; [exact Hget|].
  exact (proj1 (proj2 (state_counts_add_up_to_total _ _ _ _ _ _ _ _ _ _ Hget))).
Defined.

End ScanTheorems.

Module JobidFacts.

Import Status StatusSpec ScanSpec.

Lemma split_length sep s :
  length (PyStr.split sep s) = S (count_char sep s).
Proof.
  induction s as [|c s IH]; [done|]. simpl.
  destruct (Ascii.eqb c sep); simpl; [by rewrite IH|].
  destruct (PyStr.split sep s); simpl in *; lia.
Qed.

Lemma split_no_sep sep s : count_char sep s = 0%nat -> PyStr.split sep s = [s].
Proof.
  induction s as [|c s IH]; [done|]. simpl.
  destruct (Ascii.eqb c sep); [done|]. intros Hs. by rewrite IH.
Qed.

Lemma split_first sep a b :
  count_char sep a = 0%nat ->
  PyStr.split sep (a +:+ String sep b) = a :: PyStr.split sep b.
Proof.
  induction a as [|c a IH]; simpl.
  - by rewrite Ascii.eqb_refl.
  - destruct (Ascii.eqb c sep); [done|]. intros Ha. by rewrite IH.
Qed.

Lemma lstrip_no_space s t : no_space s = true -> s <> "" -> PyStr.lstrip (s +:+ t) = s +:+ t.
Proof.
  destruct s as [|c s]; [done|]. simpl. intros [Hc _]%andb_true_iff _.
  apply negb_true_iff in Hc. by rewrite Hc.
Qed.

Lemma rstrip_all_space w : all_space w = true -> PyStr.rstrip w = "".
Proof.
  induction w as [|c w IH]; [done|]. simpl. intros [Hc Hw]%andb_true_iff.
  by rewrite IH, Hc.
Qed.

Lemma rstrip_no_space s w :
  no_space s = true -> all_space w = true -> PyStr.rstrip (s +:+ w) = s.
Proof.
  intros Hs Hw. induction s as [|c s IH]; simpl.
  - by apply rstrip_all_space.
  - simpl in Hs. apply andb_true_iff in Hs as [Hc Hs]. rewrite IH by done.
    apply negb_true_iff in Hc. rewrite Hc. by destruct s.
Qed.

Lemma no_space_app s t : no_space s = true -> no_space t = true -> no_space (s +:+ t) = true.
Proof.
  induction s as [|c s IH]; [done|]. simpl. intros [-> Hs]%andb_true_iff Ht.
  by rewrite IH.
Qed.

Lemma lstrip_all_space w s :
  all_space w = true -> PyStr.lstrip (w +:+ s) = PyStr.lstrip s.
Proof.
  induction w as [|c w IH]; [done|]. simpl. intros [-> Hw]%andb_true_iff. auto.
Qed.

Lemma lstrip_id s : no_space s = true -> PyStr.lstrip s = s.
Proof.
  destruct s as [|c s]; [done|]. simpl. intros [Hc _]%andb_true_iff.
  apply negb_true_iff in Hc. by rewrite Hc.
Qed.

(** [strip] takes the white space off both ends of a text that has
    none inside. *)
Lemma strip_no_space w1 s w2 :
  all_space w1 = true -> no_space s = true -> all_space w2 = true ->
  PyStr.strip (w1 +:+ s +:+ w2) = s.
Proof.
  intros H1 Hs H2. unfold PyStr.strip. rewrite lstrip_all_space by done.
  destruct s as [|c s].
  - change ("" +:+ w2) with w2.
    assert (PyStr.lstrip w2 = "") as ->; [|done].
    clear -H2. induction w2 as [|c w IH]; [done|]. simpl in *.
    apply andb_true_iff in H2 as [-> Hw]. auto.
  - rewrite lstrip_no_space by done. by apply rstrip_no_space.
Qed.

End JobidFacts.

Module JobidTheorems.

Import Status StatusSpec StatusExamples ScanSpec JobidFacts.

(** X2.  A job-id file whose text, without the white space at its
    ends, has no colon makes the scan of the group raise [IndexError]
    with nothing printed for the group, whatever the other files of the
    group are; an empty job-id file is one. *)
Theorem jobid_without_colon_raises o user group g text :
  jobid_file g = Some text ->
  count_char ":" (PyStr.strip text) = 0%nat ->
  scan_group o user group g = ([], Raise IndexError).
Proof.
  intros Hj Hc. unfold scan_group. rewrite Hj. by rewrite (split_no_sep _ _ Hc).
Qed.

Lemma jobid_without_colon_raises_witness :
  scan_group default_options "alice" "group-0"
    {| jobid_file := Some "4242"; status_json := Some (Document doc_done);
       walltime_file := Some "61" |}
  = ([], Raise IndexError).
Proof. by apply (jobid_without_colon_raises _ _ _ _ "4242"). Defined.

(** X3.  The job id that the scan reports is the second of the fields
    that the colons separate: for a job-id file that holds [name:id],
    with or without more fields after a further colon and with any
    white space around, it is [id]. *)
Theorem jobid_is_the_second_field w1 name id more w2 :
  all_space w1 = true -> all_space w2 = true ->
  no_space name = true -> no_space id = true -> no_space more = true ->
  count_char ":" name = 0%nat -> count_char ":" id = 0%nat ->
  jobid_of (w1 +:+ (name +:+ ":" +:+ id) +:+ w2) = Some id
  /\ jobid_of (w1 +:+ (name +:+ ":" +:+ id +:+ ":" +:+ more) +:+ w2) = Some id.
Proof.
  intros H1 H2 Hname Hid Hmore Hcn Hci. unfold jobid_of. split.
  - rewrite strip_no_space; [|done|by repeat apply no_space_app|done].
    change (":" +:+ id) with (String ":" id).
    by rewrite split_first, (split_no_sep _ id).
  - rewrite strip_no_space; [|done|by repeat apply no_space_app|done].
    change (":" +:+ id +:+ ":" +:+ more) with (String ":" (id +:+ String ":" more)).
    by rewrite !split_first.
Qed.

Lemma jobid_is_the_second_field_witness :
  jobid_of ("" +:+ ("local" +:+ ":" +:+ "4242") +:+ String "010" "") = Some "4242"
  /\ jobid_of ("" +:+ ("local" +:+ ":" +:+ "4242" +:+ ":" +:+ "x") +:+ String "010" "")
     = Some "4242".
Proof. by apply (jobid_is_the_second_field "" "local" "4242" "x" (String "010" "")). Defined.

End JobidTheorems.

Module FilterFacts.

Import Status StatusSpec StatusFacts ScanSpec ScanFacts.

Lemma out_bind_ret_l {B} (k : unit -> out B) : out_bind (out_ret tt) k = k tt.
Proof. unfold out_bind, out_ret. by destruct (k tt). Qed.

Lemma out_for_ext {A} (l : list A) (f g : A -> out unit) :
  (forall x, f x = g x) -> out_for l f = out_for l g.
Proof. intros Hfg. induction l as [|x l IH]; [done|]. simpl. by rewrite Hfg, IH. Qed.

Lemma out_for_kept {A} names (l : list (string * A)) (body : string * A -> out unit) :
  out_for l (fun x => if filtered_out names x.1 then out_ret tt else body x)
  = out_for (kept names l) body.
Proof.
  destruct names as [[|n ns]|]; unfold kept, filtered_out; try done.
  induction l as [|x l IH]; [done|]. rewrite filter_cons. simpl out_for.
  case_bool_decide; simpl negb; cbv iota.
  - rewrite decide_True by done. simpl. by rewrite IH.
  - rewrite decide_False by done. by rewrite out_bind_ret_l.
Qed.

Lemma out_for_map {A B} (f : A -> B) (l : list A) (body : B -> out unit) :
  out_for (map f l) body = out_for l (fun x => body (f x)).
Proof. induction l as [|x l IH]; [done|]. simpl. by rewrite IH. Qed.

Lemma scan_group_unfiltered o user group g :
  scan_group (unfiltered o) user group g = scan_group o user group g.
Proof. reflexivity. Qed.

Lemma scan_user_kept o user gs :
  scan_user o user gs = scan_user (unfiltered o) user (kept (filter_group o) gs).
Proof.
  unfold scan_user.
  rewrite (out_for_ext (kept (filter_group o) gs) _
             (fun x => scan_group o user x.1 x.2)) by (by intros [group g]).
  rewrite <- out_for_kept.
  apply out_for_ext. by intros [group g].
Qed.

End FilterFacts.

Module FilterTheorems.

Import Status StatusSpec StatusExamples StatusFacts ScanSpec ScanFacts FilterFacts.

(** X4.  The scan with a filter of users and a filter of groups is the
    scan without filters of the campaign that has the named users and
    the named groups only, in the order of the directories; a filter
    that is the empty list lets every name through, as no filter
    does. *)
Theorem filters_select_users_and_groups c o :
  print_campaign_status c o
  = print_campaign_status (kept_campaign o c) (unfiltered o).
Proof.
  unfold print_campaign_status, kept_campaign. rewrite out_for_map.
  rewrite (out_for_ext (kept (filter_user o) c) _
             (fun x => scan_user o x.1 x.2))
    by (intros [user gs]; symmetry; apply scan_user_kept).
  rewrite <- out_for_kept.
  apply out_for_ext. by intros [user gs].
Qed.

End FilterTheorems.

Module LinesFacts.

Import Status StatusSpec StatusFacts ScanSpec ScanFacts FilterFacts.

Lemma out_for_concat {A} (ls : list (list A)) (body : A -> out unit) :
  out_for (concat ls) body = out_for ls (fun l => out_for l body).
Proof.
  induction ls as [|l ls IH]; [done|]. simpl. by rewrite out_for_app, IH.
Qed.

Lemma print_campaign_status_flat c o :
  filter_user o = None -> filter_group o = None ->
  print_campaign_status c o
  = out_for (flat_groups c) (fun x => scan_group o x.1.1 x.1.2 x.2).
Proof.
  intros Hu Hg. unfold print_campaign_status, flat_groups.
  rewrite out_for_concat, out_for_map. apply out_for_ext. intros [user gs].
  rewrite Hu. simpl. unfold scan_user. rewrite out_for_map.
  apply out_for_ext. intros [group g]. by rewrite Hg.
Qed.

Lemma user_groups_flat c :
  user_groups c = map (fun x => x.1.1 +:+ "/" +:+ x.1.2) (flat_groups c).
Proof.
  unfold user_groups, flat_groups. induction c as [|[user gs] c IH]; [done|].
  simpl. rewrite map_app, <- IH. f_equal. by rewrite map_map.
Qed.

(** Without the listings, the scan of a group prints its line and
    returns, or prints nothing and raises. *)
Lemma scan_group_one_line o user group g :
  group_details o = false -> opt_return_codes o = false ->
  (exists rest, scan_group o user group g
                = ([(user +:+ "/" +:+ group) +:+ " : " +:+ rest], Ok tt))
  \/ (exists e, scan_group o user group g = ([], Raise e)).
Proof.
  intros Hd Hr.
  destruct (jobid_file g) as [text|] eqn:Hj.
  2:{ left. exists "NOT SUBMITTED". unfold scan_group. by rewrite Hj. }
  destruct (jobid_of text) as [jobid|] eqn:Hid.
  2:{ right. exists IndexError. unfold scan_group. rewrite Hj.
      unfold jobid_of in Hid. by rewrite Hid. }
  destruct (status_json g) as [[|d]|] eqn:Hs.
  - right. exists JSONDecodeError. by eapply scan_group_unparseable.
  - destruct (count_records counters_init (map snd d)) as [c|e] eqn:Hc.
    + destruct (scan_group_status o user group g text jobid d c Hj Hid Hs Hc)
        as (rest & Hscan & Hrest).
      rewrite (Hrest Hd Hr) in Hscan. rewrite Hscan. left.
      destruct (walltime_file g); cbv zeta; [destruct (_ <? _)|];
        eexists; reflexivity.
    + right. exists e. unfold scan_group. rewrite Hj.
      unfold jobid_of in Hid. rewrite Hid, Hs.
      pose proof (get_workflow_status_document d false 0 false None) as Hdoc.
      rewrite Hc in Hdoc. by rewrite Hdoc.
  - left. exists "NOT STARTED". unfold scan_group. rewrite Hj.
    unfold jobid_of in Hid. by rewrite Hid, Hs.
Qed.

Lemma out_for_one_line {A} (name : A -> string) (body : A -> out unit) l :
  (forall x, (exists rest, body x = ([name x +:+ " : " +:+ rest], Ok tt))
             \/ (exists e, body x = ([], Raise e))) ->
  forall out res, out_for l body = (out, res) ->
  (length out <= length l)%nat
  /\ (res = Ok tt -> length out = length l)
  /\ (forall e, res = Raise e -> (length out < length l)%nat)
  /\ forall i line, out !! i = Some line ->
       exists x rest, l !! i = Some x /\ line = name x +:+ " : " +:+ rest.
Proof.
  intros Hbody. induction l as [|x l IH]; intros out res Hout.
  - simpl in Hout. unfold out_ret in Hout. simplify_eq. split_and!; try done.
  - simpl in Hout. destruct (Hbody x) as [(rest & Hx)|(e & Hx)]; rewrite Hx in Hout.
    + simpl in Hout. destruct (out_for l body) as [out' res'] eqn:Hl.
      simplify_eq. destruct (IH _ _ eq_refl) as (Hle & Hok & Hraise & Hlines).
      split_and!; simpl.
      * lia.
      * intros Hres. by rewrite Hok.
      * intros e Hres. specialize (Hraise e Hres). lia.
      * intros [|i] line Hi; simpl in Hi; [|by apply Hlines].
        simplify_eq. by exists x, rest.
    + simpl in Hout. simplify_eq. split_and!; simpl; try done; try lia.
Qed.

(** The scan of a group with the listings is the scan without them,
    with lines added. *)
Lemma scan_group_quiet o user group g :
  exists rest,
    scan_group o user group g
    = ((scan_group (quiet o) user group g).1 ++ rest,
       (scan_group (quiet o) user group g).2).
Proof.
  destruct (jobid_file g) as [text|] eqn:Hj.
  2:{ exists []. unfold scan_group. by rewrite Hj. }
  destruct (jobid_of text) as [jobid|] eqn:Hid.
  2:{ exists []. unfold scan_group. rewrite Hj.
      unfold jobid_of in Hid. by rewrite Hid. }
  destruct (status_json g) as [[|d]|] eqn:Hs.
  - exists []. by rewrite !(scan_group_unparseable _ _ _ _ _ _ Hj Hid Hs).
  - destruct (count_records counters_init (map snd d)) as [c|e] eqn:Hc.
    + destruct (scan_group_status o user group g text jobid d c Hj Hid Hs Hc)
        as (rest & -> & _).
      destruct (scan_group_status (quiet o) user group g text jobid d c Hj Hid Hs Hc)
        as (rest' & -> & Hrest).
      rewrite (Hrest eq_refl eq_refl). by exists rest.
    + exists []. unfold scan_group. rewrite Hj.
      unfold jobid_of in Hid. rewrite Hid, Hs.
      pose proof (get_workflow_status_document d false 0 false None) as Hdoc.
      rewrite Hc in Hdoc. by rewrite Hdoc.
  - exists []. unfold scan_group. rewrite Hj.
    unfold jobid_of in Hid. by rewrite Hid, Hs.
Qed.

Lemma out_for_added {A} (body body' : A -> out unit) l :
  (forall x, (body x).2 = (body' x).2 /\ sublist (body' x).1 (body x).1) ->
  (out_for l body).2 = (out_for l body').2
  /\ sublist (out_for l body').1 (out_for l body).1.
Proof.
  intros Hbody. induction l as [|x l [IHr IHs]]; [done|]. simpl.
  destruct (Hbody x) as [Hr Hs].
  destruct (body x) as [o r], (body' x) as [o' r']. simpl in *. subst r.
  destruct r' as [[]|e]; simpl; [|done].
  destruct (out_for l body) as [o1 r1], (out_for l body') as [o2 r2].
  simpl in *. split; [done|]. by apply sublist_app.
Qed.

End LinesFacts.

Module LinesTheorems.

Import Status StatusSpec StatusExamples StatusFacts ScanSpec ScanFacts FilterFacts
       LinesFacts.

(** X5.  Without filters and without the listings, the scan prints one
    line for each group directory, in the order of the directories, and
    the line of a group begins with [user/group : ]; when the scan
    raises, the lines are those of the groups before the one that
    failed. *)
Theorem one_line_for_each_group c o out res :
  filter_user o = None -> filter_group o = None ->
  group_details o = false -> opt_return_codes o = false ->
  print_campaign_status c o = (out, res) ->
  (res = Ok tt -> length out = length (user_groups c))
  /\ (forall e, res = Raise e -> (length out < length (user_groups c))%nat)
  /\ forall i line, out !! i = Some line ->
       exists ug rest, user_groups c !! i = Some ug /\ line = ug +:+ " : " +:+ rest.
Proof.
  intros Hu Hg Hd Hr. rewrite print_campaign_status_flat by done. intros Hout.
  destruct (out_for_one_line (fun x => x.1.1 +:+ "/" +:+ x.1.2) _ (flat_groups c)
              (fun x => scan_group_one_line o x.1.1 x.1.2 x.2 Hd Hr) out res Hout)
    as (_ & Hok & Hraise & Hlines).
  rewrite user_groups_flat, length_map. split_and!; [done..|].
  intros i line Hi. destruct (Hlines i line Hi) as (x & rest & Hx & ->).
  exists (x.1.1 +:+ "/" +:+ x.1.2), rest. by rewrite list_lookup_fmap, Hx.
Qed.

Lemma one_line_for_each_group_witness :
  (Ok tt = Ok tt ->
   length ["alice/group-0 : DONE, 1 / 3 failed"; "alice/group-1 : NOT SUBMITTED"]
   = length (user_groups [("alice", [("group-0", group_done); ("group-1", group_new)])]))
  /\ (forall e, @Ok unit tt = Raise e ->
        (length ["alice/group-0 : DONE, 1 / 3 failed"; "alice/group-1 : NOT SUBMITTED"]
         < length (user_groups
                     [("alice", [("group-0", group_done); ("group-1", group_new)])]))%nat)
  /\ forall i line,
       ["alice/group-0 : DONE, 1 / 3 failed"; "alice/group-1 : NOT SUBMITTED"] !! i
       = Some line ->
       exists ug rest,
         user_groups [("alice", [("group-0", group_done); ("group-1", group_new)])] !! i
         = Some ug
         /\ line = ug +:+ " : " +:+ rest.
Proof.
  by apply (one_line_for_each_group
              [("alice", [("group-0", group_done); ("group-1", group_new)])]
              default_options).
Defined.

(** X6.  The listings of a group ([group_details], [return_codes]) add
    lines to the report and change nothing else: the scan with them
    returns or raises as the scan without them does, and its lines
    contain the lines of the scan without them, in order. *)
Theorem listings_only_add_lines c o :
  (print_campaign_status c o).2 = (print_campaign_status c (quiet o)).2
  /\ sublist (print_campaign_status c (quiet o)).1 (print_campaign_status c o).1.
Proof.
  unfold print_campaign_status. apply out_for_added. intros [user gs].
  change (filter_user (quiet o)) with (filter_user o).
  destruct (filtered_out (filter_user o) user); [done|].
  unfold scan_user. apply out_for_added. intros [group g].
  change (filter_group (quiet o)) with (filter_group o).
  destruct (filtered_out _ group); [done|].
  destruct (scan_group_quiet o user group g) as (rest & ->). simpl.
  split; [done|]. by apply sublist_inserts_r.
Qed.

End LinesTheorems.

Module SortFacts.

Import Status StatusSpec StatusFacts ScanSpec ScanFacts.

Lemma ascii_compare_trans_le a b c :
  Ascii.compare a b <> Gt -> Ascii.compare b c <> Gt -> Ascii.compare a c <> Gt.
Proof.
  unfold Ascii.compare. rewrite !N.compare_le_iff. lia.
Qed.

Lemma ascii_compare_eq a b : Ascii.compare a b = Eq -> a = b.
Proof.
  unfold Ascii.compare. intros Hab%N.compare_eq.
  by rewrite <- (ascii_N_embedding a), <- (ascii_N_embedding b), Hab.
Qed.

Lemma string_compare_trans_le s1 : forall s2 s3,
  String.compare s1 s2 <> Gt -> String.compare s2 s3 <> Gt ->
  String.compare s1 s3 <> Gt.
Proof.
  induction s1 as [|a s1 IH]; intros [|b s2] [|c s3]; simpl; try done.
  destruct (Ascii.compare a b) eqn:Hab; [|clear IH|done];
    destruct (Ascii.compare b c) eqn:Hbc; try done.
  - apply ascii_compare_eq in Hab as ->. rewrite Hbc. apply IH.
  - apply ascii_compare_eq in Hab as ->. by rewrite Hbc.
  - apply ascii_compare_eq in Hbc as <-. by rewrite Hab.
  - intros _ _. assert (Ascii.compare a c = Lt) as ->; [|done].
    unfold Ascii.compare in *. rewrite N.compare_lt_iff in *. lia.
Qed.

Lemma string_leb_spec s1 s2 : String.leb s1 s2 = true <-> String.compare s1 s2 <> Gt.
Proof. unfold String.leb. by destruct (String.compare s1 s2). Qed.

#[local] Instance string_leb_trans : Transitive (fun s1 s2 => String.leb s1 s2 = true).
Proof.
  intros s1 s2 s3. rewrite !string_leb_spec. apply string_compare_trans_le.
Qed.

#[local] Instance string_leb_antisymm :
  AntiSymm eq (fun s1 s2 => String.leb s1 s2 = true).
Proof. intros s1 s2. apply String.leb_antisym. Qed.

Section Sorted.

Context {A : Type} (leb : A -> A -> bool).
Context (leb_total : forall x y, leb x y = true \/ leb y x = true).

Let R := fun x y => leb x y = true.

Lemma insert_sorted_perm x l : PyStr.insert_sorted leb x l ≡ₚ x :: l.
Proof.
  induction l as [|y l IH]; [done|]. simpl. destruct (leb x y); [done|].
  rewrite IH. apply Permutation_swap.
Qed.

Lemma sorted_perm l : PyStr.sorted leb l ≡ₚ l.
Proof.
  unfold PyStr.sorted. induction l as [|x l IH]; [done|]. simpl.
  by rewrite insert_sorted_perm, IH.
Qed.

Lemma insert_sorted_Sorted x l : Sorted R l -> Sorted R (PyStr.insert_sorted leb x l).
Proof.
  induction 1 as [|y l Hl IH Hy]; simpl; [by repeat constructor|].
  destruct (leb x y) eqn:Hxy.
  - constructor; [by constructor|]. by constructor.
  - constructor; [done|].
    assert (Hyx : R y x) by (by destruct (leb_total x y) as [Hc|Hc]; [congruence|]).
    destruct Hy as [|z l' Hz]; simpl; [by constructor|].
    destruct (leb x z); by constructor.
Qed.

Lemma sorted_Sorted l : Sorted R (PyStr.sorted leb l).
Proof.
  unfold PyStr.sorted. induction l as [|x l IH]; simpl; [constructor|].
  by apply insert_sorted_Sorted.
Qed.

End Sorted.

(** [sorted(d.keys())] is the same list whatever the order in which the
    keys are met. *)
Lemma sorted_strings_perm l1 l2 :
  l1 ≡ₚ l2 -> PyStr.sorted String.leb l1 = PyStr.sorted String.leb l2.
Proof.
  intros Hperm.
  apply (Sorted_unique (fun s1 s2 => String.leb s1 s2 = true)).
  - apply sorted_Sorted, String.leb_total.
  - apply sorted_Sorted, String.leb_total.
  - by rewrite !sorted_perm.
Qed.

Lemma sorted_keys_state_counts c l :
  counted counters_init c l ->
  sorted_keys (state_counts c) = ["done"; "killed"; "not_started"; "running"].
Proof.
  intros Hc. unfold sorted_keys.
  rewrite (sorted_strings_perm _ known_states); [done|].
  apply NoDup_Permutation.
  - apply NoDup_fst_map_to_list.
  - by apply (bool_decide_unpack _).
  - intros s. rewrite list_elem_of_fmap. split.
    + intros ([s' n] & -> & Hs%elem_of_map_to_list). simpl.
      rewrite (counted_init_state c l s' Hc) in Hs.
      unfold known_state in Hs. by case_bool_decide.
    + intros Hs. exists (s, count (has_state s) l). split; [done|].
      apply elem_of_map_to_list. rewrite (counted_init_state c l s Hc).
      unfold known_state. by rewrite bool_decide_eq_true_2.
Qed.

End SortFacts.

Module DetailsTheorems.

Import Status StatusSpec StatusExamples StatusFacts ScanSpec ScanFacts SortFacts.

(** X7.  The listing of the counts ([print_counts]) begins with the
    number of runs and the lines of the four states in the order done,
    killed, not_started, running, each with the number of runs in that
    state, whatever the states of the document. *)
Theorem counts_listing_begins_with_states d ind prc fr o x :
  get_workflow_status (Some (Document d)) true ind prc fr = (o, Ok x) ->
  let prefix := PyStr.repeat " " ind in
  let n s := count (has_state s) (map snd d) in
  take 5 o
  = [ (prefix +:+ "== total runs:") +:+ " " +:+ pretty (Z.of_nat (length d));
      state_line prefix "done" (n "done");
      state_line prefix "killed" (n "killed");
      state_line prefix "not_started" (n "not_started");
      state_line prefix "running" (n "running") ].
Proof.
  intros Hget prefix n. destruct x as [[[sd sc] rc] rcc].
  destruct (get_workflow_status_ok _ _ _ _ _ _ _ _ _ _ Hget)
    as (c & Hc & Hcounted & _).
  assert (Ho : o = (get_workflow_status (Some (Document d)) true ind prc fr).1)
    by (by rewrite Hget).
  rewrite Ho. unfold get_workflow_status. rewrite Hc. unfold out_when at 1.
  rewrite out_bind_fst. unfold print_counts_block.
  rewrite out_bind_fst. rewrite (sorted_keys_state_counts c _ Hcounted).
  simpl print. cbn [fst snd]. rewrite out_bind_fst.
  pose proof (known_state_counted c _ Hcounted) as Hstate.
  cbn [out_for out_bind print app fst snd PyStr.print_args PyStr.join].
  rewrite !Hstate. reflexivity.
Qed.

Lemma counts_listing_begins_with_states_witness :
  exists o x,
    get_workflow_status (Some (Document doc_running)) true 2 false None = (o, Ok x)
    /\ take 5 o
       = [ (PyStr.repeat " " 2 +:+ "== total runs:") +:+ " "
             +:+ pretty (Z.of_nat (length doc_running));
           state_line (PyStr.repeat " " 2) "done"
             (count (has_state "done") (map snd doc_running));
           state_line (PyStr.repeat " " 2) "killed"
             (count (has_state "killed") (map snd doc_running));
           state_line (PyStr.repeat " " 2) "not_started"
             (count (has_state "not_started") (map snd doc_running));
           state_line (PyStr.repeat " " 2) "running"
             (count (has_state "running") (map snd doc_running)) ].
Proof.
  destruct (get_workflow_status_returns doc_running true 2%nat false None eq_refl)
    as (o & c & Hget).
  exists o, (doc_running, state_counts c, reason_counts c, rc_counts c).
  split; [exact Hget|].
  exact (counts_listing_begins_with_states _ _ _ _ _ _ Hget).
Defined.

End DetailsTheorems.

(** * Properties of the replay of the executor log *)

Module LogFacts.

Import StatusLog ScanSpec LogSpec StatusFacts.

Lemma str_take_app dt s : str_take (String.length dt) (dt +:+ s) = dt.
Proof. induction dt as [|c dt IH]; simpl; [by destruct s|by rewrite IH]. Qed.

Lemma str_drop_app dt s : str_drop (String.length dt) (dt +:+ s) = s.
Proof. induction dt as [|c dt IH]; simpl; [done|by rewrite IH]. Qed.

Lemma str_drop_short n s : (String.length s <= n)%nat -> str_drop n s = "".
Proof.
  revert s. induction n as [|n IH]; intros [|c s]; simpl; try done; try lia.
  intros Hs. apply IH. lia.
Qed.

Lemma split1_first sep a b :
  count_char sep a = 0%nat -> split1 sep (a +:+ String sep b) = [a; b].
Proof.
  induction a as [|c a IH]; simpl.
  - by rewrite Ascii.eqb_refl.
  - destruct (Ascii.eqb c sep); [done|]. intros Ha. by rewrite IH.
Qed.

Lemma split1_no_sep sep s : count_char sep s = 0%nat -> split1 sep s = [s].
Proof.
  induction s as [|c s IH]; [done|]. simpl.
  destruct (Ascii.eqb c sep); [done|]. intros Hs. by rewrite IH.
Qed.

Lemma parse_raises line e : _parse_fobrun_log_line line = Raise e -> e = ValueError.
Proof.
  unfold _parse_fobrun_log_line, _numeric_log_level.
  repeat case_match; congruence.
Qed.

Lemma print_log_line_cases n fr line :
  print_log_line n fr line
  = if well_formed (PyStr.strip line) then
      (if selected n fr (PyStr.strip line) then [shown (PyStr.strip line)] else [],
       Ok tt)
    else ([], Raise ValueError).
Proof.
  unfold print_log_line, well_formed, selected, level_of.
  destruct (_parse_fobrun_log_line (PyStr.strip line)) as [[[dt lv] msg]|e] eqn:Hp.
  - simpl. destruct (lv <? n); [done|]. simpl. by destruct (no_run_in _ _).
  - simpl. by rewrite (parse_raises _ _ Hp).
Qed.

Lemma replay_lines n fr lines :
  out_for lines (print_log_line n fr)
  = (map shown (filter (fun l => selected n fr l = true)
                  (well_formed_prefix (map PyStr.strip lines))),
     if forallb well_formed (map PyStr.strip lines) then Ok tt else Raise ValueError).
Proof.
  induction lines as [|l lines IH]; [done|]. simpl.
  rewrite print_log_line_cases, IH.
  destruct (well_formed (PyStr.strip l)); [|done]. simpl.
  destruct (selected n fr (PyStr.strip l)) eqn:Hsel.
  - by rewrite filter_cons_True.
  - rewrite filter_cons_False; [done|]. by rewrite Hsel.
Qed.

End LogFacts.

Module LogTheorems.

Import StatusLog ScanSpec LogSpec StatusFacts LogFacts.

(** X8.  A log line that is a time stamp of 24 characters, the name of
    a level of [logging] in any case, a colon and a message is taken
    apart into these three, with the number of the level; the message
    keeps the colons it has. *)
Theorem log_line_is_taken_apart dt level n message :
  String.length dt = 24%nat -> count_char ":" level = 0%nat ->
  logging_level (upper level) = Some n ->
  _parse_fobrun_log_line (dt +:+ level +:+ ":" +:+ message) = Ok (dt, n, message).
Proof.
  intros Hdt Hlevel Hn. unfold _parse_fobrun_log_line.
  rewrite <- Hdt, str_take_app, str_drop_app.
  change (":" +:+ message) with (String ":" message).
  rewrite split1_first by done. unfold _numeric_log_level. by rewrite Hn.
Qed.

Lemma log_line_is_taken_apart_witness :
  _parse_fobrun_log_line
    ("2018-03-01 10:15:00,123 " +:+ "info" +:+ ":" +:+ "run-1: started")
  = Ok ("2018-03-01 10:15:00,123 ", 20, "run-1: started").
Proof. by apply log_line_is_taken_apart. Defined.

(** X9.  A line is refused with [ValueError], and with nothing else:
    every line of at most 24 characters is, an empty one among them,
    and every line without a colon after its 24th character. *)
Theorem malformed_log_line_raises_ValueError line :
  (forall e, _parse_fobrun_log_line line = Raise e -> e = ValueError)
  /\ ((String.length line <= 24)%nat ->
      _parse_fobrun_log_line line = Raise ValueError)
  /\ (count_char ":" (str_drop 24 line) = 0%nat ->
      _parse_fobrun_log_line line = Raise ValueError).
Proof.
  split_and!.
  - apply parse_raises.
  - intros Hlen. unfold _parse_fobrun_log_line. by rewrite str_drop_short.
  - intros Hc. unfold _parse_fobrun_log_line. by rewrite split1_no_sep.
Qed.

Lemma malformed_log_line_raises_ValueError_witness :
  _parse_fobrun_log_line "" = Raise ValueError
  /\ _parse_fobrun_log_line "Traceback (most recent call last)" = Raise ValueError.
Proof.
  split.
  - apply (proj1 (proj2 (malformed_log_line_raises_ValueError ""))). simpl. lia.
  - by apply (proj2 (proj2 (malformed_log_line_raises_ValueError _))).
Defined.

(** X10.  With a level that [logging] knows, the replay of a log
    prints, in the order of the log and behind two spaces, the lines
    whose level is not below the one asked for and in which a name of
    the filter occurs, when a filter is given; it stops with
    [ValueError] at the first line that is not well formed, the lines
    selected before it being printed. *)
Theorem replay_prints_selected_lines text log_level n filter_run :
  logging_level (upper log_level) = Some n ->
  _print_fobrun_log (Some text) log_level filter_run
  = (map shown (filter (fun l => selected n filter_run l = true)
                  (well_formed_prefix (log_lines text))),
     if forallb well_formed (log_lines text) then Ok tt else Raise ValueError).
Proof.
  intros Hn. unfold _print_fobrun_log. rewrite Hn. apply replay_lines.
Qed.

Lemma replay_prints_selected_lines_witness :
  _print_fobrun_log (Some example_log) "info" (Some ["run-1"])
  = ([ "  2018-03-01 10:15:00,123 INFO:run-1: started";
       "  2018-03-01 10:15:02,789 ERROR:run-10: failed" ], Ok tt).
Proof.
  rewrite (replay_prints_selected_lines example_log "info" 20 (Some ["run-1"]) eq_refl).
  vm_compute. reflexivity.
Defined.

End LogTheorems.

(** * Further properties of group materialization *)

Module MaterializeFacts.

Import Json FS FSSpec FSFacts JsonFacts Launchers LaunchersSpec LaunchersFacts
       MaterializeSpec.

Section WithExternals.

Context `{Externals}.

Lemma group_scripts_inv self a fs fs' :
  group_scripts self a fs = (fs', Ok tt) ->
  exists fs1 secs,
    fs !! script_dir self = Some Dir
    /\ copytree (script_dir self) (output_directory self) fs = (fs1, Ok tt)
    /\ parse_timedelta_seconds (walltime a) = Ok secs
    /\ fs' = <[env_path self := File (GROUP_ENV_TEMPLATE_format (group_env_of a secs))]> fs1.
Proof.
  unfold group_scripts, isdir.
  destruct (fs !! script_dir self) as [[|c]|] eqn:Hs; [|done..]. simpl.
  intros (fs1 & [] & Hcopy & Hrest)%bind_inv_ok.
  destruct (parse_timedelta_seconds (walltime a)) as [secs|e] eqn:Hp; [|done].
  apply write_file_ok in Hrest. by exists fs1, secs.
Qed.

Lemma create_run_directory_inv self a r fs fs' fob_s :
  create_run_directory self a r fs = (fs', Ok fob_s) ->
  exists fs1 fs2 fob_runs idx,
    run_files self a r fs = (fs1, Ok tt)
    /\ fob_codes self a r ([], 0) (get_codes_argv_with_exe_and_nprocs r) fs1
       = (fs2, Ok (fob_runs, idx))
    /\ fob_s = dumps (Obj (fob_dict a r fob_runs))
    /\ write_file (run_fob_path r) (fob_s +:+ nl) fs2 = (fs', Ok tt).
Proof.
  unfold create_run_directory.
  intros (fs1 & [] & Hfiles & Hrest)%bind_inv_ok.
  apply bind_inv_ok in Hrest as (fs2 & [fob_runs idx] & Hcodes & Hrest).
  apply bind_inv_ok in Hrest as (fs3 & [] & Hw & Hret).
  unfold ret in Hret. injection Hret as <- <-.
  by exists fs1, fs2, fob_runs, idx.
Qed.

Lemma create_run_directory_dir self a r fs fs' fob_s :
  create_run_directory self a r fs = (fs', Ok fob_s) -> fs' !! run_path r = Some Dir.
Proof.
  intros (fs1 & fs2 & fob_runs & idx & Hfiles & Hcodes & _ & Hw)%create_run_directory_inv.
  pose proof (run_files_ok _ _ _ _ _ Hfiles) as Hdir.
  pose proof (fob_codes_extends [] nowhere self a r
                (get_codes_argv_with_exe_and_nprocs r) ([], 0) fs1 (Forall_nil_2 _))
    as (Hd1 & _).
  rewrite Hcodes in Hd1.
  pose proof (write_file_extends (fun _ => True) (run_fob_path r)
                (fob_s +:+ nl) fs2 I) as (Hd2 & _).
  rewrite Hw in Hd2. auto.
Qed.

Lemma create_run_directories_dirs self a runs : forall f fs fs' f',
  create_run_directories self a runs f fs = (fs', (f', Ok tt)) ->
  forall r, r ∈ runs -> fs' !! run_path r = Some Dir.
Proof.
  induction runs as [|r runs IH]; intros f fs fs' f' Hloop r' Hr'.
  - by apply elem_of_nil in Hr'.
  - simpl in Hloop.
    destruct (create_run_directory self a r fs) as [fs1 [fob_s|e]] eqn:Hrun; [|done].
    apply elem_of_cons in Hr' as [->|Hr']; [|by eapply IH].
    apply create_run_directories_spec in Hloop as ((Hdirs & _) & _).
    apply Hdirs. by eapply create_run_directory_dir.
Qed.

Lemma env_path_not_in_runs self runs :
  Forall (fun r => run_path r <> output_directory self) runs ->
  ~ inside_runs runs (env_path self).
Proof.
  intros Hruns (r & Hr & x & Hx). unfold env_path in Hx.
  apply join_inj in Hx as [Hout _]. rewrite Forall_forall in Hruns.
  by apply (Hruns r Hr).
Qed.

End WithExternals.

End MaterializeFacts.

Module MaterializeTheorems.

Import Json FS FSSpec FSFacts JsonFacts Launchers LaunchersSpec LaunchersExamples
       LaunchersFacts MaterializeSpec MaterializeFacts MaterializeExamples.

Section WithExternals.

Context `{Externals}.

(** X11.  Whether it returns or raises, the materialization of a group
    removes no entry of the file system, leaves every directory a
    directory and every file a file, and changes the text of no file
    but those that lie directly in the output directory or directly in
    the directory of one of the runs. *)
Theorem materialization_only_adds self a runs fs :
  extends (group_written self runs) fs (create_group_directory self a runs fs).1.
Proof.
  unfold create_group_directory, create_group_directory_fobs.
  pose proof (group_scripts_extends self a fs) as Hg.
  apply (extends_weaken _ (group_written self runs)) in Hg; [|by left].
  destruct (group_scripts self a fs) as [fs1 [[]|e]]; [|done]. simpl in Hg.
  pose proof (write_file_extends (group_written self runs) (fobs_path self) "" fs1)
    as Hw.
  specialize (Hw ltac:(left; apply inside_join)).
  destruct (write_file (fobs_path self) "" fs1) as [fs2 [[]|e]] eqn:Hwrite;
    simpl in Hw; [|by eapply extends_trans].
  destruct (create_run_directories self a runs [] fs2) as [fs3 [f res]] eqn:Hloop.
  apply create_run_directories_spec in Hloop as [Hruns _].
  apply (extends_weaken _ (group_written self runs)) in Hruns; [|by right].
  simpl. eapply extends_trans; [done|]. eapply extends_trans; [done|].
  eapply extends_trans; [done|]. apply extends_insert_file; [left; apply inside_join|].
  apply write_file_ok in Hwrite as ->.
  destruct Hruns as (_ & Hfile & _).
  destruct (Hfile (fobs_path self) "") as [c Hc]; [by rewrite lookup_insert_eq|].
  by rewrite Hc.
Qed.

(** X12.  A walltime that [parse_timedelta_seconds] refuses is found
    after the scripts of the scheduler were copied: the call raises
    with the output directory made, and a second call, with any
    arguments, raises [FileExistsError] and changes nothing. *)
Theorem refused_walltime_leaves_the_scripts self a runs fs fs1 e :
  isdir fs (script_dir self) = true ->
  copytree (script_dir self) (output_directory self) fs = (fs1, Ok tt) ->
  parse_timedelta_seconds (walltime a) = Raise e ->
  create_group_directory self a runs fs = (fs1, Raise e)
  /\ fs1 !! output_directory self = Some Dir
  /\ forall a' runs',
       create_group_directory self a' runs' fs1 = (fs1, Raise FileExistsError).
Proof.
  intros Hs Hcopy Hp.
  assert (Hg : group_scripts self a fs = (fs1, Raise e)).
  { unfold group_scripts. rewrite Hs. simpl. rewrite (bind_ok _ _ _ _ _ Hcopy).
    by rewrite Hp. }
  pose proof (copytree_extends [] nowhere (script_dir self) (output_directory self) fs
                (Forall_nil_2 _)) as (Hdirs & _).
  rewrite Hcopy in Hdirs. simpl in Hdirs.
  apply copytree_ok in Hcopy as [Hout Hparent].
  split_and!; [|done|].
  - unfold create_group_directory, create_group_directory_fobs. by rewrite Hg.
  - intros a' runs'. unfold create_group_directory, create_group_directory_fobs.
    rewrite (group_scripts_exists self a' fs1 Dir); [done|..|done|done].
    apply Hdirs. unfold isdir in Hs. by destruct (fs !! script_dir self) as [[]|].
Qed.

(** X13.  After a materialization that returned, the output directory
    and the directory of every run are directories, and
    [group-env.sh] holds the template filled with the arguments of the
    group and the walltime in seconds, when no run has the output
    directory as its own; for an empty list of runs [fobs.json] is
    there and is empty. *)
Theorem materialized_group_has_its_environment self a runs fs fs' :
  create_group_directory self a runs fs = (fs', Ok tt) ->
  fs' !! output_directory self = Some Dir
  /\ (forall r, r ∈ runs -> fs' !! run_path r = Some Dir)
  /\ (Forall (fun r => run_path r <> output_directory self) runs ->
      exists secs,
        parse_timedelta_seconds (walltime a) = Ok secs
        /\ fs' !! env_path self
           = Some (File (GROUP_ENV_TEMPLATE_format (group_env_of a secs))))
  /\ (runs = [] -> fs' !! fobs_path self = Some (File "")).
Proof.
  unfold create_group_directory, create_group_directory_fobs.
  destruct (group_scripts self a fs) as [fs1 [[]|e]] eqn:Hg; [|by intros [=]].
  destruct (write_file (fobs_path self) "" fs1) as [fs2 [[]|e]] eqn:Hw;
    [|by intros [=]].
  destruct (create_run_directories self a runs [] fs2) as [fs3 [f res]] eqn:Hloop.
  intros [= <- ->].
  pose proof (group_scripts_ok _ _ _ _ Hg) as (Hout & _ & _).
  pose proof (write_file_extends nowhere (fobs_path self) "" fs1) as Hextw.
  pose proof (create_run_directories_dirs _ _ _ _ _ _ _ Hloop) as Hrundirs.
  pose proof (create_run_directories_spec _ _ _ _ _ _ _ _ Hloop)
    as ((Hdirs & Hfiles & Hkeep) & _).
  apply write_file_ok in Hw as ->.
  assert (Hfobs : exists c, fs3 !! fobs_path self = Some (File c)).
  { apply (Hfiles _ ""). by rewrite lookup_insert_eq. }
  assert (Hins : forall p, fs3 !! p = Some Dir ->
            <[fobs_path self := File (lines_text f)]> fs3 !! p = Some Dir).
  { intros p Hp. rewrite lookup_insert_ne; [done|]. intros <-.
    destruct Hfobs as [c Hc]. congruence. }
  split_and!.
  - apply Hins, Hdirs. rewrite lookup_insert_ne; [done|].
    intros Heq. apply (join_ne_self (output_directory self) fobs_name). done.
  - intros r Hr. by apply Hins, Hrundirs.
  - intros Hruns. apply group_scripts_inv in Hg as (fs0 & secs & _ & _ & Hp & ->).
    exists secs. split; [done|].
    rewrite lookup_insert_ne by (by intros [_ [=]]%join_inj).
    apply Hkeep; [by apply env_path_not_in_runs|].
    rewrite lookup_insert_ne by (by intros [_ [=]]%join_inj).
    by rewrite lookup_insert_eq.
  - intros ->. simpl in Hloop. simplify_eq. by rewrite lookup_insert_eq.
Qed.

End WithExternals.

#[local] Existing Instance example_externals.

Lemma refused_walltime_leaves_the_scripts_witness :
  create_group_directory example_launcher example_args_refused example_runs example_fs
  = (example_copied.1, Raise ValueError)
  /\ example_copied.1 !! output_directory example_launcher = Some Dir
  /\ forall a' runs',
       create_group_directory example_launcher a' runs' example_copied.1
       = (example_copied.1, Raise FileExistsError).
Proof.
  apply (refused_walltime_leaves_the_scripts example_launcher example_args_refused
           example_runs example_fs example_copied.1 ValueError).
  - vm_compute. reflexivity.
  - apply (ok_outcome_unit example_copied). vm_compute. reflexivity.
  - reflexivity.
Defined.

Lemma materialized_group_has_its_environment_witness :
  example_group.1 !! output_directory example_launcher = Some Dir
  /\ (forall r, r ∈ example_group_runs -> example_group.1 !! run_path r = Some Dir)
  /\ (Forall (fun r => run_path r <> output_directory example_launcher)
        example_group_runs ->
      exists secs,
        parse_timedelta_seconds (walltime example_args) = Ok secs
        /\ example_group.1 !! env_path example_launcher
           = Some (File (GROUP_ENV_TEMPLATE_format (group_env_of example_args secs))))
  /\ (example_group_runs = [] ->
      example_group.1 !! fobs_path example_launcher = Some (File "")).
Proof.
  apply (materialized_group_has_its_environment example_launcher example_args
           example_group_runs example_fs).
  apply (ok_outcome_unit example_group). vm_compute. reflexivity.
Defined.

End MaterializeTheorems.

Module RunFacts.

Import Json FS FSSpec FSFacts JsonFacts Launchers LaunchersSpec LaunchersFacts
       MaterializeSpec MaterializeFacts.

Section WithExternals.

Context `{Externals}.

Lemma makedirs_false_ok_fresh p fs fs' :
  makedirs false p fs = (fs', Ok tt) -> fs !! p = None.
Proof.
  intros Hmk. destruct (fs !! p) as [n|] eqn:Hp; [|done].
  destruct (makedirs_false_exists_raise p fs) as (fs2 & e & Hraise); [|congruence].
  unfold exists_. by rewrite Hp.
Qed.

Lemma fob_code_inv self a r fob_runs idx c fs fs' fob_runs' idx' :
  fob_code self a r (fob_runs, idx) c fs = (fs', Ok (fob_runs', idx')) ->
  exists exe args,
    argv c = exe :: args
    /\ makedirs false (tau_profile_dir r c) fs = (fs', Ok tt)
    /\ (sos a = true ->
        is_ok (math_ceil_truediv (nprocs c) (processes_per_node (machine a))) = true)
    /\ (forall t, timeout a = Some t -> is_ok (parse_timedelta_seconds t) = true)
    /\ fob_runs' = fob_runs ++ [descriptor_record self a r c idx exe args]
    /\ idx' = if sos a
              then idx + computed_nodes_of (processes_per_node (machine a)) c
              else idx.
Proof.
  unfold fob_code. fold (tau_profile_dir r c).
  intros (fs1 & [] & Hmk & Hrest)%bind_inv_ok.
  apply bind_inv_ok in Hrest as (fs2 & [env idx2] & Henv & Hrest).
  destruct (argv c) as [|exe args]; [done|].
  apply bind_inv_ok in Hrest as (fs3 & data & Hdata & Hret).
  unfold ret in Hret. injection Hret as Hfs3 Hruns Hidx. subst fs3 fob_runs' idx2.
  exists exe, args. split; [done|].
  assert (He : fs1 = fs2
               /\ (sos a = true ->
                   is_ok (math_ceil_truediv (nprocs c) (processes_per_node (machine a)))
                   = true)
               /\ env = record_env self a r c idx
               /\ idx' = if sos a
                         then idx + computed_nodes_of (processes_per_node (machine a)) c
                         else idx).
  { unfold record_env, computed_nodes_of. destruct (sos a).
    - destruct (math_ceil_truediv _ _) as [n|e]; [|done].
      unfold ret in Henv. by injection Henv as <- <- <-.
    - unfold ret in Henv. by injection Henv as <- <- <-. }
  destruct He as (-> & Hppn & -> & ->).
  assert (Hd : fs2 = fs'
               /\ (forall t, timeout a = Some t ->
                     is_ok (parse_timedelta_seconds t) = true)
               /\ data = descriptor_record self a r c idx exe args).
  { unfold descriptor_record, timeout_entry. destruct (timeout a) as [t|].
    - destruct (parse_timedelta_seconds t) as [s|] eqn:Hp; [|done].
      unfold ret in Hdata. injection Hdata as <- <-.
      split; [done|]. split; [|done]. intros t' [= <-]. by rewrite Hp.
    - unfold ret in Hdata. by injection Hdata as <- <-. }
  destruct Hd as (-> & Ht & ->). done.
Qed.

Lemma fob_codes_inv self a r l : forall fob_runs idx fs fs' fob_runs' idx',
  fob_codes self a r (fob_runs, idx) l fs = (fs', Ok (fob_runs', idx')) ->
  (l <> [] -> (sos a = true -> processes_per_node (machine a) <> 0)
              /\ forall t, timeout a = Some t ->
                   is_ok (parse_timedelta_seconds t) = true)
  /\ (forall c, c ∈ l -> fs !! tau_profile_dir r c = None
                         /\ fs' !! tau_profile_dir r c = Some Dir)
  /\ NoDup (map cname l)
  /\ exists new,
      fob_runs' = fob_runs ++ new /\ length new = length l
      /\ forall j c, l !! j = Some c ->
           exists exe args,
             argv c = exe :: args
             /\ (sos a = true ->
                 is_ok (math_ceil_truediv (nprocs c) (processes_per_node (machine a)))
                 = true)
             /\ new !! j
                = Some (descriptor_record self a r c
                          (if sos a then
                             idx + computed_prior_nodes (processes_per_node (machine a))
                                     (take j l)
                           else idx) exe args).
Proof.
  induction l as [|c l IH]; intros fob_runs idx fs fs' fob_runs' idx'; simpl.
  - unfold ret. intros [= <- <- <-]. split; [done|]. split; [by intros c ?%elem_of_nil|].
    split; [constructor|]. exists []. by rewrite app_nil_r.
  - intros (fs1 & [runs1 idx1] & Hc & Hl)%bind_inv_ok.
    pose proof (fob_codes_extends [] nowhere self a r l (runs1, idx1) fs1
                  (Forall_nil_2 _)) as (Hdirs & _).
    rewrite Hl in Hdirs. simpl in Hdirs.
    apply fob_code_inv in Hc as (exe & args & Hargv & Hmk & Hdiv & Ht & -> & ->).
    apply IH in Hl as (_ & Htau & Hnd & new & -> & Hlen & Hnew).
    pose proof (makedirs_false_ok_fresh _ _ _ Hmk) as Hfresh.
    pose proof (makedirs_extends [] nowhere false (tau_profile_dir r c) fs
                  (Forall_nil_2 _)) as Hext.
    rewrite Hmk in Hext. simpl in Hext.
    apply makedirs_ok in Hmk.
    split.
    { intros _. split; [|done]. intros Hsos.
      by apply (math_ceil_truediv_ok_divisor (nprocs c)), Hdiv. }
    split_and!.
    + intros c' [->|Hc']%elem_of_cons; [by auto|].
      destruct (Htau c' Hc') as [Hnone Hdir]. split; [|done].
      destruct (fs !! tau_profile_dir r c') as [n|] eqn:Hfs; [|done].
      assert (exists_ fs1 (tau_profile_dir r c') = true) as Hex.
      { eapply extends_exists; [done|]. unfold exists_. by rewrite Hfs. }
      unfold exists_ in Hex. by rewrite Hnone in Hex.
    + constructor; [|done]. intros (c' & Hname & Hc')%list_elem_of_fmap.
      destruct (Htau c' Hc') as [Hnone _].
      unfold tau_profile_dir in *. rewrite <- Hname in Hnone. congruence.
    + exists (descriptor_record self a r c idx exe args :: new).
      rewrite <- app_assoc. split; [done|]. split; [simpl; lia|].
      intros [|j] c'; simpl.
      * intros [= <-]. exists exe, args. split; [done|]. split; [done|].
        do 2 f_equal. destruct (sos a); [|done]. unfold computed_prior_nodes. simpl. lia.
      * intros Hj. destruct (Hnew j c' Hj) as (exe' & args' & Hargv' & Hdiv' & ->).
        exists exe', args'. split; [done|]. split; [done|]. do 2 f_equal.
        destruct (sos a); [|done]. unfold computed_prior_nodes. simpl. lia.
Qed.

End WithExternals.

End RunFacts.

Module RunTheorems.

Import Json FS FSSpec FSFacts JsonFacts Launchers LaunchersSpec LaunchersExamples
       LaunchersFacts MaterializeSpec MaterializeFacts RunFacts MaterializeExamples.

Section WithExternals.

Context `{Externals}.

(** X14.  The descriptor of a run that was materialized has one record
    for each invocation, in order: its name, the first word of its
    command line as [exe], the other words as [args], its process
    count, its [sleep_after], its environment ([PROFILEDIR] alone, or
    with the variables of SOS when [sos] is set) and, when a timeout is
    given, the timeout in seconds as the last entry.  With [sos] set,
    [math.ceil(nprocs / machine.processes_per_node)] has returned for
    each invocation, and the [SOS_LISTENER_RANK_OFFSET] of a record is
    the sum of these values, as the division and the ceiling of
    binary64 numbers give them, over the invocations before it. *)
Theorem descriptor_has_a_record_for_each_code self a r fs fs' fob_s :
  create_run_directory self a r fs = (fs', Ok fob_s) ->
  exists fob_runs,
    fob_s = dumps (Obj (fob_dict a r fob_runs))
    /\ length fob_runs = length (get_codes_argv_with_exe_and_nprocs r)
    /\ forall j c, get_codes_argv_with_exe_and_nprocs r !! j = Some c ->
         exists exe args,
           argv c = exe :: args
           /\ (sos a = true ->
               is_ok (math_ceil_truediv (nprocs c) (processes_per_node (machine a)))
               = true)
           /\ fob_runs !! j
              = Some (descriptor_record self a r c (node_index_of a r j) exe args).
Proof.
  intros (fs1 & fs2 & fob_runs & idx & _ & Hcodes & -> & _)%create_run_directory_inv.
  apply fob_codes_inv in Hcodes as (_ & _ & _ & new & -> & Hlen & Hnew).
  exists new. split; [done|]. split; [done|]. intros j c Hj.
  destruct (Hnew j c Hj) as (exe & args & Hargv & Hdiv & ->). exists exe, args.
  split; [done|]. split; [done|]. unfold node_index_of. by destruct (sos a).
Qed.

(** X15.  After the materialization of a run that returned, the run
    directory is a directory and holds the command lines of the codes
    in [codar.cheetah.run-params.txt], the parameters of the run as
    JSON with an indentation of 2 in [codar.cheetah.run-params.json],
    the descriptor and a line end in [codar.cheetah.fob.json], and a
    profiling directory for each invocation; and the names of the
    invocations are all different, a second invocation of a name
    being refused with its profiling directory. *)
Theorem materialized_run_has_its_files self a r fs fs' fob_s :
  create_run_directory self a r fs = (fs', Ok fob_s) ->
  fs' !! run_path r = Some Dir
  /\ fs' !! join (run_path r) run_command_name
     = Some (File (run_command_text (get_codes_argv_with_exe_and_nprocs r)))
  /\ fs' !! join (run_path r) run_json_name
     = Some (File (dumps_indent 2 (as_dict r)))
  /\ fs' !! run_fob_path r = Some (File (fob_s +:+ nl))
  /\ (forall c, c ∈ get_codes_argv_with_exe_and_nprocs r ->
        fs' !! tau_profile_dir r c = Some Dir)
  /\ NoDup (map cname (get_codes_argv_with_exe_and_nprocs r)).
Proof.
  intros Hrun. pose proof (create_run_directory_dir _ _ _ _ _ _ Hrun) as Hdir.
  apply create_run_directory_inv in Hrun
    as (fs1 & fs2 & fob_runs & idx & Hfiles & Hcodes & -> & Hw).
  pose proof (fob_codes_extends [] nowhere self a r
                (get_codes_argv_with_exe_and_nprocs r) ([], 0) fs1 (Forall_nil_2 _))
    as (_ & _ & Hkeep).
  rewrite Hcodes in Hkeep. simpl in Hkeep.
  pose proof (write_file_extends (fun _ => True) (run_fob_path r)
                (dumps (Obj (fob_dict a r fob_runs)) +:+ nl) fs2 I) as (Hd & _).
  rewrite Hw in Hd. simpl in Hd.
  apply fob_codes_inv in Hcodes as (_ & Htau & Hnd & _).
  apply write_file_ok in Hw as ->.
  unfold run_files in Hfiles.
  apply bind_inv_ok in Hfiles as (fsa & [] & _ & Hfiles).
  apply bind_inv_ok in Hfiles as (fsb & [] & _ & Hfiles).
  apply bind_inv_ok in Hfiles as (fsc & [] & _ & Hfiles).
  apply bind_inv_ok in Hfiles as (fsd & [] & _ & Hfiles).
  apply bind_inv_ok in Hfiles as (fse & [] & Htxt & Hjson).
  apply write_file_ok in Htxt as ->. apply write_file_ok in Hjson as ->.
  split_and!; try done.
  - unfold run_fob_path. rewrite lookup_insert_ne by (by intros [_ [=]]%join_inj).
    apply (Hkeep _ _ (fun F => F)).
    rewrite lookup_insert_ne by (by intros [_ [=]]%join_inj).
    by rewrite lookup_insert_eq.
  - unfold run_fob_path. rewrite lookup_insert_ne by (by intros [_ [=]]%join_inj).
    apply (Hkeep _ _ (fun F => F)). by rewrite lookup_insert_eq.
  - by rewrite lookup_insert_eq.
  - intros c Hc. apply Hd. by apply Htau.
Qed.

(** X16.  With [sos] set and a machine of 0 processes a node, no run
    that has an invocation is materialized: the division raises
    [ZeroDivisionError] at the first invocation, after the files of the
    run were written and its profiling directory was made. *)
Theorem no_processes_per_node_stops_sos self a r :
  sos a = true -> processes_per_node (machine a) = 0 ->
  (forall fs, get_codes_argv_with_exe_and_nprocs r <> [] ->
     is_ok (create_run_directory self a r fs).2 = false)
  /\ (forall c l fs fs1 fs2,
        get_codes_argv_with_exe_and_nprocs r = c :: l ->
        run_files self a r fs = (fs1, Ok tt) ->
        makedirs false (tau_profile_dir r c) fs1 = (fs2, Ok tt) ->
        create_run_directory self a r fs = (fs2, Raise ZeroDivisionError)
        /\ fs2 !! tau_profile_dir r c = Some Dir).
Proof.
  intros Hsos Hppn. split.
  - intros fs Hne.
    destruct (create_run_directory self a r fs) as [fs' [fob_s|e]] eqn:Hrun; [|done].
    apply create_run_directory_inv in Hrun as (fs1 & fs2 & fob_runs & idx & _ & Hc & _).
    apply fob_codes_inv in Hc as (Hok & _). destruct (Hok Hne) as [Hz _].
    by destruct (Hz Hsos).
  - intros c l fs fs1 fs2 Hcodes Hfiles Hmk. split; [|by eapply makedirs_ok].
    unfold create_run_directory. rewrite (bind_ok _ _ _ _ _ Hfiles), Hcodes.
    apply bind_raise. simpl. apply bind_raise. unfold fob_code.
    fold (tau_profile_dir r c). rewrite (bind_ok _ _ _ _ _ Hmk).
    apply bind_raise. by rewrite Hsos, Hppn.
Qed.

(** X17.  A run with an invocation whose command line is empty is
    never materialized; when it is the first invocation, and with
    [sos] set [math.ceil(nprocs / machine.processes_per_node)] returns
    for it, the call raises [IndexError] after the files of the run
    were written, an empty line for the invocation among the command
    lines, and the profiling directory was made; when the division or
    the ceiling raises, the call raises its exception in place of
    [IndexError]. *)
Theorem empty_command_line_stops_the_run self a r :
  (forall c fs, c ∈ get_codes_argv_with_exe_and_nprocs r -> argv c = [] ->
     is_ok (create_run_directory self a r fs).2 = false)
  /\ (forall c l fs fs1 fs2,
        get_codes_argv_with_exe_and_nprocs r = c :: l -> argv c = [] ->
        (sos a = true ->
         is_ok (math_ceil_truediv (nprocs c) (processes_per_node (machine a))) = true) ->
        run_files self a r fs = (fs1, Ok tt) ->
        makedirs false (tau_profile_dir r c) fs1 = (fs2, Ok tt) ->
        create_run_directory self a r fs = (fs2, Raise IndexError)
        /\ fs2 !! tau_profile_dir r c = Some Dir
        /\ exists rest,
             fs2 !! join (run_path r) run_command_name = Some (File (nl +:+ rest)))
  /\ (forall c l fs fs1 fs2 e,
        get_codes_argv_with_exe_and_nprocs r = c :: l -> sos a = true ->
        math_ceil_truediv (nprocs c) (processes_per_node (machine a)) = Raise e ->
        run_files self a r fs = (fs1, Ok tt) ->
        makedirs false (tau_profile_dir r c) fs1 = (fs2, Ok tt) ->
        create_run_directory self a r fs = (fs2, Raise e)).
Proof.
  split.
  - intros c fs Hc Hargv.
    destruct (create_run_directory self a r fs) as [fs' [fob_s|e]] eqn:Hrun; [|done].
    apply create_run_directory_inv in Hrun as (fs1 & fs2 & fob_runs & idx & _ & Hl & _).
    apply fob_codes_inv in Hl as (_ & _ & _ & new & _ & _ & Hnew).
    apply list_elem_of_lookup_1 in Hc as [j Hj].
    destruct (Hnew j c Hj) as (exe & args & Hargv' & _). congruence.
  - split; [|intros c l fs fs1 fs2 e Hcodes Hsos Hdiv Hfiles Hmk;
              unfold create_run_directory;
              rewrite (bind_ok _ _ _ _ _ Hfiles), Hcodes;
              apply bind_raise; simpl; apply bind_raise; unfold fob_code;
              fold (tau_profile_dir r c); rewrite (bind_ok _ _ _ _ _ Hmk);
              apply bind_raise; by rewrite Hsos, Hdiv].
    intros c l fs fs1 fs2 Hcodes Hargv Hppn Hfiles Hmk. split_and!.
    + unfold create_run_directory. rewrite (bind_ok _ _ _ _ _ Hfiles), Hcodes.
      apply bind_raise. simpl. apply bind_raise. unfold fob_code.
      fold (tau_profile_dir r c). rewrite (bind_ok _ _ _ _ _ Hmk).
      destruct (sos a) eqn:Hsos.
      * destruct (math_ceil_truediv _ _) as [n|e]; [|by specialize (Hppn eq_refl)].
        unfold bind, ret. by rewrite Hargv.
      * unfold bind, ret. by rewrite Hargv.
    + by eapply makedirs_ok.
    + exists (run_command_text l).
      pose proof (makedirs_extends [] nowhere false (tau_profile_dir r c) fs1
                    (Forall_nil_2 _)) as (_ & _ & Hkeep).
      rewrite Hmk in Hkeep. apply (Hkeep _ _ (fun F => F)).
      unfold run_files in Hfiles.
      apply bind_inv_ok in Hfiles as (fsa & [] & _ & Hfiles).
      apply bind_inv_ok in Hfiles as (fsb & [] & _ & Hfiles).
      apply bind_inv_ok in Hfiles as (fsc & [] & _ & Hfiles).
      apply bind_inv_ok in Hfiles as (fsd & [] & _ & Hfiles).
      apply bind_inv_ok in Hfiles as (fse & [] & Htxt & Hjson).
      apply write_file_ok in Htxt as ->. apply write_file_ok in Hjson as ->.
      rewrite lookup_insert_ne by (by intros [_ [=]]%join_inj).
      rewrite lookup_insert_eq, Hcodes. unfold run_command_text. simpl.
      rewrite Hargv. by destruct l.
Qed.

End WithExternals.

#[local] Existing Instance example_externals.

Lemma descriptor_has_a_record_for_each_code_witness :
  exists fob_runs,
    from_result "" example_materialized.2
    = dumps (Obj (fob_dict example_args (example_run "0") fob_runs))
    /\ length fob_runs = length example_codes
    /\ forall j c, example_codes !! j = Some c ->
         exists exe args,
           argv c = exe :: args
           /\ (sos example_args = true -> is_ok (math_ceil_truediv (nprocs c) 4) = true)
           /\ fob_runs !! j
              = Some (descriptor_record example_launcher example_args (example_run "0")
                        c (node_index_of example_args (example_run "0") j) exe args).
Proof.
  apply (descriptor_has_a_record_for_each_code example_launcher example_args
           (example_run "0") example_fs example_materialized.1).
  apply (ok_outcome example_materialized). vm_compute. reflexivity.
Defined.

Lemma materialized_run_has_its_files_witness :
  example_materialized.1 !! run_path (example_run "0") = Some Dir
  /\ example_materialized.1 !! join (run_path (example_run "0")) run_command_name
     = Some (File (run_command_text example_codes))
  /\ example_materialized.1 !! join (run_path (example_run "0")) run_json_name
     = Some (File (dumps_indent 2 (as_dict (example_run "0"))))
  /\ example_materialized.1 !! run_fob_path (example_run "0")
     = Some (File (from_result "" example_materialized.2 +:+ nl))
  /\ (forall c, c ∈ example_codes ->
        example_materialized.1 !! tau_profile_dir (example_run "0") c = Some Dir)
  /\ NoDup (map cname example_codes).
Proof.
  apply (materialized_run_has_its_files example_launcher example_args
           (example_run "0") example_fs).
  apply (ok_outcome example_materialized). vm_compute. reflexivity.
Defined.

Lemma no_processes_per_node_stops_sos_witness :
  is_ok (create_run_directory example_launcher example_args_no_ppn (example_run "0")
           example_fs).2 = false
  /\ create_run_directory example_launcher example_args_no_ppn (example_run "0")
       example_fs
     = (example_tau_no_ppn.1, Raise ZeroDivisionError)
  /\ example_tau_no_ppn.1 !! tau_profile_dir (example_run "0") example_sim = Some Dir.
Proof.
  destruct (no_processes_per_node_stops_sos example_launcher example_args_no_ppn
              (example_run "0") eq_refl eq_refl) as [Hnever Hfirst].
  split; [by apply Hnever|].
  apply (Hfirst example_sim (tail example_codes) example_fs example_files_no_ppn.1).
  - reflexivity.
  - apply (ok_outcome_unit example_files_no_ppn). vm_compute. reflexivity.
  - apply (ok_outcome_unit example_tau_no_ppn). vm_compute. reflexivity.
Defined.

Lemma empty_command_line_stops_the_run_witness :
  is_ok (create_run_directory example_launcher example_args example_broken_run
           example_fs).2 = false
  /\ create_run_directory example_launcher example_args example_run_no_exe example_fs
     = (example_tau_no_exe.1, Raise IndexError)
  /\ example_tau_no_exe.1 !! tau_profile_dir example_run_no_exe example_no_exe
     = Some Dir
  /\ (exists rest,
       example_tau_no_exe.1 !! join (run_path example_run_no_exe) run_command_name
       = Some (File (nl +:+ rest)))
  /\ create_run_directory example_launcher example_args_no_ppn (example_run "0")
       example_fs
     = (example_tau_no_ppn.1, Raise ZeroDivisionError).
Proof.
  split.
  - apply (proj1 (empty_command_line_stops_the_run example_launcher example_args
                    example_broken_run)
             {| cname := "analysis"; argv := []; nprocs := 1; sleep_after := None |});
      [|reflexivity].
    apply list_elem_of_lookup. by exists 1%nat.
  - refine ((fun Hfirst Hraise =>
               conj (proj1 Hfirst)
                 (conj (proj1 (proj2 Hfirst)) (conj (proj2 (proj2 Hfirst)) Hraise)))
              _ _).
    + apply (proj1 (proj2 (empty_command_line_stops_the_run example_launcher
                             example_args example_run_no_exe))
               example_no_exe [] example_fs example_files_no_exe.1).
      * reflexivity.
      * reflexivity.
      * intros _. vm_compute. reflexivity.
      * apply (ok_outcome_unit example_files_no_exe). vm_compute. reflexivity.
      * apply (ok_outcome_unit example_tau_no_exe). vm_compute. reflexivity.
    + apply (proj2 (proj2 (empty_command_line_stops_the_run example_launcher
                             example_args_no_ppn (example_run "0")))
               example_sim (tail example_codes) example_fs example_files_no_ppn.1).
      * reflexivity.
      * reflexivity.
      * reflexivity.
      * apply (ok_outcome_unit example_files_no_ppn). vm_compute. reflexivity.
      * apply (ok_outcome_unit example_tau_no_ppn). vm_compute. reflexivity.
Defined.

End RunTheorems.

Module TextFacts.

Import Json FS FSSpec FSFacts JsonFacts Launchers LaunchersSpec LaunchersFacts
       MaterializeSpec MaterializeFacts RunFacts.

Lemma dict_get_set_ne {V} k k' (v : V) d :
  k <> k' -> dict_get k (dict_set k' v d) = dict_get k d.
Proof.
  intros Hk. induction d as [|[k0 v0] d IH]; simpl.
  - by rewrite decide_False.
  - destruct (decide (k' = k0)) as [->|Hk0]; simpl.
    + by rewrite !decide_False.
    + destruct (decide (k = k0)); [done|]. apply IH.
Qed.

Lemma dict_get_set_same {V} k (v : V) d : dict_get k (dict_set k v d) = Some v.
Proof.
  induction d as [|[k0 v0] d IH]; simpl.
  - by rewrite decide_True.
  - destruct (decide (k = k0)) as [->|Hk0]; simpl.
    + by rewrite decide_True.
    + by rewrite decide_False.
Qed.

Lemma printable_app s1 s2 :
  printable (s1 +:+ s2) = printable s1 && printable s2.
Proof.
  induction s1 as [|c s1 IH]; [done|]. simpl. rewrite IH. by rewrite andb_assoc.
Qed.

Lemma escape_char_printable c : printable (escape_char c) = true.
Proof. by destruct c as [[] [] [] [] [] [] [] []]. Qed.

Lemma escape_printable s : printable (escape s) = true.
Proof.
  induction s as [|c s IH]; [done|]. simpl.
  by rewrite printable_app, escape_char_printable, IH.
Qed.

Lemma encode_string_printable s : printable (encode_string s) = true.
Proof.
  unfold encode_string. simpl. by rewrite printable_app, escape_printable.
Qed.

Lemma pretty_N_char_printable x : printable (String (pretty_N_char x) "") = true.
Proof. unfold pretty_N_char. by repeat case_match. Qed.

Lemma pretty_N_go_printable x : forall s,
  printable s = true -> printable (pretty_N_go x s) = true.
Proof.
  induction (N.lt_wf_0 x) as [x _ IH]; intros s Hs.
  destruct (decide (x = 0)%N) as [->|Hx]; [done|].
  rewrite pretty_N_go_step by lia. apply IH; [apply N.div_lt; lia|].
  change (String ?c s) with (String c "" +:+ s).
  by rewrite printable_app, pretty_N_char_printable.
Qed.

Lemma pretty_Z_printable (z : Z) : printable (pretty z) = true.
Proof.
  assert (HN : forall n : N, printable (pretty n) = true).
  { intros n. unfold pretty, pretty_N. case_decide; [done|].
    by apply pretty_N_go_printable. }
  destruct z as [|p|p]; [done|apply (HN (Npos p))|].
  unfold pretty, pretty_Z. simpl. apply (HN (Npos p)).
Qed.

Lemma join_printable sep l :
  printable sep = true -> Forall (fun s => printable s = true) l ->
  printable (PyStr.join sep l) = true.
Proof.
  intros Hsep. induction 1 as [|s l Hs Hl IH]; [done|].
  destruct l as [|s' l]; [done|].
  change (PyStr.join sep (s :: s' :: l)) with (s +:+ sep +:+ PyStr.join sep (s' :: l)).
  by rewrite !printable_app, Hs, Hsep, IH.
Qed.

Lemma encode_printable v : forall level, printable (encode None level v) = true.
Proof.
  revert v.
  apply (value_ind' (fun v => forall level, printable (encode None level v) = true)).
  - done.
  - by intros [].
  - intros z level. apply pretty_Z_printable.
  - intros s level. apply encode_string_printable.
  - intros l Hl level. destruct l as [|v l]; [done|].
    cbn [encode newline_indent item_separator].
    rewrite !printable_app, join_printable; [done..|].
    apply Forall_fmap. eapply Forall_impl; [done|]. intros v' Hv. unfold compose.
    apply Hv.
  - intros l Hl level. destruct l as [|kv l]; [done|].
    cbn [encode newline_indent item_separator].
    rewrite !printable_app, join_printable; [done..|].
    apply Forall_fmap. eapply Forall_impl; [done|]. intros [k v'] Hv.
    unfold compose. cbn [fst snd] in *.
    by rewrite !printable_app, encode_string_printable, Hv.
Qed.

Lemma replace_apostrophes_newlines s :
  count_newlines (Shlex.replace_apostrophes s) = count_newlines s.
Proof.
  induction s as [|c s IH]; [done|]. simpl.
  destruct (Ascii.eqb c Shlex.apostrophe) eqn:Hc; simpl; [|by rewrite IH].
  apply Ascii.eqb_eq in Hc as ->. simpl. by rewrite IH.
Qed.

Lemma quote_newlines s : count_newlines (Shlex.quote s) = count_newlines s.
Proof.
  unfold Shlex.quote. destruct s as [|c s]; [done|].
  destruct (Shlex.all_safe _); [done|].
  cbn [count_newlines]. rewrite count_newlines_app, replace_apostrophes_newlines.
  simpl. lia.
Qed.

Lemma join_quote_newlines words :
  count_newlines (PyStr.join " " (map Shlex.quote words))
  = sum_list (map count_newlines words).
Proof.
  induction words as [|w words IH]; [done|].
  destruct words as [|w' words].
  - simpl. rewrite quote_newlines. lia.
  - change (PyStr.join " " (map Shlex.quote (w :: w' :: words)))
      with (Shlex.quote w +:+ " " +:+ PyStr.join " " (map Shlex.quote (w' :: words))).
    rewrite !count_newlines_app, IH, quote_newlines. simpl. lia.
Qed.

End TextFacts.

Module TextTheorems.

Import Json FS FSSpec FSFacts JsonFacts Launchers LaunchersSpec LaunchersExamples
       LaunchersFacts MaterializeSpec MaterializeFacts RunFacts TextFacts MaterializeExamples.

(** X18.  [add_sos_env] sets the port, the meeting directory, [TAU_SOS],
    the ranks a node and the rank offset of the listener to its
    arguments, sets [LD_LIBRARY_PATH] when the name of the machine has
    the word titan in it, in any case of the letters, and leaves every
    other variable of the environment as it was. *)
Theorem add_sos_env_sets_its_variables self env rp ppn idx :
  let env' := add_sos_env self env rp ppn idx in
  dict_get "SOS_CMD_PORT" env' = Some (Int 22500)
  /\ dict_get "SOS_EVPATH_MEETUP" env' = Some (Str (to_string rp))
  /\ dict_get "TAU_SOS" env' = Some (Int 1)
  /\ dict_get "SOS_APP_RANKS_PER_NODE" env' = Some (Int ppn)
  /\ dict_get "SOS_LISTENER_RANK_OFFSET" env' = Some (Int idx)
  /\ dict_get "LD_LIBRARY_PATH" env'
     = (if Re.search_ci "titan" (machine_name self) then
          Some (Str "${LD_LIBRARY_PATH}:/sw/xk6/flexpath/1.12/cle5.2_gnu4.9.3/lib")
        else dict_get "LD_LIBRARY_PATH" env)
  /\ forall k, k ∉ sos_variables -> dict_get k env' = dict_get k env.
Proof.
  unfold add_sos_env. cbv zeta.
  destruct (Re.search_ci "titan" (machine_name self));
    (split_and!;
     [ by rewrite ?dict_get_set_ne, ?dict_get_set_same by done ..
     | intros k Hk; unfold sos_variables in Hk;
       rewrite !dict_get_set_ne;
       [done|intros ->; apply Hk; by apply (bool_decide_unpack _) ..] ]).
Qed.

(** X19.  The text of [codar.cheetah.run-params.txt] has one line end
    for each invocation and one for each line end in a word of a
    command line: it is one line for each invocation when no word has
    a line end in it. *)
Theorem run_params_has_a_line_for_each_code codes :
  count_newlines (run_command_text codes) = (length codes + newlines_in_words codes)%nat
  /\ (Forall (fun c => Forall (fun w => count_newlines w = 0%nat) (argv c)) codes ->
      count_newlines (run_command_text codes) = length codes).
Proof.
  assert (Hcount : count_newlines (run_command_text codes)
                   = (length codes + newlines_in_words codes)%nat).
  { unfold run_command_text, newlines_in_words.
    induction codes as [|c codes IH]; [done|].
    destruct codes as [|c' codes]; cbn [map String.concat length sum_list] in *.
    - rewrite count_newlines_app, join_quote_newlines. simpl. lia.
    - rewrite !count_newlines_app, IH, join_quote_newlines. simpl. lia. }
  split; [done|]. intros Hwords. rewrite Hcount.
  assert (newlines_in_words codes = 0%nat) as ->; [|lia].
  clear Hcount. unfold newlines_in_words.
  induction Hwords as [|c codes Hc _ IH]; [done|].
  cbn [map sum_list]. rewrite IH.
  assert (sum_list (map count_newlines (argv c)) = 0%nat) as ->; [|done].
  induction Hc as [|w ws Hw _ IHw]; [done|]. simpl. by rewrite Hw, IHw.
Qed.

Section WithExternals.

Context `{Externals}.

(** X20.  The descriptor of a run that was materialized is one line of
    printable ASCII characters, whatever the characters of the names,
    the words and the paths in it. *)
Theorem descriptor_is_a_line_of_ascii self a r fs fs' fob_s :
  create_run_directory self a r fs = (fs', Ok fob_s) ->
  printable fob_s = true /\ count_newlines fob_s = 0%nat.
Proof.
  intros (fs1 & fs2 & fob_runs & idx & _ & _ & -> & _)%create_run_directory_inv.
  split; [apply encode_printable|apply dumps_no_newline].
Qed.

End WithExternals.

#[local] Existing Instance example_externals.

Lemma add_sos_env_sets_its_variables_witness :
  dict_get "PROFILEDIR"
    (add_sos_env example_launcher [("PROFILEDIR", Str "/tau")] ["run-0"] 4 0)
  = dict_get "PROFILEDIR" [("PROFILEDIR", Str "/tau")].
Proof.
  destruct (add_sos_env_sets_its_variables example_launcher
              [("PROFILEDIR", Str "/tau")] ["run-0"] 4 0)
    as (_ & _ & _ & _ & _ & _ & Hother).
  apply Hother. intros Hin.
  repeat (apply elem_of_cons in Hin as [Hin|Hin]; [done|]).
  by apply elem_of_nil in Hin.
Defined.

Lemma run_params_has_a_line_for_each_code_witness :
  count_newlines (run_command_text example_codes) = length example_codes.
Proof.
  apply (proj2 (run_params_has_a_line_for_each_code example_codes)).
  repeat constructor.
Defined.

Lemma descriptor_is_a_line_of_ascii_witness :
  printable (from_result "" example_materialized.2) = true
  /\ count_newlines (from_result "" example_materialized.2) = 0%nat.
Proof.
  apply (descriptor_is_a_line_of_ascii example_launcher example_args (example_run "0")
           example_fs example_materialized.1).
  apply (ok_outcome example_materialized). vm_compute. reflexivity.
Defined.

End TextTheorems.

Module CopyFacts.

Import Json FS FSSpec FSFacts JsonFacts Launchers LaunchersSpec LaunchersFacts
       MaterializeSpec MaterializeFacts.

Lemma strip_prefix_Some pre p q : strip_prefix pre p = Some q <-> p = pre ++ q.
Proof.
  revert p. induction pre as [|c pre IH]; intros p; simpl.
  - split; congruence.
  - destruct p as [|d p]; [done|]. case_decide as Hcd.
    + subst d. rewrite IH. split; congruence.
    + split; [done|congruence].
Qed.

Lemma NoDup_fst_omap {K1 K2 V1 V2} (g : K1 * V1 -> option (K2 * V2)) l :
  (forall x1 x2 y1 y2, g x1 = Some y1 -> g x2 = Some y2 -> y1.1 = y2.1 -> x1.1 = x2.1) ->
  NoDup (map fst l) -> NoDup (map fst (omap g l)).
Proof.
  intros Hinj. induction l as [|x l IH]; [intros _; apply NoDup_nil_2|]. simpl.
  intros [Hx Hl]%NoDup_cons. destruct (g x) as [y|] eqn:Hgx; [|by apply IH].
  simpl. apply NoDup_cons. split; [|by apply IH].
  intros (y' & Hy & (x' & Hx' & Hgx')%list_elem_of_omap)%list_elem_of_fmap.
  apply Hx. apply list_elem_of_fmap. exists x'. split; [|done].
  by apply (Hinj x x' y y').
Qed.

Lemma rerooted_lookup src dst fs c rest :
  rerooted src dst fs !! (dst ++ c :: rest) = fs !! (src ++ c :: rest).
Proof.
  apply option_eq. intros n. unfold rerooted.
  rewrite <- elem_of_list_to_map.
  - rewrite list_elem_of_omap. split.
    + intros ([p n'] & Hp%elem_of_map_to_list & Hg). simpl in Hg.
      destruct (strip_prefix src p) as [[|c' rest']|] eqn:Hs; [done| |done].
      apply strip_prefix_Some in Hs as ->. injection Hg as Hk ->.
      by apply app_inv_head in Hk as [= -> ->].
    + intros Hn. exists (src ++ c :: rest, n). split; [by apply elem_of_map_to_list|].
      simpl. by rewrite (proj2 (strip_prefix_Some src _ (c :: rest)) eq_refl).
  - apply NoDup_fst_omap; [|apply NoDup_fst_map_to_list].
    intros [p1 n1] [p2 n2] [k1 m1] [k2 m2]. simpl.
    destruct (strip_prefix src p1) as [[|c1 r1]|] eqn:H1; [done| |done].
    destruct (strip_prefix src p2) as [[|c2 r2]|] eqn:H2; [done| |done].
    apply strip_prefix_Some in H1 as ->. apply strip_prefix_Some in H2 as ->.
    intros [= <- <-] [= <- <-] Hk%app_inv_head. by rewrite Hk.
Qed.

Lemma mkdir_other p q fs : q <> p -> (mkdir p fs).1 !! q = fs !! q.
Proof.
  intros Hq. unfold mkdir. destruct (fs !! p); [done|].
  destruct (fs !! dirname p) as [[|c]|]; [|done..]. simpl.
  by rewrite lookup_insert_ne.
Qed.

(** [os.makedirs(p)] makes no entry but [p] and the directories above
    it. *)
Lemma makedirs_rev_other exist_ok rp : forall fs q,
  ~ q `prefix_of` rev rp -> (makedirs_rev exist_ok rp fs).1 !! q = fs !! q.
Proof.
  induction rp as [|c rhead IH]; intros fs q Hq; rewrite makedirs_rev_unfold.
  - simpl. pose proof (mkdir_other [] q fs) as Hm.
    destruct (mkdir [] fs) as [fs2 [[]|e]]; simpl in *.
    + apply Hm. intros ->. by apply Hq.
    + destruct (exist_ok && isdir fs2 []); simpl; apply Hm; intros ->; by apply Hq.
  - assert (Hparent : (parent_step exist_ok (c :: rhead) fs).1 !! q = fs !! q).
    { unfold parent_step. destruct rhead as [|c' rh]; [done|].
      destruct (exists_ fs _); [done|].
      specialize (IH fs q). 
      destruct (makedirs_rev exist_ok (c' :: rh) fs) as [fs' [[]|e]]; simpl in *.
      - apply IH. intros Hpre. apply Hq. etrans; [done|]. by apply prefix_app_r.
      - assert (fs' !! q = fs !! q) as Hfs.
        { apply IH. intros Hpre. apply Hq. etrans; [done|]. by apply prefix_app_r. }
        by destruct e. }
    destruct (parent_step exist_ok (c :: rhead) fs) as [fs1 [[]|e]]; [|done].
    simpl in Hparent. rewrite <- Hparent.
    pose proof (mkdir_other (rev (c :: rhead)) q fs1) as Hm.
    destruct (mkdir (rev (c :: rhead)) fs1) as [fs2 [[]|e]]; simpl in *.
    + apply Hm. intros ->. by apply Hq.
    + destruct (exist_ok && isdir fs2 _); simpl; apply Hm; intros ->; by apply Hq.
Qed.

(** [shutil.copytree(src, dst)] gives the entries below [dst] the
    entries below [src], when there was nothing below [dst]. *)
Lemma copytree_copies src dst fs fs' :
  copytree src dst fs = (fs', Ok tt) ->
  (forall q, fs !! (dst ++ q) = None) ->
  forall c rest, fs' !! (dst ++ c :: rest) = fs !! (src ++ c :: rest).
Proof.
  unfold copytree. destruct (fs !! src) as [[|t]|]; [|done..].
  destruct (makedirs false dst fs) as [fs1 [[]|e]] eqn:Hm; [|done].
  intros [= <-] Hfree c rest.
  assert (Hfs1 : fs1 !! (dst ++ c :: rest) = None).
  { rewrite <- (Hfree (c :: rest)).
    change fs1 with (fs1, @Ok unit tt).1. rewrite <- Hm. unfold makedirs.
    apply makedirs_rev_other. rewrite rev_involutive.
    intros Hpre%prefix_length. rewrite length_app in Hpre. simpl in Hpre. lia. }
  by rewrite lookup_union_r, rerooted_lookup.
Qed.

End CopyFacts.

Module CopyTheorems.

Import Json FS FSSpec FSFacts JsonFacts Launchers LaunchersSpec LaunchersExamples
       LaunchersFacts MaterializeSpec MaterializeFacts CopyFacts MaterializeExamples.

Section WithExternals.

Context `{Externals}.

(** X21.  After a materialization that returned, in a file system
    that had nothing at and below the output directory, every file and
    directory of the scripts of the scheduler is in the output
    directory under the path it has below the scripts, a file with its
    text; but for [group-env.sh] and [fobs.json], which the call writes
    itself, and for the entries of a run directory. *)
Theorem scripts_of_the_scheduler_are_copied self a runs fs fs' c rest n :
  create_group_directory self a runs fs = (fs', Ok tt) ->
  (forall q, fs !! (output_directory self ++ q) = None) ->
  fs !! (script_dir self ++ c :: rest) = Some n ->
  c :: rest <> ["group-env.sh"] -> c :: rest <> [fobs_name] ->
  Forall (fun r => run_path r <> dirname (output_directory self ++ c :: rest)) runs ->
  fs' !! (output_directory self ++ c :: rest) = Some n.
Proof.
  unfold create_group_directory, create_group_directory_fobs.
  destruct (group_scripts self a fs) as [fs1 [[]|e]] eqn:Hg; [|by intros [=]].
  destruct (write_file (fobs_path self) "" fs1) as [fs2 [[]|e]] eqn:Hw;
    [|by intros [=]].
  destruct (create_run_directories self a runs [] fs2) as [fs3 [f res]] eqn:Hloop.
  intros [= <- ->] Hfree Hn Henv Hfobs Hruns.
  set (p := output_directory self ++ c :: rest) in *.
  assert (Hp_env : p <> env_path self).
  { unfold p, env_path, join. intros Heq%app_inv_head. by apply Henv. }
  assert (Hp_fobs : p <> fobs_path self).
  { unfold p, fobs_path, join. intros Heq%app_inv_head. by apply Hfobs. }
  assert (Hp_runs : ~ inside_runs runs p).
  { intros (r & Hr & x & Hx). rewrite Forall_forall in Hruns.
    apply (Hruns r Hr). by rewrite Hx, dirname_join. }
  apply group_scripts_inv in Hg as (fs0 & secs & _ & Hcopy & _ & ->).
  pose proof (copytree_copies _ _ _ _ Hcopy Hfree c rest) as Hcopied.
  fold p in Hcopied. rewrite Hn in Hcopied.
  apply write_file_ok in Hw as ->.
  apply create_run_directories_spec in Hloop as ((Hdirs & Hfiles & Hkeep) & _).
  rewrite lookup_insert_ne by done.
  assert (Hfs2 : <[fobs_path self:=File ""]>
                   (<[env_path self:=File
                        (GROUP_ENV_TEMPLATE_format (group_env_of a secs))]> fs0)
                 !! p = Some n) by (by rewrite !lookup_insert_ne).
  destruct n as [|text]; [by apply Hdirs|by apply Hkeep].
Qed.

End WithExternals.

#[local] Existing Instance example_externals.

Lemma scripts_of_the_scheduler_are_copied_witness :
  example_group.1 !! (output_directory example_launcher ++ ["run-group.sh"])
  = Some (File "#!/bin/bash").
Proof.
  apply (scripts_of_the_scheduler_are_copied example_launcher example_args
           example_group_runs example_fs example_group.1 "run-group.sh" []).
  - apply (ok_outcome_unit example_group). vm_compute. reflexivity.
  - intros q. apply not_elem_of_list_to_map_1. simpl.
    intros Hq. repeat (apply elem_of_cons in Hq as [Hq|Hq]; [done|]).
    by apply elem_of_nil in Hq.
  - reflexivity.
  - done.
  - done.
  - repeat constructor; done.
Defined.

End CopyTheorems.

Module InputFacts.

Import Json FS FSSpec FSFacts JsonFacts Launchers LaunchersSpec LaunchersFacts
       MaterializeSpec MaterializeFacts.

Lemma for_each_app {A} (l1 l2 : list A) (body : A -> io unit) fs :
  for_each (l1 ++ l2) body fs = (for_each l1 body >>> for_each l2 body) fs.
Proof.
  revert fs. induction l1 as [|x l1 IH]; intros fs; [done|].
  simpl. unfold bind. destruct (body x fs) as [fs1 [[]|e]]; [|done].
  rewrite IH. done.
Qed.

Lemma copy_into_writes (W : path -> Prop) src d :
  W (join d (basename src)) -> io_extends [d] W (copy src d).
Proof.
  intros HW fs [Hd _]%Forall_cons. unfold copy, isdir. rewrite Hd.
  by apply copyfile_extends.
Qed.

Lemma copy_into_ok src d fs fs' text :
  fs !! d = Some Dir -> fs !! src = Some (File text) ->
  copy src d fs = (fs', Ok tt) ->
  fs' = <[join d (basename src) := File text]> fs.
Proof.
  intros Hd Hsrc. unfold copy, isdir, copyfile. rewrite Hd.
  case_decide; [done|]. rewrite Hsrc. apply write_file_ok.
Qed.

Lemma io_extends_for_each_in {A} ds W (l : list A) (body : A -> io unit) :
  (forall x, x ∈ l -> io_extends ds W (body x)) -> io_extends ds W (for_each l body).
Proof.
  induction l as [|x l IH]; intros Hbody; simpl; [apply io_extends_ret|].
  apply io_extends_bind; [apply Hbody; by left|]. intros _. apply IH.
  intros y Hy. apply Hbody. by right.
Qed.

End InputFacts.

Module InputTheorems.

Import Json FS FSSpec FSFacts JsonFacts Launchers LaunchersSpec LaunchersExamples
       LaunchersFacts MaterializeSpec MaterializeFacts InputFacts MaterializeExamples.

Section WithExternals.

Context `{Externals}.

(** X22.  After the materialization of a run that returned, an input
    file of the run that lies outside the run directory is in the run
    directory under its own name and with its text, when no later input
    and no ADIOS file of the run has that name and the name is none of
    the three files that the call writes. *)
Theorem input_is_copied_into_the_run self a r fs fs' fob_s i p text :
  create_run_directory self a r fs = (fs', Ok fob_s) ->
  inputs r !! i = Some p ->
  fs !! p = Some (File text) -> ~ inside (run_path r) p ->
  (forall j q, (i < j)%nat -> inputs r !! j = Some q -> basename q <> basename p) ->
  Forall (fun pv => xml_filename pv <> basename p) (adios_transform_params r) ->
  basename p ∉ [run_command_name; run_json_name; run_fob_name] ->
  fs' !! join (run_path r) (basename p) = Some (File text).
Proof.
  intros Hrun Hi Hp Hout Hlater Hadios Hnames.
  set (target := join (run_path r) (basename p)).
  set (W := fun q : path => q <> target).
  assert (HW : forall x, x <> basename p -> W (join (run_path r) x)).
  { intros x Hx Heq. by apply join_inj in Heq as [_ ?]. }
  apply create_run_directory_inv in Hrun
    as (fs1 & fs2 & fob_runs & idx & Hfiles & Hcodes & -> & Hw).
  unfold run_files in Hfiles.
  apply bind_inv_ok in Hfiles as (fsa & [] & Hmk & Hfiles).
  apply bind_inv_ok in Hfiles as (fsb & [] & Htau & Hfiles).
  apply bind_inv_ok in Hfiles as (fsc & [] & Hin & Hfiles).
  apply bind_inv_ok in Hfiles as (fsd & [] & Hxml & Hfiles).
  apply bind_inv_ok in Hfiles as (fse & [] & Htxt & Hjson).
  rewrite <- (take_drop_middle _ _ _ Hi), for_each_app in Hin.
  apply bind_inv_ok in Hin as (fsb1 & [] & Hbefore & Hin). simpl in Hin.
  apply bind_inv_ok in Hin as (fsb2 & [] & Hcopy & Hafter).
  (* up to the copy of [p] *)
  pose proof (makedirs_extends [] (inside (run_path r)) true (run_path r) fs
                (Forall_nil_2 _)) as Ha.
  rewrite Hmk in Ha. simpl in Ha. apply makedirs_ok in Hmk.
  assert (Hb : extends (inside (run_path r)) fsa fsb).
  { destruct (tau_config a) as [cfg|].
    - pose proof (copy_into_extends cfg (run_path r) fsa) as Hc.
      rewrite Htau in Hc. apply Hc. by constructor.
    - unfold ret in Htau. injection Htau as <-. apply extends_refl. }
  assert (Hb1 : extends (inside (run_path r)) fsb fsb1).
  { pose proof (io_extends_for_each [run_path r] (inside (run_path r))
                  (take i (inputs r))
                  (fun input_rpath => copy input_rpath (run_path r))
                  (fun x => copy_into_extends x (run_path r)) fsb) as Hc.
    rewrite Hbefore in Hc. apply Hc. constructor; [|done]. by apply Hb. }
  assert (Hdir1 : fsb1 !! run_path r = Some Dir) by (by apply Hb1, Hb).
  assert (Hp1 : fsb1 !! p = Some (File text)).
  { destruct Hb1 as (_ & _ & K1), Hb as (_ & _ & K2), Ha as (_ & _ & K3). auto. }
  apply (copy_into_ok _ _ _ _ text Hdir1 Hp1) in Hcopy. fold target in Hcopy.
  (* after the copy of [p] *)
  assert (Hdir2 : fsb2 !! run_path r = Some Dir).
  { rewrite Hcopy, lookup_insert_ne; [done|]. apply join_ne_self. }
  assert (Hc : extends W fsb2 fsc).
  { pose proof (io_extends_for_each_in [run_path r] W (drop (S i) (inputs r))
                  (fun input_rpath => copy input_rpath (run_path r))) as Hc.
    specialize (Hc ltac:(
      intros q [j Hj]%list_elem_of_lookup_1; apply copy_into_writes, HW;
      rewrite lookup_drop in Hj; eapply Hlater; [|exact Hj]; lia) fsb2).
    rewrite Hafter in Hc. apply Hc. by constructor. }
  assert (Hd : extends W fsc fsd).
  { pose proof (io_extends_for_each_in [] W (adios_transform_params r)
                  (fun pv => adios_xml_transform (join (run_path r) (xml_filename pv))
                               (pv_group_name pv) (var_name pv) (pv_value pv))) as Hd.
    rewrite Forall_forall in Hadios.
    specialize (Hd ltac:(
      intros pv Hpv; apply adios_xml_transform_extends, HW; by apply Hadios) fsc).
    rewrite Hxml in Hd. by apply Hd. }
  assert (Hname : forall x, x ∈ [run_command_name; run_json_name; run_fob_name] ->
                    x <> basename p) by (by intros x Hx ->).
  pose proof (write_file_extends W (join (run_path r) run_command_name)
                (run_command_text (get_codes_argv_with_exe_and_nprocs r)) fsd) as He.
  rewrite Htxt in He. specialize (He ltac:(apply HW, Hname; by apply (bool_decide_unpack _))).
  pose proof (write_file_extends W (join (run_path r) run_json_name)
                (dumps_indent 2 (as_dict r)) fse) as H1.
  rewrite Hjson in H1. specialize (H1 ltac:(apply HW, Hname; by apply (bool_decide_unpack _))).
  pose proof (fob_codes_extends [] W self a r
                (get_codes_argv_with_exe_and_nprocs r) ([], 0) fs1 (Forall_nil_2 _))
    as H2.
  rewrite Hcodes in H2.
  pose proof (write_file_extends W (run_fob_path r)
                (dumps (Obj (fob_dict a r fob_runs)) +:+ nl) fs2) as H3.
  rewrite Hw in H3. specialize (H3 ltac:(apply HW, Hname; by apply (bool_decide_unpack _))).
  simpl in *.
  assert (Hkeep : extends W fsb2 fs').
  { repeat (eapply extends_trans; [eassumption|]). apply extends_refl. }
  destruct Hkeep as (_ & _ & Hkeep). apply Hkeep; [by intros F; apply F|].
  by rewrite Hcopy, lookup_insert_eq.
Qed.

End WithExternals.

#[local] Existing Instance example_externals.

Lemma input_is_copied_into_the_run_witness :
  example_two_inputs.1 !! join (run_path example_run_two_inputs) (basename example_script)
  = Some (File "#!/bin/bash").
Proof.
  apply (input_is_copied_into_the_run example_launcher example_args
           example_run_two_inputs example_fs example_two_inputs.1
           (from_result "" example_two_inputs.2) 1%nat).
  - apply (ok_outcome example_two_inputs). vm_compute. reflexivity.
  - reflexivity.
  - reflexivity.
  - intros [x Hx]. done.
  - intros [|[|j]] q Hj Hq; [lia..|done].
  - repeat constructor. done.
  - intros Hin. repeat (apply elem_of_cons in Hin as [Hin|Hin]; [done|]).
    by apply elem_of_nil in Hin.
Defined.

End InputTheorems.

Module FrameFacts.

Import Json FS FSSpec FSFacts JsonFacts Launchers LaunchersSpec LaunchersFacts
       MaterializeSpec MaterializeFacts CopyFacts.

Lemma touches_only_ret {A} T (a : A) : touches_only T (ret a).
Proof. by intros fs q _. Qed.

Lemma touches_only_raise {A} T e : touches_only T (@raise A e).
Proof. by intros fs q _. Qed.

Lemma touches_only_bind {A B} T (m : io A) (f : A -> io B) :
  touches_only T m -> (forall a, touches_only T (f a)) -> touches_only T (bind m f).
Proof.
  intros Hm Hf fs q Hq. unfold bind. specialize (Hm fs q Hq).
  destruct (m fs) as [fs1 [a|e]]; [|done]. simpl in Hm. rewrite <- Hm.
  by apply Hf.
Qed.

Lemma touches_only_for_each {A} T (l : list A) (body : A -> io unit) :
  (forall x, touches_only T (body x)) -> touches_only T (for_each l body).
Proof.
  intros Hbody. induction l as [|x l IH]; simpl; [apply touches_only_ret|].
  by apply touches_only_bind.
Qed.

Lemma touches_only_weaken {A} (T T' : path -> Prop) (m : io A) :
  (forall q, T q -> T' q) -> touches_only T m -> touches_only T' m.
Proof. intros HT Hm fs q Hq. apply Hm. auto. Qed.

Lemma makedirs_touches exist_ok p :
  touches_only (fun q => q `prefix_of` p) (makedirs exist_ok p).
Proof.
  intros fs q Hq. unfold makedirs. apply makedirs_rev_other.
  by rewrite rev_involutive.
Qed.

Lemma write_file_touches p text : touches_only (eq p) (write_file p text).
Proof.
  intros fs q Hq. unfold write_file.
  destruct (fs !! p) as [[|c]|]; [done|by simpl; rewrite lookup_insert_ne|].
  destruct (fs !! dirname p) as [[|c]|]; [|done..].
  by simpl; rewrite lookup_insert_ne.
Qed.

Lemma copyfile_touches src dst : touches_only (eq dst) (copyfile src dst).
Proof.
  intros fs q Hq. unfold copyfile. case_decide; [done|].
  destruct (fs !! src) as [[|text]|]; [done| |done]. by apply write_file_touches.
Qed.

Lemma copy_touches src d :
  touches_only (fun q => q = d \/ inside d q) (copy src d).
Proof.
  intros fs q Hq. unfold copy. destruct (isdir fs d).
  - apply copyfile_touches. intros <-. apply Hq. right. apply inside_join.
  - apply copyfile_touches. intros <-. apply Hq. by left.
Qed.

Lemma rerooted_lookup_other src dst fs q :
  ~ dst `prefix_of` q -> rerooted src dst fs !! q = None.
Proof.
  intros Hq. unfold rerooted. apply not_elem_of_list_to_map_1.
  intros ([k n] & -> & ([p n'] & _ & Hg)%list_elem_of_omap)%list_elem_of_fmap.
  simpl in *. destruct (strip_prefix src p) as [[|c rest]|]; [done| |done].
  injection Hg as <- _. apply Hq. by eexists.
Qed.

Lemma copytree_touches src dst :
  touches_only (fun q => q `prefix_of` dst \/ dst `prefix_of` q) (copytree src dst).
Proof.
  intros fs q Hq. unfold copytree. destruct (fs !! src) as [[|c]|]; [|done..].
  pose proof (makedirs_touches false dst fs q) as Hm.
  destruct (makedirs false dst fs) as [fs1 [[]|e]]; simpl in *.
  - rewrite lookup_union_l by (apply rerooted_lookup_other; tauto). apply Hm. tauto.
  - apply Hm. tauto.
Qed.

Lemma prefix_of_join q d x : q `prefix_of` join d x -> q `prefix_of` d \/ q = join d x.
Proof.
  unfold join. intros [k Hk]. destruct k as [|y k' _] using rev_ind.
  - right. by rewrite app_nil_r in Hk.
  - left. rewrite app_assoc in Hk. apply app_inj_tail in Hk as [-> _]. by eexists.
Qed.

Section WithExternals.

Context `{Externals}.

Lemma adios_xml_transform_touches p g v x :
  touches_only (eq p) (adios_xml_transform p g v x).
Proof.
  intros fs q Hq. unfold adios_xml_transform.
  destruct (fs !! p) as [[|text]|]; [done| |done].
  destruct (xml_set_transform text g v x); [|done].
  by simpl; rewrite lookup_insert_ne.
Qed.

Lemma fob_code_touches self a r acc c :
  touches_only (around_run r) (fob_code self a r acc c).
Proof.
  unfold fob_code. destruct acc as [fob_runs idx].
  apply touches_only_bind.
  { eapply touches_only_weaken; [|apply makedirs_touches].
    intros q [Hq| ->]%prefix_of_join; [by left|right; apply inside_join]. }
  intros _. apply touches_only_bind.
  { destruct (sos a); [|apply touches_only_ret].
    destruct (math_ceil_truediv _ _); [apply touches_only_ret|apply touches_only_raise]. }
  intros [env idx']. destruct (argv c); [apply touches_only_raise|].
  apply touches_only_bind; [|intros; apply touches_only_ret].
  destruct (timeout a) as [t|]; [|apply touches_only_ret].
  destruct (parse_timedelta_seconds t);
    [apply touches_only_ret|apply touches_only_raise].
Qed.

Lemma fob_codes_touches self a r l :
  forall acc, touches_only (around_run r) (fob_codes self a r acc l).
Proof.
  induction l as [|c l IH]; intros acc; simpl; [apply touches_only_ret|].
  apply touches_only_bind; [apply fob_code_touches|done].
Qed.

Lemma write_in_run_touches r x text :
  touches_only (around_run r) (write_file (join (run_path r) x) text).
Proof.
  eapply touches_only_weaken; [|apply write_file_touches].
  intros q <-. right. apply inside_join.
Qed.

Lemma copy_in_run_touches r src :
  touches_only (around_run r) (copy src (run_path r)).
Proof.
  eapply touches_only_weaken; [|apply copy_touches].
  intros q [->|Hq]; [by left|by right].
Qed.

Lemma run_files_touches self a r : touches_only (around_run r) (run_files self a r).
Proof.
  unfold run_files.
  apply touches_only_bind; [|intros _].
  { eapply touches_only_weaken; [|apply makedirs_touches]. intros q Hq. by left. }
  apply touches_only_bind; [|intros _].
  { destruct (tau_config a); [apply copy_in_run_touches|apply touches_only_ret]. }
  apply touches_only_bind; [|intros _].
  { apply touches_only_for_each. intros p. apply copy_in_run_touches. }
  apply touches_only_bind; [|intros _].
  { apply touches_only_for_each. intros pv.
    eapply touches_only_weaken; [|apply adios_xml_transform_touches].
    intros q <-. right. apply inside_join. }
  apply touches_only_bind; [|intros _]; apply write_in_run_touches.
Qed.

Lemma create_run_directory_touches self a r :
  touches_only (around_run r) (create_run_directory self a r).
Proof.
  unfold create_run_directory.
  apply touches_only_bind; [apply run_files_touches|intros _].
  apply touches_only_bind; [apply fob_codes_touches|intros [fob_runs idx]].
  apply touches_only_bind; [apply write_in_run_touches|intros _].
  apply touches_only_ret.
Qed.

Lemma create_run_directories_touches self a runs : forall f fs q,
  (forall r, r ∈ runs -> ~ around_run r q) ->
  (create_run_directories self a runs f fs).1 !! q = fs !! q.
Proof.
  induction runs as [|r runs IH]; intros f fs q Hq; [done|]. simpl.
  pose proof (create_run_directory_touches self a r fs q (Hq r ltac:(by left))) as Hr.
  destruct (create_run_directory self a r fs) as [fs1 [fob_s|e]]; [|done].
  simpl in Hr. rewrite <- Hr. apply IH. intros r' Hr'. apply Hq. by right.
Qed.

Lemma group_scripts_touches self a :
  touches_only (fun q => q `prefix_of` output_directory self
                         \/ output_directory self `prefix_of` q)
    (group_scripts self a).
Proof.
  intros fs q Hq. unfold group_scripts.
  destruct (isdir fs (script_dir self)); [|done]. simpl. revert fs q Hq.
  apply touches_only_bind; [apply copytree_touches|]. intros _.
  destruct (parse_timedelta_seconds (walltime a)); [|apply touches_only_raise].
  eapply touches_only_weaken; [|apply write_file_touches].
  intros q <-. right. by eexists.
Qed.

End WithExternals.

End FrameFacts.

Module FrameTheorems.

Import Json FS FSSpec FSFacts JsonFacts Launchers LaunchersSpec LaunchersExamples
       LaunchersFacts MaterializeSpec MaterializeFacts CopyFacts FrameFacts MaterializeExamples.

Section WithExternals.

Context `{Externals}.

(** X23.  Whether it returns or raises, the materialization of a group
    touches nothing but the output directory, the run directories, the
    directories above them, what lies below the output directory and
    the entries of the run directories: every other path has
    afterwards the entry that it had, or none as before. *)
Theorem materialization_touches_its_directories_only self a runs fs q :
  ~ around_group self runs q ->
  (create_group_directory self a runs fs).1 !! q = fs !! q.
Proof.
  intros Hq. unfold create_group_directory, create_group_directory_fobs.
  assert (Hout : ~ (q `prefix_of` output_directory self
                    \/ output_directory self `prefix_of` q)).
  { intros Hc. apply Hq. unfold around_group. tauto. }
  assert (Hfobs : fobs_path self <> q).
  { intros <-. apply Hout. right. by eexists. }
  pose proof (group_scripts_touches self a fs q Hout) as Hg.
  destruct (group_scripts self a fs) as [fs1 [[]|e]]; [|done]. simpl in Hg.
  pose proof (write_file_touches (fobs_path self) "" fs1 q Hfobs) as Hw.
  destruct (write_file (fobs_path self) "" fs1) as [fs2 [[]|e]];
    simpl in Hw; [|by rewrite <- Hg].
  pose proof (create_run_directories_touches self a runs [] fs2 q) as Hruns.
  destruct (create_run_directories self a runs [] fs2) as [fs3 [f res]].
  simpl in *. rewrite lookup_insert_ne by done. rewrite Hruns; [congruence|].
  intros r Hr Hc. apply Hq. unfold around_group. eauto.
Qed.

End WithExternals.

#[local] Existing Instance example_externals.

Lemma materialization_touches_its_directories_only_witness :
  (create_group_directory example_launcher example_args example_group_runs
     example_fs).1 !! ["home"; "heat.xml"]
  = example_fs !! ["home"; "heat.xml"].
Proof.
  apply materialization_touches_its_directories_only.
  intros [[k Hk]|[[k Hk]|(r & Hr & [[k Hk]|[x Hx]])]]; try done.
  - repeat (apply elem_of_cons in Hr as [->|Hr]; [done|]). by apply elem_of_nil in Hr.
  - repeat (apply elem_of_cons in Hr as [->|Hr]; [done|]). by apply elem_of_nil in Hr.
Defined.

End FrameTheorems.
